(** * E-commerce data pipeline: generator, loader and analytics queries

    A shallow embedding of [data_generator.py], [database_loader.py] and
    [queries.py].  Python exceptions are an error result, the two random
    generators (the [random] module's and Faker's own), the wall-clock date,
    the flat files and the SQLite file are explicit state.

    The libraries the program calls (CPython's [random], Faker, pandas,
    SQLite) are not part of the repository; what the program relies on from
    them is collected in the class [Platform] and in the small models of
    [random.choice], [random.randint], [random.sample], [Faker.date_between]
    and of the SQLite connection below. *)

From Stdlib Require Import ZArith NArith QArith Qround String DecimalString List FinFun Sorted
  Permutation Bool Lia.
Import ListNotations.
Open Scope Z_scope.

(** ** Exceptions and the state-and-error monad *)

Inductive exn : Type :=
| IndexError
| ValueError
| OSError
| FileNotFoundError (path : string)
| IntegrityError
| OperationalError
| DatabaseError.

Inductive result (A : Type) : Type :=
| Ok (a : A)
| Raise (e : exn).
Arguments Ok {A} a.
Arguments Raise {A} e.

(** A computation over a state [St]: it returns a value or raises, and the
    state reached is kept in both cases (an exception does not undo the
    draws already made or the files already written). *)
Definition M (St A : Type) : Type := St -> result A * St.

Definition ret {St A} (a : A) : M St A := fun s => (Ok a, s).

Definition raise {St A} (e : exn) : M St A := fun s => (Raise e, s).

Definition bind {St A B} (m : M St A) (f : A -> M St B) : M St B :=
  fun s => match m s with
           | (Ok a, s') => f a s'
           | (Raise e, s') => (Raise e, s')
           end.

Notation "x <- m ;; k" := (bind m (fun x => k))
  (at level 61, m at next level, right associativity).
Notation "' pat <- m ;; k" := (bind m (fun x => match x with pat => k end))
  (at level 61, pat pattern, m at next level, right associativity).
Notation "m ;;; k" := (bind m (fun _ => k))
  (at level 61, right associativity).

(** [for x in xs: out.append(f(x))] *)
Fixpoint forM {St A B} (xs : list A) (f : A -> M St B) : M St (list B) :=
  match xs with
  | [] => ret []
  | x :: xs' => y <- f x ;; ys <- forM xs' f ;; ret (y :: ys)
  end.

(** [range(1, n + 1)] *)
Definition range1 (n : Z) : list Z := map Z.of_nat (seq 1 (Z.to_nat n)).

(** ** What the program takes from its libraries *)

(** Dates are kept as day ordinals.  The program stores them as
    ['%Y-%m-%d'] strings and parses them back; on four-digit years that
    rendering is a bijection that preserves the order, so [max] and the
    comparisons of the source are those of the ordinals. *)
Definition date : Type := Z.

(** [gen] is the state of one [random.Random] instance, [float] the type of
    IEEE doubles. *)
Class Platform (gen float : Type) : Type := {
  (** one raw draw from a generator *)
  draw : gen -> N * gen;
  (** the operations the program applies to doubles *)
  float_of_Z : Z -> float;
  fadd : float -> float -> float;
  fsub : float -> float -> float;
  fmul : float -> float -> float;
  (** [x <= y], a total comparison (no NaN is ever stored) *)
  fleb : float -> float -> bool;
  fleb_total : forall x y, fleb x y = true \/ fleb y x = true;
  (** Python's [round(x, 2)] and SQLite's [ROUND(x, 2)] *)
  py_round2 : float -> float;
  sql_round2 : float -> float;
  (** [random.random()] out of a raw draw *)
  random_unit : N -> float;
  (** Faker's text providers, each advancing Faker's generator *)
  fake_name : gen -> string * gen;
  fake_email : gen -> string * gen;
  fake_catch_phrase : gen -> string * gen;
  fake_text : N -> gen -> string * gen
}.

(** ** The five tables *)

Inductive table_name : Type := Users | Products | Orders | OrderItems | Reviews.

(** One value per table. *)
Record per_table (A : Type) : Type := {
  of_users : A;
  of_products : A;
  of_orders : A;
  of_order_items : A;
  of_reviews : A
}.
Arguments of_users {A} _.
Arguments of_products {A} _.
Arguments of_orders {A} _.
Arguments of_order_items {A} _.
Arguments of_reviews {A} _.

Definition get_table {A} (t : table_name) (s : per_table A) : A :=
  match t with
  | Users => of_users s
  | Products => of_products s
  | Orders => of_orders s
  | OrderItems => of_order_items s
  | Reviews => of_reviews s
  end.

Definition set_table {A} (t : table_name) (v : A) (s : per_table A) : per_table A :=
  match t with
  | Users => {| of_users := v; of_products := of_products s; of_orders := of_orders s;
                of_order_items := of_order_items s; of_reviews := of_reviews s |}
  | Products => {| of_users := of_users s; of_products := v; of_orders := of_orders s;
                   of_order_items := of_order_items s; of_reviews := of_reviews s |}
  | Orders => {| of_users := of_users s; of_products := of_products s; of_orders := v;
                 of_order_items := of_order_items s; of_reviews := of_reviews s |}
  | OrderItems => {| of_users := of_users s; of_products := of_products s; of_orders := of_orders s;
                     of_order_items := v; of_reviews := of_reviews s |}
  | Reviews => {| of_users := of_users s; of_products := of_products s; of_orders := of_orders s;
                  of_order_items := of_order_items s; of_reviews := v |}
  end.

Definition all_tables {A} (v : A) : per_table A :=
  {| of_users := v; of_products := v; of_orders := v; of_order_items := v; of_reviews := v |}.

(** ** Data model *)

Section Model.
Context {gen float : Type} {P : Platform gen float}.

Record user : Type := {
  u_id : Z;
  u_name : string;
  u_email : string;
  u_signup_date : date
}.

Record product : Type := {
  p_id : Z;
  p_name : string;
  p_category : string;
  p_price : float
}.

Record order : Type := {
  o_id : Z;
  o_user_id : Z;
  o_order_date : date;
  o_total_amount : float
}.

Record order_item : Type := {
  oi_id : Z;
  oi_order_id : Z;
  oi_product_id : Z;
  oi_quantity : Z;
  oi_subtotal : float
}.

Record review : Type := {
  r_id : Z;
  r_user_id : Z;
  r_product_id : Z;
  r_rating : Z;
  r_review_text : string;
  r_review_date : date
}.

(** The dictionary [generate_data] returns. *)
Record dataset : Type := {
  ds_users : list user;
  ds_products : list product;
  ds_orders : list order;
  ds_order_items : list order_item;
  ds_reviews : list review
}.

(** ** Sources of randomness and the clock *)

(** [random.seed(42)] seeds the module-level generator and [Faker.seed(42)]
    Faker's own; both live for the whole process.  [today] is the date the
    relative bounds ['today'] and ['-2y'] are resolved against. *)
Record entropy : Type := {
  py_random : gen;
  faker_random : gen;
  today : date
}.

Definition py_draw : M entropy N :=
  fun e => let (r, g) := draw (py_random e) in
           (Ok r, {| py_random := g; faker_random := faker_random e; today := today e |}).

Definition faker_draw : M entropy N :=
  fun e => let (r, g) := draw (faker_random e) in
           (Ok r, {| py_random := py_random e; faker_random := g; today := today e |}).

Definition faker_text (provider : gen -> string * gen) : M entropy string :=
  fun e => let (s, g) := provider (faker_random e) in
           (Ok s, {| py_random := py_random e; faker_random := g; today := today e |}).

Definition get_today : M entropy date := fun e => (Ok (today e), e).

(** *** The [random] module *)

(** [Random._randbelow(n)], [n > 0]: a value in [0, n). *)
Definition randbelow (n : N) : M entropy N :=
  r <- py_draw ;; ret (r mod n)%N.

(** [random.choice(seq)]: [IndexError] on an empty sequence. *)
Definition choice {A} (seq : list A) : M entropy A :=
  match seq with
  | [] => raise IndexError
  | d :: _ =>
      i <- randbelow (N.of_nat (length seq)) ;;
      ret (nth (N.to_nat i) seq d)
  end.

(** [random.randint(a, b)]: [ValueError] on an empty range. *)
Definition randint (a b : Z) : M entropy Z :=
  if b <? a then raise ValueError
  else r <- randbelow (Z.to_N (b - a + 1)) ;; ret (a + Z.of_N r).

(** [random.uniform(a, b)] is [a + (b - a) * self.random()]. *)
Definition uniform (a b : float) : M entropy float :=
  r <- py_draw ;; ret (fadd a (fmul (fsub b a) (random_unit r))).

(** [pool[j] = pool[n - i - 1]] followed by the shrinking of the live part
    of the pool by one. *)
Fixpoint set_nth {A} (j : nat) (x : A) (l : list A) : list A :=
  match l, j with
  | [], _ => []
  | _ :: t, O => x :: t
  | h :: t, S j' => h :: set_nth j' x t
  end.

Definition pool_take {A} (j : nat) (pool : list A) (d : A) : list A :=
  removelast (set_nth j (last pool d) pool).

Fixpoint sample_pool {A} (pool : list A) (k : nat) : M entropy (list A) :=
  match k with
  | O => ret []
  | S k' =>
      match pool with
      | [] => raise ValueError
      | d :: _ =>
          j <- randbelow (N.of_nat (length pool)) ;;
          rest <- sample_pool (pool_take (N.to_nat j) pool d) k' ;;
          ret (nth (N.to_nat j) pool d :: rest)
      end
  end.

(** [random.sample(population, k)]: [k] elements at distinct positions,
    [ValueError] when [k] is negative or exceeds the population.  The
    selection follows the pool branch of CPython's implementation. *)
Definition sample {A} (population : list A) (k : Z) : M entropy (list A) :=
  if (k <? 0) || (Z.of_nat (length population) <? k) then raise ValueError
  else sample_pool population (Z.to_nat k).

(** *** Faker *)

(** A relative bound ['-Ny']: Faker turns a year into 365.24 days and the
    date arithmetic keeps the whole days of the (negative) offset. *)
Definition years_ago (y : Z) : M entropy date :=
  fun e => (Ok (today e - (36524 * y + 99) / 100), e).

(** [fake.date_between(start_date, end_date)]: a date of the closed
    interval, [ValueError] when the interval is empty. *)
Definition date_between (start_date end_date : date) : M entropy date :=
  if end_date <? start_date then raise ValueError
  else r <- faker_draw ;; ret (start_date + Z.of_N r mod (end_date - start_date + 1)).

(** ** [data_generator.py] *)

Definition generate_users (num_users : Z) : M entropy (list user) :=
  forM (range1 num_users) (fun i =>
    start <- years_ago 2 ;;
    stop <- get_today ;;
    signup_date <- date_between start stop ;;
    name <- faker_text fake_name ;;
    email <- faker_text fake_email ;;
    ret {| u_id := i; u_name := name; u_email := email; u_signup_date := signup_date |}).

Definition categories : list string :=
  ["Electronics"; "Clothing"; "Books"; "Home & Garden";
   "Sports"; "Toys"; "Beauty"; "Food & Beverages"]%string.

Definition generate_products (num_products : Z) : M entropy (list product) :=
  forM (range1 num_products) (fun i =>
    name <- faker_text fake_catch_phrase ;;
    category <- choice categories ;;
    price <- uniform (float_of_Z 10) (float_of_Z 500) ;;
    ret {| p_id := i; p_name := name; p_category := category; p_price := py_round2 price |}).

(** [df[df['id'] == key]...values[0]] / [.iloc[0]]: the first matching row,
    [IndexError] when there is none. *)
Definition first_row {A} (rows : list A) : M entropy A :=
  match rows with
  | [] => raise IndexError
  | r :: _ => ret r
  end.

Definition generate_orders (users_df : list user) (num_orders : Z) : M entropy (list order) :=
  let user_ids := map u_id users_df in
  forM (range1 num_orders) (fun i =>
    user_id <- choice user_ids ;;
    u <- first_row (filter (fun u => u_id u =? user_id) users_df) ;;
    stop <- get_today ;;
    order_date <- date_between (u_signup_date u) stop ;;
    total_amount <- uniform (float_of_Z 25) (float_of_Z 1000) ;;
    ret {| o_id := i; o_user_id := user_id; o_order_date := order_date;
           o_total_amount := py_round2 total_amount |}).

(** The sum of a column of floats, added up from 0 in row order, as
    [order_total += subtotal] does.  It also stands for SQL's [SUM], whose
    exact floating-point value plays no role below. *)
Definition fsum (l : list float) : float := fold_left fadd l (float_of_Z 0).

(** The rounded sum of the subtotals of the items of one order. *)
Definition rounded_items_total (order_id : Z) (order_items_df : list order_item) : float :=
  py_round2 (fsum (map oi_subtotal
                       (filter (fun it => oi_order_id it =? order_id) order_items_df))).

(** [orders_df.loc[orders_df['id'] == key, 'total_amount'] = value] *)
Definition set_total_amount (orders_df : list order) (key : Z) (value : float) : list order :=
  map (fun o => if o_id o =? key
                then {| o_id := o_id o; o_user_id := o_user_id o;
                        o_order_date := o_order_date o; o_total_amount := value |}
                else o) orders_df.

(** The inner loop of [generate_order_items]: the lines of one order, the
    next free item id and the running [order_total]. *)
Fixpoint order_lines (products_df : list product) (order_id : Z) (selected : list Z)
  (item_id : Z) (order_total : float) : M entropy (list order_item * Z * float) :=
  match selected with
  | [] => ret ([], item_id, order_total)
  | product_id :: rest =>
      product <- first_row (filter (fun p => p_id p =? product_id) products_df) ;;
      quantity <- randint 1 5 ;;
      let subtotal := py_round2 (fmul (p_price product) (float_of_Z quantity)) in
      ' (items, next_id, total) <-
        order_lines products_df order_id rest (item_id + 1) (fadd order_total subtotal) ;;
      ret ({| oi_id := item_id; oi_order_id := order_id; oi_product_id := product_id;
              oi_quantity := quantity; oi_subtotal := subtotal |} :: items, next_id, total)
  end.

(** The outer loop: [rows] are the rows [iterrows()] still has to visit,
    [orders_df] the frame that is updated in place. *)
Fixpoint order_items_loop (products_df : list product) (lo hi : Z) (rows : list order)
  (item_id : Z) (orders_df : list order) : M entropy (list order_item * list order) :=
  match rows with
  | [] => ret ([], orders_df)
  | o :: rest =>
      let product_ids := map p_id products_df in
      num_items <- randint lo hi ;;
      selected <- sample product_ids (Z.min num_items (Z.of_nat (length product_ids))) ;;
      ' (items, next_id, order_total) <-
        order_lines products_df (o_id o) selected item_id (float_of_Z 0) ;;
      let orders_df' := set_total_amount orders_df (o_id o) (py_round2 order_total) in
      ' (more, final_df) <- order_items_loop products_df lo hi rest next_id orders_df' ;;
      ret (items ++ more, final_df)
  end.

Definition generate_order_items (orders_df : list order) (products_df : list product)
  (num_items_per_order_range : Z * Z) : M entropy (list order_item * list order) :=
  let (lo, hi) := num_items_per_order_range in
  order_items_loop products_df lo hi orders_df 1 orders_df.

(** [list(set(series.unique()))]: every value once.  The order in which a
    Python set enumerates is an implementation detail; first occurrence is
    used here and no statement below depends on it. *)
Definition distinct (l : list Z) : list Z := nodup Z.eq_dec l.

(** [user_orders['order_date'].max()] of a non-empty selection *)
Definition max_order_date (first : order) (others : list order) : date :=
  fold_left Z.max (map o_order_date others) (o_order_date first).

Definition user_orders_of (orders_df : list order) (user_id : Z) : list order :=
  filter (fun o => o_user_id o =? user_id) orders_df.

(** The date of one review: after the reviewer's latest order, or within
    the last year when the reviewer has no order. *)
Definition review_date_for (orders_df : list order) (user_id : Z) : M entropy date :=
  match user_orders_of orders_df user_id with
  | first :: others =>
      stop <- get_today ;;
      date_between (max_order_date first others) stop
  | [] =>
      start <- years_ago 1 ;;
      stop <- get_today ;;
      date_between start stop
  end.

Definition generate_reviews (users_df : list user) (products_df : list product)
  (orders_df : list order) (order_items_df : list order_item) (num_reviews : Z)
  : M entropy (list review) :=
  let ordered_products := distinct (map oi_product_id order_items_df) in
  let ordered_users := distinct (map o_user_id orders_df) in
  forM (range1 num_reviews) (fun i =>
    user_id <- choice ordered_users ;;
    product_id <- choice ordered_products ;;
    review_date <- review_date_for orders_df user_id ;;
    rating <- randint 1 5 ;;
    text <- faker_text (fake_text 200) ;;
    ret {| r_id := i; r_user_id := user_id; r_product_id := product_id;
           r_rating := rating; r_review_text := text; r_review_date := review_date |}).

(** ** Flat files, the store and the process state *)

(** A record of a flat file or of a table: files and SQLite tables are not
    typed by the table they are meant for. *)
Inductive row : Type :=
| UserRow (u : user)
| ProductRow (p : product)
| OrderRow (o : order)
| OrderItemRow (i : order_item)
| ReviewRow (r : review).

(** The files [data/<table>.csv]; [None] for a file that does not exist. *)
Definition flat_files : Type := per_table (option (list row)).

(** A SQLite database: the tables that exist with their rows, and the names
    of the indexes. *)
Record database : Type := {
  db_tables : per_table (option (list row));
  db_indexes : list string
}.

Definition empty_database : database :=
  {| db_tables := all_tables None; db_indexes := [] |}.

(** The state of the process and of its working directory: the random
    generators and the clock, the directory [data] ([None] when it does not
    exist) and the file [ecommerce.db]. *)
Record world : Type := {
  env : entropy;
  data_dir : option flat_files;
  db_file : option database
}.

Definition with_env (e : entropy) (w : world) : world :=
  {| env := e; data_dir := data_dir w; db_file := db_file w |}.

Definition with_data_dir (d : option flat_files) (w : world) : world :=
  {| env := env w; data_dir := d; db_file := db_file w |}.

Definition with_db_file (d : option database) (w : world) : world :=
  {| env := env w; data_dir := data_dir w; db_file := d |}.

(** A generator step run in the process. *)
Definition in_process {A} (m : M entropy A) : M world A :=
  fun w => let (r, e) := m (env w) in (r, with_env e w).

(** [os.makedirs('data', exist_ok=True)] *)
Definition makedirs_data : M world unit :=
  fun w => match data_dir w with
           | Some _ => (Ok tt, w)
           | None => (Ok tt, with_data_dir (Some (all_tables None)) w)
           end.

(** [save_to_csv(df, 'data/<table>.csv')]: the file is (over)written;
    [OSError] when the directory is missing. *)
Definition save_to_csv (df : list row) (t : table_name) : M world unit :=
  fun w => match data_dir w with
           | None => (Raise OSError, w)
           | Some files => (Ok tt, with_data_dir (Some (set_table t (Some df) files)) w)
           end.

Definition generate_data : M world dataset :=
  users_df <- in_process (generate_users 100) ;;
  products_df <- in_process (generate_products 50) ;;
  orders_df <- in_process (generate_orders users_df 200) ;;
  ' (order_items_df, orders_df) <- in_process (generate_order_items orders_df products_df (1, 5)) ;;
  reviews_df <- in_process (generate_reviews users_df products_df orders_df order_items_df 150) ;;
  save_to_csv (map UserRow users_df) Users ;;;
  save_to_csv (map ProductRow products_df) Products ;;;
  save_to_csv (map OrderRow orders_df) Orders ;;;
  save_to_csv (map OrderItemRow order_items_df) OrderItems ;;;
  save_to_csv (map ReviewRow reviews_df) Reviews ;;;
  ret {| ds_users := users_df; ds_products := products_df; ds_orders := orders_df;
         ds_order_items := order_items_df; ds_reviews := reviews_df |}.

(** ** The SQLite connection *)

(** [disk] is the content of the database file, [txn] the working copy of
    the open transaction if there is one, [foreign_keys] the connection's
    [PRAGMA foreign_keys]. *)
Record connection : Type := {
  disk : database;
  txn : option database;
  foreign_keys : bool
}.

(** [sqlite3.connect(db_name)]: the file is created when it is absent;
    foreign keys are not enforced unless the pragma is set on the
    connection. *)
Definition sqlite3_connect (file : option database) : connection :=
  {| disk := match file with Some d => d | None => empty_database end;
     txn := None;
     foreign_keys := false |}.

Definition current (c : connection) : database :=
  match txn c with Some d => d | None => disk c end.

(** Writing [d] as the state the connection sees: into the open
    transaction, or straight to the file in autocommit mode. *)
Definition write_through (d : database) (c : connection) : connection :=
  match txn c with
  | Some _ => {| disk := disk c; txn := Some d; foreign_keys := foreign_keys c |}
  | None => {| disk := d; txn := None; foreign_keys := foreign_keys c |}
  end.

(** The implicit [BEGIN] the [sqlite3] module issues before a data
    modification statement; a DDL statement does not open a transaction. *)
Definition begin_implicit (c : connection) : connection :=
  match txn c with
  | Some _ => c
  | None => {| disk := disk c; txn := Some (disk c); foreign_keys := foreign_keys c |}
  end.

Definition commit (c : connection) : connection :=
  {| disk := current c; txn := None; foreign_keys := foreign_keys c |}.

Definition rollback (c : connection) : connection :=
  {| disk := disk c; txn := None; foreign_keys := foreign_keys c |}.

(** [conn.close()]: what was not committed is lost. *)
Definition close (c : connection) : connection := rollback c.

Definition with_rows (t : table_name) (rows : list row) (d : database) : database :=
  {| db_tables := set_table t (Some rows) (db_tables d); db_indexes := db_indexes d |}.

(** [CREATE TABLE IF NOT EXISTS t (...)] *)
Definition create_table_if_not_exists (t : table_name) : M connection unit :=
  fun c => let d := current c in
           match get_table t (db_tables d) with
           | Some _ => (Ok tt, c)
           | None => (Ok tt, write_through (with_rows t [] d) c)
           end.

(** [CREATE INDEX IF NOT EXISTS name ON t(column)] *)
Definition create_index_if_not_exists (name : string) (t : table_name) : M connection unit :=
  fun c => let d := current c in
           match get_table t (db_tables d) with
           | None => (Raise OperationalError, c)
           | Some _ =>
               if existsb (String.eqb name) (db_indexes d) then (Ok tt, c)
               else (Ok tt, write_through {| db_tables := db_tables d;
                                             db_indexes := db_indexes d ++ [name] |} c)
           end.

(** [DELETE FROM t] *)
Definition delete_from (t : table_name) : M connection unit :=
  fun c => let c := begin_implicit c in
           let d := current c in
           match get_table t (db_tables d) with
           | None => (Raise OperationalError, c)
           | Some _ => (Ok tt, write_through (with_rows t [] d) c)
           end.

(** [SELECT COUNT( * ) FROM t] *)
Definition select_count (t : table_name) : M connection Z :=
  fun c => match get_table t (db_tables (current c)) with
           | None => (Raise OperationalError, c)
           | Some rows => (Ok (Z.of_nat (length rows)), c)
           end.

(** *** Constraints of the schema of [create_schema] *)

Definition row_id (r : row) : Z :=
  match r with
  | UserRow u => u_id u
  | ProductRow p => p_id p
  | OrderRow o => o_id o
  | OrderItemRow i => oi_id i
  | ReviewRow r => r_id r
  end.

Definition rows_of (d : database) (t : table_name) : list row :=
  match get_table t (db_tables d) with Some rows => rows | None => [] end.

Definition has_id (d : database) (t : table_name) (key : Z) : bool :=
  existsb (fun r => row_id r =? key) (rows_of d t).

(** The row has the columns of the table. *)
Definition fits (t : table_name) (r : row) : bool :=
  match t, r with
  | Users, UserRow _ | Products, ProductRow _ | Orders, OrderRow _
  | OrderItems, OrderItemRow _ | Reviews, ReviewRow _ => true
  | _, _ => false
  end.

Definition email_of (r : row) : option string :=
  match r with UserRow u => Some (u_email u) | _ => None end.

Definition fltb (x y : float) : bool := negb (fleb y x).

(** [UNIQUE] and [CHECK] constraints, against the rows already in the
    table. *)
Definition checks (existing : list row) (r : row) : bool :=
  match r with
  | UserRow u =>
      negb (existsb (fun r' => match email_of r' with
                               | Some e => String.eqb e (u_email u)
                               | None => false
                               end) existing)
  | ProductRow p => fltb (float_of_Z 0) (p_price p)
  | OrderRow o => fleb (float_of_Z 0) (o_total_amount o)
  | OrderItemRow i => (0 <? oi_quantity i) && fleb (float_of_Z 0) (oi_subtotal i)
  | ReviewRow r => (1 <=? r_rating r) && (r_rating r <=? 5)
  end.

(** The [FOREIGN KEY ... REFERENCES] clauses. *)
Definition references_resolve (d : database) (r : row) : bool :=
  match r with
  | UserRow _ | ProductRow _ => true
  | OrderRow o => has_id d Users (o_user_id o)
  | OrderItemRow i => has_id d Orders (oi_order_id i) && has_id d Products (oi_product_id i)
  | ReviewRow r => has_id d Users (r_user_id r) && has_id d Products (r_product_id r)
  end.

(** One [INSERT INTO t VALUES (...)]. *)
Definition insert_row (enforce_fk : bool) (t : table_name) (d : database) (r : row)
  : result database :=
  match get_table t (db_tables d) with
  | None => Raise OperationalError
  | Some existing =>
      if negb (fits t r) then Raise OperationalError
      else if existsb (fun r' => row_id r' =? row_id r) existing then Raise IntegrityError
      else if negb (checks existing r) then Raise IntegrityError
      else if enforce_fk && negb (references_resolve d r) then Raise IntegrityError
      else Ok (with_rows t (existing ++ [r]) d)
  end.

Fixpoint insert_rows (enforce_fk : bool) (t : table_name) (d : database) (rows : list row)
  : result database :=
  match rows with
  | [] => Ok d
  | r :: rest =>
      match insert_row enforce_fk t d r with
      | Ok d' => insert_rows enforce_fk t d' rest
      | Raise e => Raise e
      end
  end.

(** [df.to_sql(table_name, conn, if_exists='append', index=False)] on a
    table that exists, which is how [load_csv_to_table] reaches it (the
    [DELETE FROM] before it fails on a missing table): pandas inserts the
    rows in a transaction of its own, which it commits, or rolls back when
    an insert fails. *)
Definition to_sql (df : list row) (t : table_name) : M connection unit :=
  fun c => let c := begin_implicit c in
           match insert_rows (foreign_keys c) t (current c) df with
           | Ok d => (Ok tt, commit (write_through d c))
           | Raise e => (Raise e, rollback c)
           end.

(** ** [database_loader.py] *)

Definition create_schema : M connection unit :=
  create_table_if_not_exists Users ;;;
  create_table_if_not_exists Products ;;;
  create_table_if_not_exists Orders ;;;
  create_table_if_not_exists OrderItems ;;;
  create_table_if_not_exists Reviews.

Definition csv_path (t : table_name) : string :=
  match t with
  | Users => "data/users.csv"
  | Products => "data/products.csv"
  | Orders => "data/orders.csv"
  | OrderItems => "data/order_items.csv"
  | Reviews => "data/reviews.csv"
  end%string.

(** [os.path.exists(csv_file)] and [pd.read_csv(csv_file)] *)
Definition read_csv (files : option flat_files) (t : table_name) : option (list row) :=
  match files with
  | None => None
  | Some fs => get_table t fs
  end.

Definition load_csv_to_table (files : option flat_files) (t : table_name) : M connection Z :=
  match read_csv files t with
  | None => raise (FileNotFoundError (csv_path t))
  | Some df =>
      delete_from t ;;;
      to_sql df t ;;;
      count <- select_count t ;;
      ret count
  end.

Definition create_indexes : M connection unit :=
  create_index_if_not_exists "idx_orders_user_id" Orders ;;;
  create_index_if_not_exists "idx_orders_order_date" Orders ;;;
  create_index_if_not_exists "idx_order_items_order_id" OrderItems ;;;
  create_index_if_not_exists "idx_order_items_product_id" OrderItems ;;;
  create_index_if_not_exists "idx_reviews_user_id" Reviews ;;;
  create_index_if_not_exists "idx_reviews_product_id" Reviews.

(** The body of the [try] block of [load_to_sqlite]. *)
Definition load_steps (files : option flat_files) : M connection unit :=
  create_schema ;;;
  load_csv_to_table files Users ;;;
  load_csv_to_table files Products ;;;
  load_csv_to_table files Orders ;;;
  load_csv_to_table files OrderItems ;;;
  load_csv_to_table files Reviews ;;;
  create_indexes ;;;
  fun c => (Ok tt, commit c).

(** [try: ... except Exception as e: conn.rollback(); raise e
    finally: conn.close()] *)
Definition try_load (files : option flat_files) : M connection unit :=
  fun c => match load_steps files c with
           | (Ok tt, c') => (Ok tt, close c')
           | (Raise e, c') => (Raise e, close (rollback c'))
           end.

Definition load_to_sqlite : M world unit :=
  fun w =>
    (* if os.path.exists(db_name): os.remove(db_name) *)
    let w := match db_file w with
             | Some _ => with_db_file None w
             | None => w
             end in
    let conn := sqlite3_connect (db_file w) in
    let (r, conn') := try_load (data_dir w) conn in
    (r, with_db_file (Some (disk conn')) w).

(** ** [dashboard.py] *)

(** [regenerate_all_data]: the directory is made, the data generated and
    loaded; any exception is reported on the page and turned into
    [False]. *)
Definition regenerate_all_data : M world bool :=
  fun w => match (makedirs_data ;;; generate_data ;;; load_to_sqlite) w with
           | (Ok _, w') => (Ok true, w')
           | (Raise _, w') => (Ok false, w')
           end.

(** ** [queries.py] *)

Record sales_row : Type := {
  product_name : string;
  category : string;
  times_ordered : Z;
  total_quantity_sold : Z;
  total_revenue : float
}.

Definition products_of (rows : list row) : list product :=
  flat_map (fun r => match r with ProductRow p => [p] | _ => [] end) rows.

Definition order_items_of (rows : list row) : list order_item :=
  flat_map (fun r => match r with OrderItemRow i => [i] | _ => [] end) rows.

(** [products p INNER JOIN order_items oi ON p.id = oi.product_id] *)
Definition join_products_items (ps : list product) (ois : list order_item)
  : list (product * order_item) :=
  flat_map (fun p => map (pair p) (filter (fun oi => p_id p =? oi_product_id oi) ois)) ps.

(** The key of [GROUP BY p.id, p.name, p.category]. *)
Definition group_key : Type := Z * string * string.

Definition key_of (j : product * order_item) : group_key :=
  (p_id (fst j), p_name (fst j), p_category (fst j)).

Definition key_eqb (a b : group_key) : bool :=
  let '(i, n, c) := a in
  let '(i', n', c') := b in
  (i =? i') && String.eqb n n' && String.eqb c c'.

Fixpoint group_keys (ks : list group_key) : list group_key :=
  match ks with
  | [] => []
  | k :: rest => k :: filter (fun k' => negb (key_eqb k k')) (group_keys rest)
  end.

Definition aggregate (joined : list (product * order_item)) (k : group_key) : sales_row :=
  let grp := filter (fun j => key_eqb k (key_of j)) joined in
  let '(_, name, cat) := k in
  {| product_name := name;
     category := cat;
     times_ordered := Z.of_nat (length grp);
     total_quantity_sold := fold_left Z.add (map (fun j => oi_quantity (snd j)) grp) 0;
     total_revenue := sql_round2 (fsum (map (fun j => oi_subtotal (snd j)) grp)) |}.

(** [ORDER BY total_revenue DESC] *)
Fixpoint insert_desc (r : sales_row) (sorted : list sales_row) : list sales_row :=
  match sorted with
  | [] => [r]
  | h :: t => if fleb (total_revenue h) (total_revenue r) then r :: sorted
              else h :: insert_desc r t
  end.

Definition order_by_revenue_desc (rows : list sales_row) : list sales_row :=
  fold_right insert_desc [] rows.

(** The statement of [get_product_sales_summary] on a database;
    [DatabaseError] (pandas' wrapping of "no such table") when a table is
    missing. *)
Definition product_sales_query (d : database) : result (list sales_row) :=
  match get_table Products (db_tables d), get_table OrderItems (db_tables d) with
  | Some ps, Some ois =>
      let joined := join_products_items (products_of ps) (order_items_of ois) in
      let groups := map (aggregate joined) (group_keys (map key_of joined)) in
      Ok (firstn 10 (order_by_revenue_desc groups))
  | _, _ => Raise DatabaseError
  end.

Definition get_product_sales_summary : M world (list sales_row) :=
  fun w => let conn := sqlite3_connect (db_file w) in
           let r := product_sales_query (current conn) in
           (r, with_db_file (Some (disk (close conn))) w).

(** The indexes [create_indexes] builds, in creation order. *)
Definition loader_indexes : list string :=
  ["idx_orders_user_id"; "idx_orders_order_date";
   "idx_order_items_order_id"; "idx_order_items_product_id";
   "idx_reviews_user_id"; "idx_reviews_product_id"]%string.

(** ** The other queries of [queries.py], [main.py] and [dashboard.py] *)

(** SQLite's [AVG] over an integer column, a double. *)
Class Averaging : Type := {
  sql_avg : list Z -> float
}.

Record spender_row : Type := {
  user_name : string;
  email : string;
  total_orders : Z;
  total_spent : float
}.

Record rating_row : Type := {
  rating_category : string;
  review_count : Z;
  average_rating : float
}.

Definition users_of (rows : list row) : list user :=
  flat_map (fun r => match r with UserRow u => [u] | _ => [] end) rows.

Definition orders_of (rows : list row) : list order :=
  flat_map (fun r => match r with OrderRow o => [o] | _ => [] end) rows.

Definition reviews_of (rows : list row) : list review :=
  flat_map (fun r => match r with ReviewRow v => [v] | _ => [] end) rows.

(** [ORDER BY key DESC] on any result set. *)
Fixpoint insert_desc_by {A} (key : A -> float) (r : A) (sorted : list A) : list A :=
  match sorted with
  | [] => [r]
  | h :: t => if fleb (key h) (key r) then r :: sorted
              else h :: insert_desc_by key r t
  end.

Definition order_desc_by {A} (key : A -> float) (rows : list A) : list A :=
  fold_right (insert_desc_by key) [] rows.

(** [LIMIT n]: a negative bound is no bound. *)
Definition sql_limit {A} (n : Z) (rows : list A) : list A :=
  if n <? 0 then rows else firstn (Z.to_nat n) rows.

(** [users u INNER JOIN orders o ON u.id = o.user_id] *)
Definition join_users_orders (us : list user) (os : list order) : list (user * order) :=
  flat_map (fun u => map (pair u) (filter (fun o => u_id u =? o_user_id o) os)) us.

(** The key of [GROUP BY u.id, u.name, u.email]. *)
Definition spender_key (j : user * order) : group_key :=
  (u_id (fst j), u_name (fst j), u_email (fst j)).

(** [COUNT(DISTINCT x)] *)
Definition count_distinct (xs : list Z) : Z := Z.of_nat (length (nodup Z.eq_dec xs)).

Definition aggregate_spender (joined : list (user * order)) (k : group_key) : spender_row :=
  let grp := filter (fun j => key_eqb k (spender_key j)) joined in
  let '(_, name, mail) := k in
  {| user_name := name;
     email := mail;
     total_orders := count_distinct (map (fun j => o_id (snd j)) grp);
     total_spent := sql_round2 (fsum (map (fun j => o_total_amount (snd j)) grp)) |}.

(** The groups of the top-spenders statement, before ordering. *)
Definition spender_groups (d : database) : list spender_row :=
  let joined := join_users_orders (users_of (rows_of d Users)) (orders_of (rows_of d Orders)) in
  map (aggregate_spender joined) (group_keys (map spender_key joined)).

Definition top_users_query (limit : Z) (d : database) : result (list spender_row) :=
  match get_table Users (db_tables d), get_table Orders (db_tables d) with
  | Some _, Some _ => Ok (sql_limit limit (order_desc_by total_spent (spender_groups d)))
  | _, _ => Raise DatabaseError
  end.

Definition get_top_users_by_spending (limit : Z) : M world (list spender_row) :=
  fun w => let conn := sqlite3_connect (db_file w) in
           let r := top_users_query limit (current conn) in
           (r, with_db_file (Some (disk (close conn))) w).

(** [products p INNER JOIN reviews r ON p.id = r.product_id] *)
Definition join_products_reviews (ps : list product) (rs : list review)
  : list (product * review) :=
  flat_map (fun p => map (pair p) (filter (fun v => p_id p =? r_product_id v) rs)) ps.

(** The distinct values of [GROUP BY p.category]. *)
Fixpoint group_names (ks : list string) : list string :=
  match ks with
  | [] => []
  | k :: rest => k :: filter (fun k' => negb (String.eqb k k')) (group_names rest)
  end.

Definition aggregate_rating {AV : Averaging} (joined : list (product * review)) (k : string)
  : rating_row :=
  let grp := filter (fun j => String.eqb k (p_category (fst j))) joined in
  {| rating_category := k;
     review_count := Z.of_nat (length grp);
     average_rating := sql_round2 (sql_avg (map (fun j => r_rating (snd j)) grp)) |}.

Definition rating_groups {AV : Averaging} (d : database) : list rating_row :=
  let joined := join_products_reviews (products_of (rows_of d Products))
                                      (reviews_of (rows_of d Reviews)) in
  map (aggregate_rating joined) (group_names (map (fun j => p_category (fst j)) joined)).

Definition category_rating_query {AV : Averaging} (d : database) : result (list rating_row) :=
  match get_table Products (db_tables d), get_table Reviews (db_tables d) with
  | Some _, Some _ => Ok (order_desc_by average_rating (rating_groups d))
  | _, _ => Raise DatabaseError
  end.

Definition get_average_rating_by_category {AV : Averaging} : M world (list rating_row) :=
  fun w => let conn := sqlite3_connect (db_file w) in
           let r := category_rating_query (current conn) in
           (r, with_db_file (Some (disk (close conn))) w).

(** The three result sets, in the order they are printed or shown. *)
Record query_results : Type := {
  top_users : list spender_row;
  product_sales : list sales_row;
  category_ratings : list rating_row
}.

(** [run_queries]: the three queries in turn, each printed; the value here
    is what is printed. *)
Definition run_queries {AV : Averaging} : M world query_results :=
  tu <- get_top_users_by_spending 5 ;;
  ps <- get_product_sales_summary ;;
  cr <- get_average_rating_by_category ;;
  ret {| top_users := tu; product_sales := ps; category_ratings := cr |}.

(** [main] of [main.py]: the exit status of the process, 0 when the
    pipeline ran through and 1 when [sys.exit(1)] was reached from either
    [except] clause. *)
Definition main {AV : Averaging} : world -> Z * world :=
  fun w => match (makedirs_data ;;; generate_data ;;; load_to_sqlite ;;; run_queries) w with
           | (Ok _, w') => (0, w')
           | (Raise _, w') => (1, w')
           end.


(** When [m] returns from a state on day [d], the state reached is on day
    [d] and the value satisfies [Q]. *)
Definition yields {A} (d : date) (m : M entropy A) (Q : A -> Prop) : Prop :=
  forall e a e', today e = d -> m e = (Ok a, e') -> today e' = d /\ Q a.

(** ** Notions used in the statements *)

(** [m] run from any state satisfying [I] returns, in a state satisfying
    [I], a value satisfying [Q]: it does not raise. *)
Definition returns {St A} (I : St -> Prop) (m : M St A) (Q : A -> Prop) : Prop :=
  forall s, I s -> exists a s', m s = (Ok a, s') /\ I s' /\ Q a.

(** The process runs on day [d]. *)
Definition on_day (d : date) (e : entropy) : Prop := today e = d.

(** The ids [a], [a + 1], ..., [n] of them. *)
Definition ids_from (a : Z) (n : nat) : list Z := map (fun k => a + Z.of_nat k) (seq 0 n).

(** One order line, as the inner loop writes it for order [order_id]. *)
Definition line_of (products_df : list product) (order_id : Z) (it : order_item) : Prop :=
  oi_order_id it = order_id /\
  1 <= oi_quantity it <= 5 /\
  exists p, hd_error (filter (fun p => p_id p =? oi_product_id it) products_df) = Some p /\
            oi_subtotal it = py_round2 (fmul (p_price p) (float_of_Z (oi_quantity it))).

(** The lines an order may get: between the two bounds of the range, capped
    by the size of the catalogue, on products of the catalogue, no product
    twice when the catalogue has no repeated id. *)
Definition block_of (products_df : list product) (lo hi : Z) (o : order)
  (blk : list order_item) : Prop :=
  Forall (line_of products_df (o_id o)) blk /\
  Z.min lo (Z.of_nat (length products_df)) <= Z.of_nat (length blk)
    <= Z.min hi (Z.of_nat (length products_df)) /\
  Forall (fun it => In (oi_product_id it) (map p_id products_df)) blk /\
  (NoDup (map p_id products_df) -> NoDup (map oi_product_id blk)).

(** The addresses of the user rows. *)
Definition emails (rows : list row) : list string :=
  flat_map (fun r => match email_of r with Some a => [a] | None => [] end) rows.

(** The [CHECK] clauses of the schema, read on one row. *)
Definition value_constraints (r : row) : Prop :=
  match r with
  | UserRow _ => True
  | ProductRow p => fltb (float_of_Z 0) (p_price p) = true
  | OrderRow o => fleb (float_of_Z 0) (o_total_amount o) = true
  | OrderItemRow i => 0 < oi_quantity i /\ fleb (float_of_Z 0) (oi_subtotal i) = true
  | ReviewRow v => 1 <= r_rating v <= 5
  end.

(** The groups of the product-revenue statement, before ordering. *)
Definition sales_groups (d : database) : list sales_row :=
  let joined := join_products_items (products_of (rows_of d Products))
                                    (order_items_of (rows_of d OrderItems)) in
  map (aggregate joined) (group_keys (map key_of joined)).

(** [fleb] is transitive, as [<=] on doubles is. *)
Definition fleb_transitive : Prop :=
  forall x y z : float, fleb x y = true -> fleb y z = true -> fleb x z = true.

(** A flat file the schema of table [t] accepts. *)
Definition valid_file (t : table_name) (rows : list row) : Prop :=
  Forall (fun r => fits t r = true) rows /\
  Forall value_constraints rows /\
  NoDup (map row_id rows) /\
  NoDup (emails rows).

(** A fresh database after [create_schema]: five empty tables, no index. *)
Definition schema_only : database :=
  {| db_tables := all_tables (Some []); db_indexes := [] |}.

(** Every reference of the dataset resolves inside the dataset. *)
Definition referentially_consistent (d : dataset) : Prop :=
  Forall (fun o => In (o_user_id o) (map u_id (ds_users d))) (ds_orders d) /\
  Forall (fun it => In (oi_order_id it) (map o_id (ds_orders d)) /\
                    In (oi_product_id it) (map p_id (ds_products d)))
         (ds_order_items d) /\
  Forall (fun r => In (r_user_id r) (map u_id (ds_users d)) /\
                   In (r_product_id r) (map p_id (ds_products d)))
         (ds_reviews d).

(** The tables of a run are a function of the generators and the clock
    alone: [generate_data] is the five generators run on [env w], followed
    by the five writes. *)
Definition generate_tables : M entropy dataset :=
  users_df <- generate_users 100 ;;
  products_df <- generate_products 50 ;;
  orders_df <- generate_orders users_df 200 ;;
  ' (order_items_df, orders_df) <- generate_order_items orders_df products_df (1, 5) ;;
  reviews_df <- generate_reviews users_df products_df orders_df order_items_df 150 ;;
  ret {| ds_users := users_df; ds_products := products_df; ds_orders := orders_df;
         ds_order_items := order_items_df; ds_reviews := reviews_df |}.

Definition written_files (d : dataset) : flat_files :=
  {| of_users := Some (map UserRow (ds_users d));
     of_products := Some (map ProductRow (ds_products d));
     of_orders := Some (map OrderRow (ds_orders d));
     of_order_items := Some (map OrderItemRow (ds_order_items d));
     of_reviews := Some (map ReviewRow (ds_reviews d)) |}.

(** How a row [x] of the frame passed in relates to the row [x'] at the
    same position of the frame returned, after the loop has visited [rows]
    and emitted [items]. *)
Definition updated_by (rows : list order) (items : list order_item) (x x' : order) : Prop :=
  o_id x' = o_id x /\
  o_user_id x' = o_user_id x /\
  o_order_date x' = o_order_date x /\
  (~ In (o_id x) (map o_id rows) -> o_total_amount x' = o_total_amount x) /\
  (NoDup (map o_id rows) -> In (o_id x) (map o_id rows) ->
   o_total_amount x' = rounded_items_total (o_id x) items).

(** [a] may precede [b] in the result of [ORDER BY total_revenue DESC]. *)
Definition revenue_ge (a b : sales_row) : Prop :=
  fleb (total_revenue b) (total_revenue a) = true.

End Model.

(** ** A concrete platform

    Exact rational arithmetic in place of doubles, a 64-bit linear
    congruential generator in place of the Mersenne Twister and short tables
    in place of Faker's.  It is used to run the model on concrete inputs. *)

Definition lcg (s : N) : N * N :=
  let s' := ((s * 6364136223846793005 + 1442695040888963407) mod 2 ^ 64)%N in
  ((s' / 2 ^ 11)%N, s').

Definition Q_of_N (n : N) : Q := inject_Z (Z.of_N n).

Definition Qround_half_even (x : Q) : Z :=
  let f := Qfloor x in
  match Qcompare (x - inject_Z f) (1 # 2) with
  | Lt => f
  | Gt => f + 1
  | Eq => if Z.even f then f else f + 1
  end.

Definition Qround_half_away (x : Q) : Z :=
  if Qle_bool 0 x then Qfloor (x + (1 # 2)) else - Qfloor (- x + (1 # 2)).

Definition Q_py_round2 (x : Q) : Q :=
  Qred (inject_Z (Qround_half_even (x * 100)) / 100).

Definition Q_sql_round2 (x : Q) : Q :=
  Qred (inject_Z (Qround_half_away (x * 100)) / 100).

Definition pick (table : list string) (g : N) : string * N :=
  let (r, g') := lcg g in
  (nth (N.to_nat (r mod N.of_nat (length table))) table EmptyString, g').

Definition names_table : list string :=
  ["Ada Quinn"; "Bo Reyes"; "Cy Stone"; "Di Tran"]%string.

(** An address made of the decimal digits of the draw. *)
Definition numbered_email (g : N) : string * N :=
  let (r, g') := lcg g in
  (("user" ++ NilEmpty.string_of_uint (N.to_uint r) ++ "@example.org")%string, g').

Definition phrases_table : list string :=
  ["Adaptive cache"; "Balanced hub"; "Compact array"]%string.

Definition texts_table : list string :=
  ["Works as described."; "Arrived late."; "Would buy again."]%string.

Lemma Qle_bool_total (x y : Q) : Qle_bool x y = true \/ Qle_bool y x = true.
Proof.
  destruct (Qlt_le_dec x y) as [Hlt | Hle].
  - left. apply Qle_bool_iff. apply Qlt_le_weak. exact Hlt.
  - right. apply Qle_bool_iff. exact Hle.
Qed.

#[global] Instance exact_platform : Platform N Q := {|
  draw := lcg;
  float_of_Z := inject_Z;
  fadd := fun x y => Qred (x + y);
  fsub := fun x y => Qred (x - y);
  fmul := fun x y => Qred (x * y);
  fleb := Qle_bool;
  fleb_total := Qle_bool_total;
  py_round2 := Q_py_round2;
  sql_round2 := Q_sql_round2;
  random_unit := fun r => Qred (Q_of_N (r mod 2 ^ 53) / Q_of_N (2 ^ 53));
  fake_name := pick names_table;
  fake_email := numbered_email;
  fake_catch_phrase := pick phrases_table;
  fake_text := fun _ => pick texts_table
|}.

(** A process whose two generators were just seeded, on day 739000, in a
    directory that has [data/] and no database yet. *)
Definition seeded : @entropy N :=
  @Build_entropy N 42%N 42%N 739000.

Definition fresh_world : @world N Q :=
  @Build_world N Q seeded (Some (all_tables None)) None.

(** ** Concrete inputs on the concrete platform *)

Definition xproduct (id : Z) (name cat : string) (price : Q) : @product Q :=
  @Build_product Q id name cat price.

Definition xorder (id user_id : Z) (day : date) (total : Q) : @order Q :=
  @Build_order Q id user_id day total.

Definition xitem (id order_id product_id quantity : Z) (subtotal : Q)
  : @order_item Q :=
  @Build_order_item Q id order_id product_id quantity subtotal.

Definition xentropy (py fk : N) (day : date) : @entropy N :=
  @Build_entropy N py fk day.

Definition xworld (e : @entropy N)
  (files : option (@flat_files Q)) (db : option (@database Q))
  : @world N Q :=
  @Build_world N Q e files db.

(** Two users, two products; each user ordered one product, and not the
    same one. *)
Definition two_users : list user :=
  [{| u_id := 1; u_name := "Ada Quinn"; u_email := "ada@example.org"; u_signup_date := 738900 |};
   {| u_id := 2; u_name := "Bo Reyes"; u_email := "bo@example.com"; u_signup_date := 738950 |}].

Definition two_products : list (@product Q) :=
  [xproduct 1 "Adaptive cache" "Books" 10;
   xproduct 2 "Balanced hub" "Toys" 10].

Definition two_orders : list (@order Q) :=
  [xorder 1 1 738960 10; xorder 2 2 738970 10].

Definition two_items : list (@order_item Q) :=
  [xitem 1 1 1 1 10; xitem 2 2 2 1 10].

Definition xrows {A} (wrap : A -> @row Q) (l : list A)
  : option (list (@row Q)) :=
  Some (map wrap l).

(** A complete store holding the tables above, with its indexes. *)
Definition complete_store : @database Q :=
  {| db_tables :=
       {| of_users := xrows (@UserRow Q) two_users;
          of_products := xrows (@ProductRow Q) two_products;
          of_orders := xrows (@OrderRow Q) two_orders;
          of_order_items := xrows (@OrderItemRow Q) two_items;
          of_reviews := xrows (@ReviewRow Q) [] |};
     db_indexes := ["idx_orders_user_id"; "idx_orders_order_date";
                    "idx_order_items_order_id"; "idx_order_items_product_id";
                    "idx_reviews_user_id"; "idx_reviews_product_id"]%string |}.

(** The store is there, [data/] is empty: no flat file to load. *)
Definition store_without_files : @world N Q :=
  xworld seeded (Some (all_tables None)) (Some complete_store).

(** The same directory without a store. *)
Definition no_store_no_files : @world N Q :=
  xworld seeded (Some (all_tables None)) None.

(** Flat files in which the only order belongs to user 999, who is in no
    file; the users file is empty. *)
Definition dangling_order : @order Q := xorder 1 999 738960 10.

Definition dangling_files : @flat_files Q :=
  {| of_users := xrows (@UserRow Q) [];
     of_products := xrows (@ProductRow Q) two_products;
     of_orders := xrows (@OrderRow Q) [dangling_order];
     of_order_items := xrows (@OrderItemRow Q) [];
     of_reviews := xrows (@ReviewRow Q) [] |}.

Definition dangling_world : @world N Q :=
  xworld seeded (Some dangling_files) None.

(** A world whose store is the complete store: both products sold once,
    for the same amount. *)
Definition tied_revenue_world : @world N Q :=
  xworld seeded None (Some complete_store).

(** Two reviews, one per product. *)
Definition two_reviews : list review :=
  [{| r_id := 1; r_user_id := 1; r_product_id := 1; r_rating := 4;
      r_review_text := "Fine"; r_review_date := 738980 |};
   {| r_id := 2; r_user_id := 2; r_product_id := 2; r_rating := 5;
      r_review_text := "Good"; r_review_date := 738990 |}].

(** Flat files holding the tables above. *)
Definition two_files : @flat_files Q :=
  {| of_users := xrows (@UserRow Q) two_users;
     of_products := xrows (@ProductRow Q) two_products;
     of_orders := xrows (@OrderRow Q) two_orders;
     of_order_items := xrows (@OrderItemRow Q) two_items;
     of_reviews := xrows (@ReviewRow Q) two_reviews |}.


(** Only [data/users.csv] is there. *)
Definition users_only_world : @world N Q :=
  xworld seeded
         (Some {| of_users := xrows (@UserRow Q) two_users;
                  of_products := None; of_orders := None;
                  of_order_items := None; of_reviews := None |})
         None.

(** A store holding the five tables above, reviews included. *)
Definition reviewed_world : @world N Q :=
  xworld seeded None (Some {| db_tables := two_files; db_indexes := loader_indexes |}).

(** [AVG] on the concrete platform: the exact mean. *)
#[global] Instance exact_averaging : @Averaging Q :=
  {| sql_avg := fun xs => Qdiv (inject_Z (fold_right Z.add 0 xs))
                               (inject_Z (Z.of_nat (length xs))) |}.

(** * Properties *)

Section Properties.
Context {gen float : Type} {P : Platform gen float}.

Local Abbreviation entropy := (@entropy gen).
Local Abbreviation product := (@product float).
Local Abbreviation order := (@order float).
Local Abbreviation order_item := (@order_item float).
Local Abbreviation dataset := (@dataset float).
Local Abbreviation row := (@row float).
Local Abbreviation flat_files := (@flat_files float).
Local Abbreviation database := (@database float).
Local Abbreviation connection := (@connection float).
Local Abbreviation sales_row := (@sales_row float).
Local Abbreviation world := (@world gen float).
Local Abbreviation on_day := (@on_day gen).
Local Abbreviation get_today := (@get_today gen).
Local Abbreviation years_ago := (@years_ago gen).

(** ** Reading a successful run backwards *)

Lemma bind_Ok {St A B} (m : M St A) (f : A -> M St B) (s s' : St) (b : B) :
  bind m f s = (Ok b, s') ->
  exists a s1, m s = (Ok a, s1) /\ f a s1 = (Ok b, s').
Proof.
  unfold bind. destruct (m s) as [[a | e] s1]; intros H.
  - exists a, s1. split; [reflexivity | exact H].
  - discriminate H.
Qed.

Lemma Ok_inj {A} (a b : A) : Ok a = Ok b -> a = b.
Proof. intros H. injection H as H. exact H. Qed.

Lemma ret_Ok {St A} (a b : A) (s s' : St) :
  ret a s = (Ok b, s') -> b = a /\ s' = s.
Proof. unfold ret. intros H. inversion H. split; reflexivity. Qed.

Ltac split_tuple a :=
  lazymatch type of a with
  | prod _ _ =>
      let x := fresh "x" in
      let y := fresh "y" in
      destruct a as [x y]; split_tuple x
  | _ => idtac
  end.

Ltac run_inv H :=
  match type of H with
  | bind _ _ _ = (Ok _, _) =>
      let a := fresh "a" in
      let s := fresh "s" in
      let H1 := fresh "Hrun" in
      let H2 := fresh "Hrun" in
      apply bind_Ok in H; destruct H as (a & s & H1 & H2);
      split_tuple a; cbv beta iota in H2; run_inv H2
  | ret _ _ = (Ok _, _) =>
      let E1 := fresh "E" in
      let E2 := fresh "E" in
      apply ret_Ok in H; destruct H as [E1 E2]
  | raise _ _ = (Ok _, _) => discriminate H
  | _ => idtac
  end.

(** A loop whose every successful step relates its index to its output
    relates the indices to the outputs pointwise. *)
Lemma forM_Forall2 {St A B} (R : A -> B -> Prop) (f : A -> M St B) :
  (forall x s y s', f x s = (Ok y, s') -> R x y) ->
  forall xs s ys s', forM xs f s = (Ok ys, s') -> Forall2 R xs ys.
Proof.
  intros Hf. induction xs as [| x xs IH]; intros s ys s' H; simpl in H.
  - run_inv H. subst. constructor.
  - run_inv H. subst. constructor.
    + eapply Hf. eassumption.
    + eapply IH. eassumption.
Qed.

Lemma Forall2_In_r {A B} (R : A -> B -> Prop) xs ys y :
  Forall2 R xs ys -> In y ys -> exists x, In x xs /\ R x y.
Proof.
  induction 1 as [| x0 y0 xs ys Hxy _ IH]; intros Hin.
  - destruct Hin.
  - destruct Hin as [-> | Hin].
    + exists x0. split; [left; reflexivity | exact Hxy].
    + destruct (IH Hin) as (x & Hx & HR). exists x. split; [right; exact Hx | exact HR].
Qed.

(** ** The library models *)

Lemma py_draw_today (e e' : entropy) r : py_draw e = (Ok r, e') -> today e' = today e.
Proof.
  unfold py_draw. destruct (draw (py_random e)). intros H. inversion H. reflexivity.
Qed.

Lemma faker_draw_today (e e' : entropy) r : faker_draw e = (Ok r, e') -> today e' = today e.
Proof.
  unfold faker_draw. destruct (draw (faker_random e)). intros H. inversion H. reflexivity.
Qed.

Lemma choice_In {A} (seq : list A) (e e' : entropy) x :
  choice seq e = (Ok x, e') -> In x seq.
Proof.
  unfold choice. destruct seq as [| d rest]; intros H.
  - discriminate H.
  - remember (d :: rest) as l eqn:El.
    assert (Hpos : (N.of_nat (length l) <> 0)%N) by (subst l; simpl; lia).
    run_inv H. subst x.
    unfold randbelow in Hrun. run_inv Hrun. subst a.
    apply nth_In.
    pose proof (N.mod_lt a0 _ Hpos) as Hlt.
    set (m := (a0 mod _)%N) in *. clearbody m. lia.
Qed.

Lemma randint_range a b (e e' : entropy) z :
  randint a b e = (Ok z, e') -> a <= z <= b.
Proof.
  unfold randint. destruct (Z.ltb_spec b a) as [Hlt | Hle]; intros H.
  - discriminate H.
  - run_inv H. subst z. unfold randbelow in Hrun. run_inv Hrun. subst a0.
    assert (Hpos : (Z.to_N (b - a + 1) <> 0)%N) by lia.
    pose proof (N.mod_lt a1 _ Hpos) as Hlt.
    set (m := (a1 mod _)%N) in *. clearbody m. lia.
Qed.

Lemma date_between_range start stop (e e' : entropy) d :
  date_between start stop e = (Ok d, e') -> start <= d <= stop.
Proof.
  unfold date_between. destruct (Z.ltb_spec stop start) as [Hlt | Hle]; intros H.
  - discriminate H.
  - run_inv H. subst d.
    assert (Hpos : 0 < stop - start + 1) by lia.
    pose proof (Z.mod_pos_bound (Z.of_N a) _ Hpos) as Hlt.
    set (m := Z.of_N a mod _) in *. clearbody m. lia.
Qed.

Lemma first_row_hd {A} (rows : list A) (e e' : entropy) r :
  first_row rows e = (Ok r, e') -> hd_error rows = Some r.
Proof.
  destruct rows; intros H; cbn [first_row] in H.
  - discriminate H.
  - run_inv H. subst. reflexivity.
Qed.

(** ** [generate_orders] *)

Lemma generate_orders_rows users_df num_orders e orders e' :
  generate_orders users_df num_orders e = (Ok orders, e') ->
  Forall2 (fun i o =>
             o_id o = i /\
             exists u, hd_error (filter (fun u => u_id u =? o_user_id o) users_df) = Some u
                       /\ u_signup_date u <= o_order_date o)
          (range1 num_orders) orders.
Proof.
  unfold generate_orders. apply forM_Forall2.
  intros i s o s' H. run_inv H. subst o. simpl.
  split; [reflexivity |].
  match goal with Hf : first_row _ _ = _ |- _ => apply first_row_hd in Hf; rename Hf into Hhd end.
  match goal with Hd : date_between _ _ _ = _ |- _ => apply date_between_range in Hd; rename Hd into Hd' end.
  eexists. split; [exact Hhd | lia].
Qed.

Lemma hd_error_filter_In {A} (f : A -> bool) (l : list A) (x : A) :
  hd_error (filter f l) = Some x -> In x l /\ f x = true.
Proof.
  intros H. apply filter_In.
  destruct (filter f l) as [| y t]; [discriminate H |].
  inversion H. subst. left. reflexivity.
Qed.

(** C8: every order that [generate_orders] produces is dated on or after
    the signup date of the user its [user_id] identifies, that is of the row
    of the users table the generator itself looks up under that id. *)
Theorem C8_order_date_not_before_signup users_df num_orders e orders e' :
  generate_orders users_df num_orders e = (Ok orders, e') ->
  forall o, In o orders ->
    exists u, hd_error (filter (fun u => u_id u =? o_user_id o) users_df) = Some u
              /\ In u users_df
              /\ u_id u = o_user_id o
              /\ u_signup_date u <= o_order_date o.
Proof.
  intros Hgen o Hin.
  apply generate_orders_rows in Hgen.
  destruct (Forall2_In_r _ _ _ _ Hgen Hin) as (i & _ & _ & u & Hhd & Hle).
  exists u. destruct (hd_error_filter_In _ _ _ Hhd) as [Hu Hid].
  repeat split; try assumption. apply Z.eqb_eq. exact Hid.
Qed.

(** When ids are unique, as the generated ones are, that row is the only
    user of that id. *)
Lemma order_date_not_before_signup_unique users_df num_orders e orders e' :
  NoDup (map u_id users_df) ->
  generate_orders users_df num_orders e = (Ok orders, e') ->
  forall o u, In o orders -> In u users_df -> u_id u = o_user_id o ->
    u_signup_date u <= o_order_date o.
Proof.
  intros Hnd Hgen o u Ho Hu Hid.
  apply generate_orders_rows in Hgen.
  destruct (Forall2_In_r _ _ _ _ Hgen Ho) as (i & _ & _ & u' & Hhd & Hle).
  destruct (hd_error_filter_In _ _ _ Hhd) as [Hu' Hid'].
  apply Z.eqb_eq in Hid'.
  assert (u = u') as ->; [| exact Hle].
  clear - Hnd Hu Hu' Hid Hid'.
  induction users_df as [| x l IH]; [destruct Hu |].
  simpl in Hnd. inversion Hnd as [| ? ? Hnot Hnd']; subst.
  destruct Hu as [-> | Hu], Hu' as [-> | Hu'].
  - reflexivity.
  - exfalso. apply Hnot. rewrite Hid, <- Hid'. apply in_map. exact Hu'.
  - exfalso. apply Hnot. rewrite Hid', <- Hid. apply in_map. exact Hu.
  - apply IH; assumption.
Qed.

(** ** [generate_reviews] *)

Lemma distinct_In (l : list Z) (x : Z) : In x (distinct l) -> In x l.
Proof. unfold distinct. apply nodup_In. Qed.

Lemma fold_max_ge_init (l : list Z) (a : Z) : a <= fold_left Z.max l a.
Proof.
  revert a. induction l as [| x l IH]; intros a; simpl.
  - lia.
  - specialize (IH (Z.max a x)). lia.
Qed.

Lemma fold_max_ge_In (l : list Z) (a x : Z) : In x l -> x <= fold_left Z.max l a.
Proof.
  revert a. induction l as [| y l IH]; intros a Hin; simpl.
  - destruct Hin.
  - destruct Hin as [-> | Hin].
    + pose proof (fold_max_ge_init l (Z.max a x)). lia.
    + apply IH. exact Hin.
Qed.

Lemma max_order_date_ge (first : order) (others : list order) (o : order) :
  In o (first :: others) -> o_order_date o <= max_order_date first others.
Proof.
  unfold max_order_date. intros [<- | Hin].
  - apply fold_max_ge_init.
  - apply fold_max_ge_In. apply in_map. exact Hin.
Qed.

(** A user drawn among the users of the orders table has a non-empty
    selection of orders. *)
Lemma user_orders_of_ordered (orders_df : list order) (user_id : Z) :
  In user_id (distinct (map o_user_id orders_df)) ->
  exists first others, user_orders_of orders_df user_id = first :: others.
Proof.
  intros Hin. apply distinct_In in Hin. apply in_map_iff in Hin.
  destruct Hin as (o & Hid & Ho).
  assert (Hf : In o (user_orders_of orders_df user_id)).
  { unfold user_orders_of. apply filter_In. split; [exact Ho | apply Z.eqb_eq; exact Hid]. }
  destruct (user_orders_of orders_df user_id) as [| first others].
  - destruct Hf.
  - exists first, others. reflexivity.
Qed.

(** What each iteration of the loop of [generate_reviews] establishes. *)
Lemma generate_reviews_rows users_df products_df orders_df order_items_df num_reviews e reviews e' :
  generate_reviews users_df products_df orders_df order_items_df num_reviews e = (Ok reviews, e') ->
  Forall2 (fun i r =>
             r_id r = i /\
             In (r_user_id r) (distinct (map o_user_id orders_df)) /\
             In (r_product_id r) (distinct (map oi_product_id order_items_df)) /\
             1 <= r_rating r <= 5 /\
             exists e1 e2, review_date_for orders_df (r_user_id r) e1 = (Ok (r_review_date r), e2))
          (range1 num_reviews) reviews.
Proof.
  unfold generate_reviews. apply forM_Forall2.
  intros i s r s' H. run_inv H. subst r. simpl.
  repeat match goal with Hc : choice _ _ = _ |- _ => apply choice_In in Hc end.
  match goal with Hr : randint _ _ _ = _ |- _ => apply randint_range in Hr end.
  repeat split; try assumption; try lia.
  eexists _, _. eassumption.
Qed.

(** C1, amended: the reviewer of every review is a user with at least one
    order and the reviewed product is a product of at least one order item,
    ordered by someone, not necessarily by the reviewer. *)
Theorem C1_review_of_ordered_user_and_ordered_product
  users_df products_df orders_df order_items_df num_reviews e reviews e' :
  generate_reviews users_df products_df orders_df order_items_df num_reviews e = (Ok reviews, e') ->
  forall r, In r reviews ->
    (exists o, In o orders_df /\ o_user_id o = r_user_id r) /\
    (exists it, In it order_items_df /\ oi_product_id it = r_product_id r).
Proof.
  intros Hgen r Hin.
  apply generate_reviews_rows in Hgen.
  destruct (Forall2_In_r _ _ _ _ Hgen Hin) as (i & _ & _ & Hu & Hp & _).
  apply distinct_In, in_map_iff in Hu. apply distinct_In, in_map_iff in Hp.
  destruct Hu as (o & Ho1 & Ho2). destruct Hp as (it & Hi1 & Hi2).
  split; [exists o | exists it]; split; assumption.
Qed.

(** C9: the reviewer of every generated review has a non-empty selection of
    orders, so the date is never drawn from the one-year fallback window,
    and the review is dated on or after the latest of the reviewer's
    orders, hence after each of them. *)
Theorem C9_review_after_latest_order_no_fallback
  users_df products_df orders_df order_items_df num_reviews e reviews e' :
  generate_reviews users_df products_df orders_df order_items_df num_reviews e = (Ok reviews, e') ->
  forall r, In r reviews ->
    exists first others,
      user_orders_of orders_df (r_user_id r) = first :: others /\
      max_order_date first others <= r_review_date r /\
      forall o, In o orders_df -> o_user_id o = r_user_id r ->
                o_order_date o <= r_review_date r.
Proof.
  intros Hgen r Hin.
  apply generate_reviews_rows in Hgen.
  destruct (Forall2_In_r _ _ _ _ Hgen Hin) as (i & _ & _ & Hu & _ & _ & e1 & e2 & Hdate).
  destruct (user_orders_of_ordered _ _ Hu) as (first & others & Hsel).
  exists first, others.
  unfold review_date_for in Hdate. rewrite Hsel in Hdate.
  run_inv Hdate.
  match goal with Hd : date_between _ _ _ = _ |- _ => apply date_between_range in Hd; rename Hd into Hrange end.
  split; [exact Hsel |]. split; [lia |].
  intros o Ho Hid.
  assert (Hsel_in : In o (first :: others)).
  { rewrite <- Hsel. unfold user_orders_of. apply filter_In.
    split; [exact Ho | apply Z.eqb_eq; exact Hid]. }
  pose proof (max_order_date_ge _ _ _ Hsel_in). lia.
Qed.

(** ** [generate_order_items] *)

Lemma order_lines_spec products_df order_id selected :
  forall item_id order_total e items next_id total e',
    order_lines products_df order_id selected item_id order_total e
      = (Ok (items, next_id, total), e') ->
    Forall (fun it => oi_order_id it = order_id) items /\
    total = fold_left fadd (map oi_subtotal items) order_total.
Proof.
  induction selected as [| product_id rest IH];
    intros item_id order_total e items next_id total e' H; simpl in H.
  - run_inv H. inversion E; subst. split; [constructor | reflexivity].
  - run_inv H. inversion E; subst.
    match goal with Hl : order_lines _ _ _ _ _ _ = _ |- _ => apply IH in Hl; destruct Hl as [Hall Htot] end.
    split.
    + constructor; [reflexivity | exact Hall].
    + simpl. exact Htot.
Qed.

Lemma Forall2_map_l {A B C} (R : B -> C -> Prop) (g : A -> B) (l : list A) (l' : list C) :
  Forall2 R (map g l) l' -> Forall2 (fun x y => R (g x) y) l l'.
Proof.
  revert l'. induction l as [| x l IH]; intros l' H; simpl in H.
  - inversion H. constructor.
  - inversion H; subst. constructor; [assumption | apply IH; assumption].
Qed.

Lemma Forall2_impl {A B} (R R' : A -> B -> Prop) (l : list A) (l' : list B) :
  (forall x y, R x y -> R' x y) -> Forall2 R l l' -> Forall2 R' l l'.
Proof. intros Himp H. induction H; constructor; auto. Qed.

Lemma Forall2_refl {A} (R : A -> A -> Prop) (l : list A) :
  (forall x, R x x) -> Forall2 R l l.
Proof. intros Hr. induction l; constructor; auto. Qed.

Lemma filter_all {A} (f : A -> bool) (l : list A) :
  Forall (fun x => f x = true) l -> filter f l = l.
Proof.
  induction 1 as [| x l Hx _ IH]; simpl; [reflexivity |].
  rewrite Hx, IH. reflexivity.
Qed.

Lemma filter_none {A} (f : A -> bool) (l : list A) :
  Forall (fun x => f x = false) l -> filter f l = [].
Proof.
  induction 1 as [| x l Hx _ IH]; simpl; [reflexivity |].
  rewrite Hx, IH. reflexivity.
Qed.

Lemma order_items_loop_spec products_df lo hi rows :
  forall item_id orders_df e items final_df e',
    order_items_loop products_df lo hi rows item_id orders_df e = (Ok (items, final_df), e') ->
    Forall (fun it => In (oi_order_id it) (map o_id rows)) items /\
    Forall2 (updated_by rows items) orders_df final_df.
Proof.
  induction rows as [| o rest IH]; intros item_id orders_df e items final_df e' H; simpl in H.
  - run_inv H. inversion E; subst. split; [constructor |].
    apply Forall2_refl. intros x. unfold updated_by. repeat split; try reflexivity.
    intros _ [].
  - run_inv H. inversion E; subst. clear E.
    match goal with Hl : order_lines _ _ _ _ _ _ = (Ok (?i, _, _), _) |- _ =>
      apply order_lines_spec in Hl; destruct Hl as [Hits Htot]; rename i into its end.
    match goal with Hl : order_items_loop _ _ _ _ _ _ _ = (Ok (?m, _), _) |- _ =>
      apply IH in Hl; destruct Hl as [Hmore Hrel]; rename m into more end.
    split.
    + apply Forall_app. split.
      * eapply Forall_impl; [| exact Hits]. intros it Hit. simpl. left. symmetry. exact Hit.
      * eapply Forall_impl; [| exact Hmore]. intros it Hit. simpl. right. exact Hit.
    + unfold set_total_amount in Hrel. apply Forall2_map_l in Hrel.
      eapply Forall2_impl; [| exact Hrel].
      intros x x' (Hid & Huid & Hdate & Hkeep & Hset). simpl map.
      destruct (Z.eqb_spec (o_id x) (o_id o)) as [Heq | Hneq]; simpl in *.
      * unfold updated_by. repeat split; try assumption.
        { intros Hnot. exfalso. apply Hnot. left. symmetry. exact Heq. }
        intros Hnd _. inversion Hnd as [| ? ? Hfresh Hnd']; subst.
        rewrite Hkeep by (rewrite Heq; exact Hfresh).
        unfold rounded_items_total. rewrite filter_app.
        rewrite (filter_all _ its), (filter_none _ more), app_nil_r.
        { reflexivity. }
        { eapply Forall_impl; [| exact Hmore]. intros it Hit. simpl.
          apply Z.eqb_neq. intros Hsame. apply Hfresh. rewrite <- Heq, <- Hsame. exact Hit. }
        { eapply Forall_impl; [| exact Hits]. intros it Hit. simpl.
          apply Z.eqb_eq. rewrite Heq. exact Hit. }
      * unfold updated_by. repeat split; try assumption.
        { intros Hnot. apply Hkeep. intros Hin. apply Hnot. right. exact Hin. }
        intros Hnd [Hhead | Hin]; [exfalso; apply Hneq; symmetry; exact Hhead |].
        inversion Hnd as [| ? ? Hfresh Hnd']; subst.
        rewrite (Hset Hnd' Hin).
        unfold rounded_items_total. rewrite filter_app, (filter_none _ its).
        { reflexivity. }
        { eapply Forall_impl; [| exact Hits]. intros it Hit. simpl.
          apply Z.eqb_neq. rewrite Hit. intros Hsame. apply Hneq. symmetry. exact Hsame. }
Qed.

Lemma generate_order_items_frame orders_df products_df range e items final_df e' :
  generate_order_items orders_df products_df range e = (Ok (items, final_df), e') ->
  Forall2 (fun x x' => o_id x' = o_id x /\
                       o_user_id x' = o_user_id x /\
                       o_order_date x' = o_order_date x)
          orders_df final_df.
Proof.
  unfold generate_order_items. destruct range as [lo hi]. intros H.
  apply order_items_loop_spec in H. destruct H as [_ Hrel].
  eapply Forall2_impl; [| exact Hrel].
  intros x x' (Hid & Huid & Hdate & _). repeat split; assumption.
Qed.

(** C10: [generate_order_items] returns the orders frame with as many rows
    as it was given, and at every position the row keeps its [id], its
    [user_id] and its [order_date]; only [total_amount] may differ. *)
Theorem C10_order_items_frame orders_df products_df range e items final_df e' :
  generate_order_items orders_df products_df range e = (Ok (items, final_df), e') ->
  length final_df = length orders_df /\
  Forall2 (fun x x' => o_id x' = o_id x /\
                       o_user_id x' = o_user_id x /\
                       o_order_date x' = o_order_date x)
          orders_df final_df.
Proof.
  intros H. apply generate_order_items_frame in H. split.
  - symmetry. eapply Forall2_length. exact H.
  - exact H.
Qed.

Lemma generate_order_items_totals orders_df products_df range e items final_df e' :
  NoDup (map o_id orders_df) ->
  generate_order_items orders_df products_df range e = (Ok (items, final_df), e') ->
  forall o, In o final_df -> o_total_amount o = rounded_items_total (o_id o) items.
Proof.
  unfold generate_order_items. destruct range as [lo hi]. intros Hnd H o Hin.
  apply order_items_loop_spec in H. destruct H as [_ Hrel].
  destruct (Forall2_In_r _ _ _ _ Hrel Hin) as (x & Hx & Hid & _ & _ & _ & Hset).
  rewrite Hid. apply Hset; [exact Hnd | apply in_map; exact Hx].
Qed.

(** ** [generate_data] *)

Lemma range1_NoDup (n : Z) : NoDup (range1 n).
Proof.
  unfold range1. apply Injective_map_NoDup.
  - intros x y Hxy. apply Nat2Z.inj. exact Hxy.
  - apply seq_NoDup.
Qed.

Lemma Forall2_eq_map {A B} (f : B -> A) (l : list A) (l' : list B) :
  Forall2 (fun i y => f y = i) l l' -> map f l' = l.
Proof. induction 1; simpl; [reflexivity | f_equal; assumption]. Qed.

Lemma generate_orders_ids users_df num_orders e orders e' :
  generate_orders users_df num_orders e = (Ok orders, e') ->
  map o_id orders = range1 num_orders.
Proof.
  intros H. apply generate_orders_rows in H. apply Forall2_eq_map.
  eapply Forall2_impl; [| exact H]. intros i o [Hid _]. exact Hid.
Qed.

Lemma in_process_Ok {A} (m : M entropy A) (w w' : world) (a : A) :
  in_process m w = (Ok a, w') ->
  exists e', m (env w) = (Ok a, e') /\ w' = with_env e' w.
Proof.
  unfold in_process. destruct (m (env w)) as [r e']. intros H. inversion H; subst.
  exists e'. split; reflexivity.
Qed.

(** What a successful run of the pipeline went through. *)
Lemma generate_data_Ok (w w' : world) (d : dataset) :
  generate_data w = (Ok d, w') ->
  exists e0 e1 e2 e3 e4 e5 orders0,
    generate_users 100 e0 = (Ok (ds_users d), e1) /\
    generate_products 50 e1 = (Ok (ds_products d), e2) /\
    generate_orders (ds_users d) 200 e2 = (Ok orders0, e3) /\
    generate_order_items orders0 (ds_products d) (1, 5) e3
      = (Ok (ds_order_items d, ds_orders d), e4) /\
    generate_reviews (ds_users d) (ds_products d) (ds_orders d) (ds_order_items d) 150 e4
      = (Ok (ds_reviews d), e5) /\
    e0 = env w /\ env w' = e5.
Proof.
  unfold generate_data. intros H. run_inv H. subst d. simpl.
  repeat match goal with
         | Hp : in_process _ _ = (Ok _, _) |- _ =>
             apply in_process_Ok in Hp; destruct Hp as (? & Hp & ?)
         end.
  subst.
  repeat match goal with
         | Hs : save_to_csv _ _ ?w0 = (Ok _, _) |- _ =>
             unfold save_to_csv in Hs; destruct (data_dir w0) eqn:?; [| discriminate Hs];
             inversion Hs; subst; clear Hs
         end.
  simpl in *.
  do 7 eexists. repeat split; eassumption.
Qed.

(** C4: in the dataset [generate_data] returns, the [total_amount] of every
    order is the rounded sum of the subtotals of the order items carrying
    that order's id (added up in row order); the random estimate drawn by
    [generate_orders] does not survive. *)
Theorem C4_order_total_is_rounded_sum_of_items (w w' : world) (d : dataset) :
  generate_data w = (Ok d, w') ->
  forall o, In o (ds_orders d) ->
    o_total_amount o
    = py_round2 (fsum (map oi_subtotal
                           (filter (fun it => oi_order_id it =? o_id o) (ds_order_items d)))).
Proof.
  intros H o Hin.
  apply generate_data_Ok in H.
  destruct H as (e0 & e1 & e2 & e3 & e4 & e5 & orders0 & _ & _ & Hord & Hitems & _).
  apply generate_orders_ids in Hord.
  assert (Hnd : NoDup (map o_id orders0)) by (rewrite Hord; apply range1_NoDup).
  exact (generate_order_items_totals _ _ _ _ _ _ _ Hnd Hitems o Hin).
Qed.

Lemma generate_data_unfold (w : world) :
  generate_data w =
  match generate_tables (env w) with
  | (Ok d, e) =>
      match data_dir w with
      | Some _ => (Ok d, {| env := e; data_dir := Some (written_files d); db_file := db_file w |})
      | None => (Raise OSError, with_env e w)
      end
  | (Raise x, e) => (Raise x, with_env e w)
  end.
Proof.
  unfold generate_data, generate_tables, bind, in_process.
  Local Opaque generate_users generate_products generate_orders generate_order_items
    generate_reviews.
  destruct (generate_users 100 (env w)) as [[users_df | x] e1]; simpl; [| reflexivity].
  destruct (generate_products 50 e1) as [[products_df | x] e2]; simpl; [| reflexivity].
  destruct (generate_orders users_df 200 e2) as [[orders0 | x] e3]; simpl; [| reflexivity].
  destruct (generate_order_items orders0 products_df (1, 5) e3)
    as [[[items orders_df] | x] e4]; simpl; [| reflexivity].
  destruct (generate_reviews users_df products_df orders_df items 150 e4)
    as [[reviews | x] e5]; simpl; [| reflexivity].
  unfold save_to_csv, with_env, with_data_dir, ret. simpl.
  destruct (data_dir w) as [files |]; simpl; reflexivity.
  Local Transparent generate_users generate_products generate_orders generate_order_items
    generate_reviews.
Qed.

(** C3, amended: two invocations of [generate_data] that start from the
    same states of the two generators on the same day, in directories where
    [data/] exists, return the same five tables record for record and leave
    the same five flat files and the same generator states, whatever the
    files and the store held before.  (Nothing is said of a second
    invocation in the same process, which starts from the states the first
    one left.) *)
Theorem C3_same_entropy_same_tables (w1 w2 : world) (files1 files2 : flat_files) :
  env w1 = env w2 ->
  data_dir w1 = Some files1 ->
  data_dir w2 = Some files2 ->
  fst (generate_data w1) = fst (generate_data w2) /\
  env (snd (generate_data w1)) = env (snd (generate_data w2)) /\
  (forall d, fst (generate_data w1) = Ok d ->
             data_dir (snd (generate_data w1)) = Some (written_files d) /\
             data_dir (snd (generate_data w2)) = Some (written_files d)).
Proof.
  intros Henv Hd1 Hd2.
  rewrite !generate_data_unfold, Hd1, Hd2, Henv.
  destruct (generate_tables (env w2)) as [[d | x] e]; simpl.
  - split; [reflexivity |]. split; [reflexivity |].
    intros d' Hd'. inversion Hd'. split; reflexivity.
  - split; [reflexivity |]. split; [reflexivity |].
    intros d' Hd'. discriminate Hd'.
Qed.

(** ** Runs that cannot raise *)

Lemma returns_ret {St A} (I : St -> Prop) (a : A) (Q : A -> Prop) :
  Q a -> returns I (ret a) Q.
Proof. intros Hq s Hs. exists a, s. repeat split; assumption. Qed.

Lemma returns_bind {St A B} (I : St -> Prop) (m : M St A) (f : A -> M St B)
  (Q : A -> Prop) (R : B -> Prop) :
  returns I m Q ->
  (forall a, Q a -> returns I (f a) R) ->
  returns I (bind m f) R.
Proof.
  intros Hm Hf s Hs. destruct (Hm s Hs) as (a & s1 & Hrun & Hs1 & Hq).
  destruct (Hf a Hq s1 Hs1) as (b & s2 & Hrun2 & Hs2 & Hr).
  exists b, s2. unfold bind. rewrite Hrun. repeat split; assumption.
Qed.

Lemma returns_weaken {St A} (I : St -> Prop) (m : M St A) (Q Q' : A -> Prop) :
  returns I m Q -> (forall a, Q a -> Q' a) -> returns I m Q'.
Proof.
  intros Hm Himp s Hs. destruct (Hm s Hs) as (a & s' & Hrun & Hs' & Hq).
  exists a, s'. repeat split; auto.
Qed.

Lemma returns_forM {St A B} (I : St -> Prop) (f : A -> M St B) (Q : A -> B -> Prop)
  (xs : list A) :
  (forall x, In x xs -> returns I (f x) (Q x)) ->
  returns I (forM xs f) (Forall2 Q xs).
Proof.
  induction xs as [| x xs IH]; intros Hf; simpl.
  - apply returns_ret. constructor.
  - eapply returns_bind; [apply Hf; left; reflexivity |].
    intros y Hy. eapply returns_bind; [apply IH; intros x' Hx'; apply Hf; right; exact Hx' |].
    intros ys Hys. apply returns_ret. constructor; assumption.
Qed.

Lemma py_draw_returns (d : date) : returns (on_day d) py_draw (fun _ => True).
Proof.
  intros e He. unfold py_draw. destruct (draw (py_random e)) as [r g].
  eexists _, _. split; [reflexivity |]. split; [exact He | exact I].
Qed.

Lemma faker_draw_returns (d : date) : returns (on_day d) faker_draw (fun _ => True).
Proof.
  intros e He. unfold faker_draw. destruct (draw (faker_random e)) as [r g].
  eexists _, _. split; [reflexivity |]. split; [exact He | exact I].
Qed.

Lemma faker_text_returns (d : date) (provider : gen -> string * gen) :
  returns (on_day d) (faker_text provider) (fun _ => True).
Proof.
  intros e He. unfold faker_text. destruct (provider (faker_random e)) as [s g].
  eexists _, _. split; [reflexivity |]. split; [exact He | exact I].
Qed.

Lemma get_today_returns (d : date) : returns (on_day d) get_today (fun x => x = d).
Proof.
  intros e He. exists (today e), e. split; [reflexivity |]. split; [exact He | exact He].
Qed.

Lemma years_ago_returns (d : date) (y : Z) :
  returns (on_day d) (years_ago y) (fun x => x = d - (36524 * y + 99) / 100).
Proof.
  intros e He. eexists _, e. split; [reflexivity |]. split; [exact He |].
  unfold on_day in He. rewrite He. reflexivity.
Qed.

Lemma randbelow_returns (d : date) (n : N) :
  n <> 0%N -> returns (on_day d) (randbelow n) (fun r => (r < n)%N).
Proof.
  intros Hn. unfold randbelow. eapply returns_bind; [apply py_draw_returns |].
  intros r _. apply returns_ret. apply N.mod_lt. exact Hn.
Qed.

Lemma choice_returns {A} (d : date) (seq : list A) :
  seq <> [] -> returns (on_day d) (choice seq) (fun x => In x seq).
Proof.
  intros Hne. unfold choice. destruct seq as [| x0 rest]; [contradiction |].
  remember (x0 :: rest) as l eqn:El.
  eapply returns_bind; [apply (randbelow_returns d); subst l; simpl; lia |].
  intros i Hi. cbv beta in Hi. apply returns_ret. apply nth_In. lia.
Qed.

Lemma randint_returns (d : date) (a b : Z) :
  a <= b -> returns (on_day d) (randint a b) (fun z => a <= z <= b).
Proof.
  intros Hab. unfold randint. destruct (Z.ltb_spec b a); [lia |].
  eapply returns_bind; [apply (randbelow_returns d); lia |].
  intros r Hr. cbv beta in Hr. apply returns_ret. lia.
Qed.

Lemma uniform_returns (d : date) (a b : float) :
  returns (on_day d) (uniform a b) (fun _ => True).
Proof.
  unfold uniform. eapply returns_bind; [apply py_draw_returns |].
  intros r _. apply returns_ret. exact I.
Qed.

Lemma date_between_returns (d start stop : date) :
  start <= stop ->
  returns (on_day d) (date_between start stop) (fun x => start <= x <= stop).
Proof.
  intros Hle. unfold date_between. destruct (Z.ltb_spec stop start); [lia |].
  eapply returns_bind; [apply faker_draw_returns |].
  intros r _. apply returns_ret.
  assert (Hpos : 0 < stop - start + 1) by lia.
  pose proof (Z.mod_pos_bound (Z.of_N r) _ Hpos) as Hlt.
  set (m := Z.of_N r mod _) in *. clearbody m. lia.
Qed.

Lemma first_row_returns {A} (d : date) (rows : list A) :
  rows <> [] -> returns (on_day d) (first_row rows) (fun r => hd_error rows = Some r).
Proof.
  intros Hne. destruct rows as [| r rest]; [contradiction |].
  cbn [first_row]. apply returns_ret. reflexivity.
Qed.

Lemma returns_with {St A} (I : St -> Prop) (m : M St A) (Q R : A -> Prop) :
  returns I m Q ->
  (forall s a s', m s = (Ok a, s') -> R a) ->
  returns I m (fun a => Q a /\ R a).
Proof.
  intros Hm Hspec s Hs. destruct (Hm s Hs) as (a & s' & Hrun & Hs' & Hq).
  exists a, s'. repeat split; try assumption. eapply Hspec. exact Hrun.
Qed.

(** *** [random.sample] *)

Lemma set_nth_length {A} (j : nat) (x : A) (l : list A) :
  length (set_nth j x l) = length l.
Proof.
  revert j. induction l as [| h t IH]; intros j; destruct j; simpl;
    try reflexivity.
  rewrite IH. reflexivity.
Qed.

Lemma set_nth_In {A} (j : nat) (x y : A) (l : list A) :
  In y (set_nth j x l) -> y = x \/ In y l.
Proof.
  revert j. induction l as [| h t IH]; intros j Hin; destruct j; simpl in Hin;
    try (destruct Hin; fail).
  - destruct Hin as [<- | Hin]; [left; reflexivity | right; right; exact Hin].
  - destruct Hin as [<- | Hin]; [right; left; reflexivity |].
    destruct (IH _ Hin) as [-> | Hy]; [left; reflexivity | right; right; exact Hy].
Qed.

Lemma removelast_In {A} (y : A) (l : list A) : In y (removelast l) -> In y l.
Proof.
  induction l as [| h t IH]; simpl; [intros [] |].
  destruct t as [| h' t']; [intros [] |].
  intros [<- | Hin]; [left; reflexivity | right; apply IH; exact Hin].
Qed.

Lemma removelast_length {A} (l : list A) : length (removelast l) = pred (length l).
Proof.
  induction l as [| h t IH]; simpl; [reflexivity |].
  destruct t as [| h' t']; [reflexivity |].
  simpl in *. rewrite IH. reflexivity.
Qed.

Lemma last_In {A} (l : list A) (d : A) : l <> [] -> In (last l d) l.
Proof.
  induction l as [| h t IH]; intros Hne; [contradiction |].
  destruct t as [| h' t']; [left; reflexivity |].
  right. apply IH. discriminate.
Qed.

Lemma pool_take_length {A} (j : nat) (pool : list A) (d : A) :
  length (pool_take j pool d) = pred (length pool).
Proof. unfold pool_take. rewrite removelast_length, set_nth_length. reflexivity. Qed.

Lemma pool_take_In {A} (j : nat) (pool : list A) (d y : A) :
  pool <> [] -> In y (pool_take j pool d) -> In y pool.
Proof.
  intros Hne Hin. unfold pool_take in Hin. apply removelast_In, set_nth_In in Hin.
  destruct Hin as [-> | Hin]; [apply last_In; exact Hne | exact Hin].
Qed.

Lemma sample_pool_returns {A} (d : date) (k : nat) :
  forall pool : list A,
    (k <= length pool)%nat ->
    returns (on_day d) (sample_pool pool k)
            (fun res => length res = k /\ Forall (fun x => In x pool) res).
Proof.
  induction k as [| k IH]; intros pool Hk; simpl.
  - apply returns_ret. split; [reflexivity | constructor].
  - destruct pool as [| x0 rest]; [simpl in Hk; lia |].
    remember (x0 :: rest) as l eqn:El.
    assert (Hne : l <> []) by (subst l; discriminate).
    assert (Hlen : (0 < length l)%nat) by (subst l; simpl; lia).
    eapply returns_bind; [apply (randbelow_returns d); lia |].
    intros j Hj. cbv beta in Hj.
    eapply returns_bind.
    + apply IH. rewrite pool_take_length. lia.
    + intros res [Hres Hall]. apply returns_ret. split; [simpl; rewrite Hres; reflexivity |].
      constructor.
      * apply nth_In. lia.
      * eapply Forall_impl; [| exact Hall]. intros y Hy. eapply pool_take_In; [exact Hne | exact Hy].
Qed.

Lemma sample_returns {A} (d : date) (population : list A) (k : Z) :
  0 <= k <= Z.of_nat (length population) ->
  returns (on_day d) (sample population k)
          (fun res => length res = Z.to_nat k /\ Forall (fun x => In x population) res).
Proof.
  intros Hk. unfold sample.
  destruct (Z.ltb_spec k 0); [lia |].
  destruct (Z.ltb_spec (Z.of_nat (length population)) k); [lia |].
  simpl. apply sample_pool_returns. lia.
Qed.

(** *** The generators *)

Lemma Forall2_Forall_r {A B} (R : A -> B -> Prop) (Q : B -> Prop) xs ys :
  Forall2 R xs ys -> (forall x y, R x y -> Q y) -> Forall Q ys.
Proof. intros H Himp. induction H; constructor; eauto. Qed.

Lemma generate_users_returns (d : date) (n : Z) :
  returns (on_day d) (generate_users n)
          (fun us => map u_id us = range1 n /\ Forall (fun u => u_signup_date u <= d) us).
Proof.
  unfold generate_users.
  eapply returns_weaken.
  - apply (returns_forM _ _ (fun i u => u_id u = i /\ u_signup_date u <= d)).
    intros i _.
    eapply returns_bind; [apply years_ago_returns |]. intros start Hstart.
    eapply returns_bind; [apply get_today_returns |]. intros stop Hstop.
    cbv beta in Hstart, Hstop. subst start stop.
    assert (Hy : (36524 * 2 + 99) / 100 = 731) by reflexivity.
    eapply returns_bind; [apply date_between_returns; rewrite Hy; lia |].
    intros signup Hsignup. cbv beta in Hsignup.
    eapply returns_bind; [apply faker_text_returns |]. intros name _.
    eapply returns_bind; [apply faker_text_returns |]. intros email _.
    apply returns_ret. simpl. split; [reflexivity | lia].
  - intros us Hus. split.
    + apply Forall2_eq_map. eapply Forall2_impl; [| exact Hus]. intros i u [Hid _]. exact Hid.
    + eapply Forall2_Forall_r; [exact Hus |]. intros i u [_ Hle]. exact Hle.
Qed.

Lemma generate_products_returns (d : date) (n : Z) :
  returns (on_day d) (generate_products n) (fun ps => map p_id ps = range1 n).
Proof.
  unfold generate_products.
  eapply returns_weaken.
  - apply (returns_forM _ _ (fun i p => p_id p = i)).
    intros i _.
    eapply returns_bind; [apply faker_text_returns |]. intros name _.
    eapply returns_bind; [apply choice_returns; discriminate |]. intros cat _.
    eapply returns_bind; [apply uniform_returns |]. intros price _.
    apply returns_ret. reflexivity.
  - intros ps Hps. apply Forall2_eq_map. exact Hps.
Qed.

Lemma filter_id_nonempty {A} (key : A -> Z) (l : list A) (k : Z) :
  In k (map key l) -> filter (fun x => key x =? k) l <> [].
Proof.
  intros Hin. apply in_map_iff in Hin. destruct Hin as (x & Hk & Hx).
  assert (Hf : In x (filter (fun x => key x =? k) l)).
  { apply filter_In. split; [exact Hx | apply Z.eqb_eq; exact Hk]. }
  intros Hnil. rewrite Hnil in Hf. destruct Hf.
Qed.

(** [generate_orders] returns on every non-empty users table whose signup
    dates are not in the future. *)
Lemma generate_orders_returns (d : date) (users_df : list user) (n : Z) :
  users_df <> [] ->
  Forall (fun u => u_signup_date u <= d) users_df ->
  returns (on_day d) (generate_orders users_df n)
          (fun os => map o_id os = range1 n /\ Forall (fun o => o_order_date o <= d) os).
Proof.
  intros Hne Hsign. unfold generate_orders.
  eapply returns_weaken.
  - apply (returns_forM _ _ (fun i o => o_id o = i /\ o_order_date o <= d)).
    intros i _.
    eapply returns_bind;
      [apply choice_returns; destruct users_df; [contradiction | discriminate] |].
    intros user_id Huid.
    eapply returns_bind; [apply first_row_returns, filter_id_nonempty; exact Huid |].
    intros u Hu. apply hd_error_filter_In in Hu. destruct Hu as [Hu _].
    eapply returns_bind; [apply get_today_returns |]. intros stop Hstop.
    cbv beta in Hstop. subst stop.
    pose proof (proj1 (Forall_forall _ _) Hsign u Hu) as Hle.
    eapply returns_bind; [apply date_between_returns; exact Hle |]. intros day Hday.
    eapply returns_bind; [apply uniform_returns |]. intros total _.
    apply returns_ret. simpl. split; [reflexivity | cbv beta in Hday; lia].
  - intros os Hos. split.
    + apply Forall2_eq_map. eapply Forall2_impl; [| exact Hos]. intros i o [Hid _]. exact Hid.
    + eapply Forall2_Forall_r; [exact Hos |]. intros i o [_ Hle]. exact Hle.
Qed.

Lemma order_lines_returns (d : date) (products_df : list product) (order_id : Z)
  (selected : list Z) :
  Forall (fun pid => In pid (map p_id products_df)) selected ->
  forall item_id order_total,
    returns (on_day d) (order_lines products_df order_id selected item_id order_total)
            (fun x => length (fst (fst x)) = length selected).
Proof.
  induction 1 as [| pid rest Hpid _ IH]; intros item_id order_total; simpl.
  - apply returns_ret. reflexivity.
  - eapply returns_bind; [apply first_row_returns, filter_id_nonempty; exact Hpid |].
    intros product _.
    eapply returns_bind; [apply randint_returns; lia |]. intros quantity _.
    eapply returns_bind; [apply IH |]. intros [[items next_id] total] Hlen.
    apply returns_ret. simpl in *. rewrite Hlen. reflexivity.
Qed.

Lemma order_items_loop_returns (d : date) (products_df : list product) (lo hi : Z)
  (rows : list order) :
  0 <= lo <= hi ->
  forall item_id orders_df,
    returns (on_day d) (order_items_loop products_df lo hi rows item_id orders_df)
            (fun x => 1 <= lo -> products_df <> [] -> rows <> [] -> fst x <> []).
Proof.
  intros Hrange. induction rows as [| o rest IH]; intros item_id orders_df; simpl.
  - apply returns_ret. intros _ _ Hne. contradiction.
  - eapply returns_bind; [apply randint_returns; lia |]. intros num_items Hnum.
    cbv beta in Hnum.
    eapply returns_bind; [apply sample_returns; lia |]. intros selected [Hlen Hall].
    eapply returns_bind; [apply order_lines_returns; exact Hall |].
    intros [[items next_id] total] Hitems.
    eapply returns_bind; [apply IH |]. intros [more final_df] _.
    apply returns_ret. simpl in *. intros Hlo Hprod _ Happ.
    apply app_eq_nil in Happ. destruct Happ as [Hnil _]. subst items.
    simpl in Hitems. rewrite Hlen in Hitems.
    assert (Hp : (0 < length (map p_id products_df))%nat).
    { rewrite length_map. destruct products_df; [contradiction | simpl; lia]. }
    lia.
Qed.

Lemma generate_order_items_returns (d : date) (orders_df : list order)
  (products_df : list product) (lo hi : Z) :
  0 <= lo <= hi ->
  returns (on_day d) (generate_order_items orders_df products_df (lo, hi))
          (fun x => 1 <= lo -> products_df <> [] -> orders_df <> [] -> fst x <> []).
Proof. intros Hrange. unfold generate_order_items. apply order_items_loop_returns. exact Hrange. Qed.

Lemma distinct_nonempty (l : list Z) : l <> [] -> distinct l <> [].
Proof.
  destruct l as [| x t]; [contradiction |]. intros _ Hnil.
  assert (Hin : In x (distinct (x :: t))) by (apply nodup_In; left; reflexivity).
  rewrite Hnil in Hin. destruct Hin.
Qed.

Lemma fold_max_le (l : list Z) (a b : Z) :
  a <= b -> Forall (fun x => x <= b) l -> fold_left Z.max l a <= b.
Proof.
  revert a. induction l as [| x l IH]; intros a Ha Hall; simpl; [exact Ha |].
  inversion Hall; subst. apply IH; [lia | assumption].
Qed.

Lemma review_date_for_returns (d : date) (orders_df : list order) (user_id : Z) :
  Forall (fun o => o_order_date o <= d) orders_df ->
  returns (on_day d) (review_date_for orders_df user_id) (fun _ => True).
Proof.
  intros Hdates. unfold review_date_for.
  destruct (user_orders_of orders_df user_id) as [| first others] eqn:Hsel.
  - eapply returns_bind; [apply years_ago_returns |]. intros start Hstart.
    eapply returns_bind; [apply get_today_returns |]. intros stop Hstop.
    cbv beta in Hstart, Hstop. subst start stop.
    assert (Hy : (36524 * 1 + 99) / 100 = 366) by reflexivity.
    eapply returns_weaken; [apply date_between_returns; rewrite Hy; lia | trivial].
  - eapply returns_bind; [apply get_today_returns |]. intros stop Hstop.
    cbv beta in Hstop. subst stop.
    eapply returns_weaken; [apply date_between_returns | trivial].
    assert (Hsub : Forall (fun o => o_order_date o <= d) (first :: others)).
    { rewrite <- Hsel. unfold user_orders_of. apply Forall_forall. intros o Ho.
      apply filter_In in Ho. destruct Ho as [Ho _].
      exact (proj1 (Forall_forall _ _) Hdates o Ho). }
    inversion Hsub as [| ? ? Hfirst Hothers]; subst.
    unfold max_order_date. apply fold_max_le; [exact Hfirst |].
    apply Forall_forall. intros x Hx. apply in_map_iff in Hx.
    destruct Hx as (o & <- & Ho). exact (proj1 (Forall_forall _ _) Hothers o Ho).
Qed.

Lemma generate_reviews_returns (d : date) (users_df : list user) (products_df : list product)
  (orders_df : list order) (order_items_df : list order_item) (n : Z) :
  orders_df <> [] ->
  order_items_df <> [] ->
  Forall (fun o => o_order_date o <= d) orders_df ->
  returns (on_day d)
          (generate_reviews users_df products_df orders_df order_items_df n)
          (fun _ => True).
Proof.
  intros Hord Hitems Hdates. unfold generate_reviews.
  eapply returns_weaken; [| trivial].
  apply (returns_forM _ _ (fun _ _ => True)). intros i _.
  eapply returns_bind.
  { apply choice_returns, distinct_nonempty.
    destruct orders_df; [contradiction | discriminate]. }
  intros user_id _.
  eapply returns_bind.
  { apply choice_returns, distinct_nonempty.
    destruct order_items_df; [contradiction | discriminate]. }
  intros product_id _.
  eapply returns_bind; [apply review_date_for_returns; exact Hdates |]. intros day _.
  eapply returns_bind; [apply randint_returns; lia |]. intros rating _.
  eapply returns_bind; [apply faker_text_returns |]. intros text _.
  apply returns_ret. exact I.
Qed.

Lemma range1_nonempty (n : Z) : 0 < n -> range1 n <> [].
Proof.
  intros Hn. unfold range1. destruct (Z.to_nat n) as [| k] eqn:Hk; [lia |].
  simpl. discriminate.
Qed.

Lemma map_nonempty {A B} (f : A -> B) (l : list A) : map f l <> [] -> l <> [].
Proof. destruct l; [intros H; contradiction | discriminate]. Qed.

(** The five generators in sequence never raise. *)
Lemma generate_tables_returns (d : date) :
  returns (on_day d) generate_tables (fun _ => True).
Proof.
  unfold generate_tables.
  eapply returns_bind; [apply generate_users_returns |]. intros users_df [Huid Hsign].
  eapply returns_bind; [apply generate_products_returns |]. intros products_df Hpid.
  assert (Husers : users_df <> []).
  { apply (map_nonempty u_id). rewrite Huid. apply range1_nonempty. lia. }
  assert (Hproducts : products_df <> []).
  { apply (map_nonempty p_id). rewrite Hpid. apply range1_nonempty. lia. }
  eapply returns_bind; [apply generate_orders_returns; eassumption |].
  intros orders0 [Hoid Hdates].
  assert (Horders : orders0 <> []).
  { apply (map_nonempty o_id). rewrite Hoid. apply range1_nonempty. lia. }
  eapply returns_bind.
  { apply returns_with with (R := fun x => Forall2 (fun o o' => o_order_date o' = o_order_date o)
                                                   orders0 (snd x)).
    - apply (generate_order_items_returns d orders0 products_df 1 5). lia.
    - intros s [items final_df] s' Hrun. simpl.
      apply generate_order_items_frame in Hrun. eapply Forall2_impl; [| exact Hrun].
      intros o o' (_ & _ & Hd). exact Hd. }
  intros [items orders_df] [Hne Hframe]. simpl in Hne, Hframe.
  eapply returns_bind.
  { apply generate_reviews_returns.
    - intros Hnil. subst orders_df. inversion Hframe; subst. contradiction.
    - apply Hne; [lia | exact Hproducts | exact Horders].
    - clear - Hdates Hframe. induction Hframe as [| o o' l l' Hd _ IH]; [constructor |].
      inversion Hdates; subst. constructor; [lia | apply IH; assumption]. }
  intros reviews _. apply returns_ret. exact I.
Qed.

(** [generate_data] returns a dataset from every process state, provided
    the directory [data/] exists. *)
Lemma generate_data_returns (w : world) (files : flat_files) :
  data_dir w = Some files ->
  exists d w', generate_data w = (Ok d, w').
Proof.
  intros Hdir. rewrite generate_data_unfold, Hdir.
  destruct (generate_tables_returns (today (env w)) (env w) eq_refl) as (d & e & Hrun & _).
  rewrite Hrun. eexists _, _. reflexivity.
Qed.

(** ** [load_to_sqlite] *)

(** The loader starts from a removed store: its outcome is that of the
    connection opened on an absent file. *)
Lemma load_to_sqlite_unfold (w : world) :
  load_to_sqlite w =
  (fst (try_load (data_dir w) (sqlite3_connect None)),
   {| env := env w; data_dir := data_dir w;
      db_file := Some (disk (snd (try_load (data_dir w) (sqlite3_connect None)))) |}).
Proof.
  unfold load_to_sqlite.
  destruct (db_file w) as [d |] eqn:Hdb; simpl; rewrite ?Hdb;
    destruct (try_load (data_dir w) (sqlite3_connect None)) as [r c]; reflexivity.
Qed.

(** C6: running [load_to_sqlite] a second time, on the state the first run
    left, has the outcome of the first run and leaves the very same store:
    the same tables with the same rows and the same indexes, nothing
    accumulated. *)
Theorem C6_load_idempotent (w : world) :
  load_to_sqlite (snd (load_to_sqlite w)) = load_to_sqlite w.
Proof.
  rewrite (load_to_sqlite_unfold w). simpl.
  rewrite load_to_sqlite_unfold. simpl. reflexivity.
Qed.

(** C2, amended: when a step of [load_to_sqlite] fails the error reaches the
    caller, the flat files and the generators are untouched, and what is
    left on disk is determined by the flat files alone: the pre-invocation
    store is removed before loading starts and none of its content is
    kept. *)
Theorem C2_failed_load_keeps_nothing_of_prior_store (w1 w2 w1' : world) (e : exn) :
  data_dir w1 = data_dir w2 ->
  load_to_sqlite w1 = (Raise e, w1') ->
  data_dir w1' = data_dir w1 /\
  env w1' = env w1 /\
  exists w2', load_to_sqlite w2 = (Raise e, w2') /\ db_file w2' = db_file w1'.
Proof.
  intros Hfiles H. rewrite load_to_sqlite_unfold in H. inversion H as [[Hr Hw]].
  simpl. repeat split; try reflexivity.
  eexists. rewrite load_to_sqlite_unfold, <- Hfiles, Hr. split; reflexivity.
Qed.

(** *** What a successful load leaves in the store *)

Lemma get_set_table {A} (t : table_name) (v : A) (s : per_table A) :
  get_table t (set_table t v s) = v.
Proof. destruct t; reflexivity. Qed.

Lemma set_set_table {A} (t : table_name) (v v' : A) (s : per_table A) :
  set_table t v (set_table t v' s) = set_table t v s.
Proof. destruct t; reflexivity. Qed.

Lemma set_get_table {A} (t : table_name) (s : per_table A) :
  set_table t (get_table t s) s = s.
Proof. destruct t, s; reflexivity. Qed.

Lemma insert_rows_Ok (fk : bool) (t : table_name) (rows : list row) :
  forall (d d' : database) (existing : list row),
    get_table t (db_tables d) = Some existing ->
    insert_rows fk t d rows = Ok d' ->
    d' = with_rows t (existing ++ rows) d.
Proof.
  induction rows as [| r rows IH]; intros d d' existing Hget H; simpl in H.
  - apply Ok_inj in H. subst d'. rewrite app_nil_r. unfold with_rows.
    rewrite <- Hget, set_get_table. destruct d; reflexivity.
  - destruct (insert_row fk t d r) as [d1 | e] eqn:Hins; [| discriminate H].
    unfold insert_row in Hins. rewrite Hget in Hins.
    destruct (negb (fits t r)); [discriminate Hins |].
    destruct (existsb _ existing); [discriminate Hins |].
    destruct (negb (checks existing r)); [discriminate Hins |].
    destruct (fk && negb (references_resolve d r)); [discriminate Hins |].
    apply Ok_inj in Hins. subst d1.
    assert (Hget1 : get_table t (db_tables (with_rows t (existing ++ [r]) d))
                    = Some (existing ++ [r])).
    { unfold with_rows. simpl. apply get_set_table. }
    rewrite (IH _ _ _ Hget1 H). unfold with_rows. simpl.
    rewrite set_set_table, <- app_assoc. reflexivity.
Qed.

Lemma load_csv_to_table_Ok (files : option flat_files) (t : table_name)
  (c c' : connection) (n : Z) (existing : list row) :
  txn c = None ->
  get_table t (db_tables (disk c)) = Some existing ->
  load_csv_to_table files t c = (Ok n, c') ->
  exists df,
    read_csv files t = Some df /\
    c' = {| disk := with_rows t df (disk c); txn := None; foreign_keys := foreign_keys c |}.
Proof.
  intros Htxn Hget H. unfold load_csv_to_table in H.
  destruct (read_csv files t) as [df |]; [| discriminate H].
  exists df. split; [reflexivity |].
  destruct c as [d tx fk]. simpl in Htxn, Hget. subst tx.
  unfold bind, delete_from, to_sql, select_count, begin_implicit, write_through,
    commit, rollback, current, ret in H.
  cbn in H. rewrite Hget in H. cbn in H.
  destruct (insert_rows fk t (with_rows t [] d) df) as [d' | e] eqn:Hins;
    [| discriminate H].
  apply (insert_rows_Ok _ _ _ _ _ []) in Hins; [| apply get_set_table].
  subst d'. cbn in H. unfold with_rows in H at 1. cbn in H.
  rewrite get_set_table in H. inversion H; subst.
  unfold with_rows. cbn. rewrite set_set_table. reflexivity.
Qed.

(** A load that completes leaves a store whose five tables hold exactly the
    rows of the five flat files, in file order, with the six indexes. *)
Lemma load_to_sqlite_Ok (w w' : world) :
  load_to_sqlite w = (Ok tt, w') ->
  exists u p o i r,
    data_dir w = Some {| of_users := Some u; of_products := Some p; of_orders := Some o;
                         of_order_items := Some i; of_reviews := Some r |} /\
    db_file w' = Some {| db_tables := {| of_users := Some u; of_products := Some p;
                                         of_orders := Some o; of_order_items := Some i;
                                         of_reviews := Some r |};
                         db_indexes := loader_indexes |}.
Proof.
  rewrite load_to_sqlite_unfold.
  destruct (try_load (data_dir w) (sqlite3_connect None)) as [res c] eqn:E.
  cbn [fst snd]. intros H. inversion H; subst. clear H. cbn [data_dir db_file].
  unfold try_load in E.
  destruct (load_steps (data_dir w) (sqlite3_connect None)) as [[[] | e] c1] eqn:Hs;
    [| discriminate E].
  inversion E; subst. clear E.
  unfold load_steps in Hs. run_inv Hs.
  match goal with Hc : create_schema _ = _ |- _ => cbv in Hc; inversion Hc; subst; clear Hc end.
  repeat match goal with
         | Hl : load_csv_to_table _ _ _ = (Ok _, _) |- _ =>
             apply (load_csv_to_table_Ok _ _ _ _ _ []) in Hl;
             [destruct Hl as (? & ? & ?); subst; cbn [disk foreign_keys] in * | reflexivity | reflexivity]
         end.
  match goal with Hi : create_indexes _ = _ |- _ => cbv in Hi; inversion Hi; subst; clear Hi end.
  match goal with Hc : _ = (Ok tt, c1) |- _ => cbv in Hc; inversion Hc; subst; clear Hc end.
  destruct (data_dir w) as [[fu fp fo fi fr] |]; cbn in *; try discriminate.
  subst. do 5 eexists. split; reflexivity.
Qed.

(** ** [get_product_sales_summary] *)

Lemma insert_desc_sorted (r : sales_row) (l : list sales_row) :
  Sorted revenue_ge l -> Sorted revenue_ge (insert_desc r l).
Proof.
  induction 1 as [| h t Ht IH Hhd]; simpl.
  - repeat constructor.
  - destruct (fleb (total_revenue h) (total_revenue r)) eqn:Hcmp.
    + constructor; [constructor; assumption | constructor; exact Hcmp].
    + constructor; [exact IH |].
      assert (Hrh : revenue_ge h r).
      { unfold revenue_ge. destruct (fleb_total (total_revenue r) (total_revenue h)) as [Hle | Hle];
          [exact Hle | rewrite Hcmp in Hle; discriminate Hle]. }
      destruct t as [| h' t']; simpl.
      * constructor. exact Hrh.
      * destruct (fleb (total_revenue h') (total_revenue r)); constructor;
          [exact Hrh | inversion Hhd; assumption].
Qed.

Lemma order_by_revenue_desc_sorted (rows : list sales_row) :
  Sorted revenue_ge (order_by_revenue_desc rows).
Proof.
  unfold order_by_revenue_desc. induction rows as [| r rows IH]; simpl.
  - constructor.
  - apply insert_desc_sorted. exact IH.
Qed.

Lemma Sorted_firstn {A} (R : A -> A -> Prop) (n : nat) (l : list A) :
  Sorted R l -> Sorted R (firstn n l).
Proof.
  revert l. induction n as [| n IH]; intros l H; simpl.
  - constructor.
  - destruct l as [| x l]; [constructor |].
    inversion H as [| ? ? Hs Hhd]; subst. constructor; [apply IH; exact Hs |].
    destruct n; simpl; [constructor |].
    destruct l; [constructor | inversion Hhd; constructor; assumption].
Qed.

Lemma Sorted_consecutive {A} (R : A -> A -> Prop) (l : list A) :
  Sorted R l ->
  forall i a b, nth_error l i = Some a -> nth_error l (S i) = Some b -> R a b.
Proof.
  induction 1 as [| x l Hs IH Hhd]; intros i a b Ha Hb.
  - destruct i; discriminate Ha.
  - destruct i as [| i]; simpl in Ha, Hb.
    + inversion Ha; subst. destruct l as [| y l]; [discriminate Hb |].
      simpl in Hb. inversion Hb; subst. inversion Hhd; assumption.
    + eapply IH; eassumption.
Qed.

Lemma product_sales_query_spec (d : database) (rows : list sales_row) :
  product_sales_query d = Ok rows ->
  (length rows <= 10)%nat /\ Sorted revenue_ge rows.
Proof.
  unfold product_sales_query.
  destruct (get_table Products (db_tables d)) as [ps |]; [| discriminate].
  destruct (get_table OrderItems (db_tables d)) as [ois |]; [| discriminate].
  intros H. apply Ok_inj in H. subst rows. split.
  - apply firstn_le_length.
  - apply Sorted_firstn. apply order_by_revenue_desc_sorted.
Qed.

(** On the store a completed load leaves, the query returns. *)
Lemma sales_summary_returns_after_load (w w' : world) :
  load_to_sqlite w = (Ok tt, w') ->
  exists rows w'', get_product_sales_summary w' = (Ok rows, w'').
Proof.
  intros H. apply load_to_sqlite_Ok in H. destruct H as (u & p & o & i & r & _ & Hdb).
  unfold get_product_sales_summary. rewrite Hdb.
  unfold product_sales_query. cbn. eexists _, _. reflexivity.
Qed.

(** C7, amended: on every store state on which the product-revenue query
    returns, it returns at most 10 rows and no row has a smaller
    [total_revenue] than the row that follows it (equal revenues may be
    adjacent). *)
Theorem C7_sales_summary_at_most_ten_non_increasing (w w' : world) (rows : list sales_row) :
  get_product_sales_summary w = (Ok rows, w') ->
  (length rows <= 10)%nat /\
  forall i a b, nth_error rows i = Some a -> nth_error rows (S i) = Some b ->
                fleb (total_revenue b) (total_revenue a) = true.
Proof.
  unfold get_product_sales_summary. intros H. inversion H as [[Hq Hw]].
  apply product_sales_query_spec in Hq. destruct Hq as [Hlen Hsorted].
  split; [exact Hlen |].
  intros i a b Ha Hb. exact (Sorted_consecutive _ _ Hsorted i a b Ha Hb).
Qed.

(** * Further properties *)

(** A table given to a generator is a frame with the columns of its
    records, here the list of its rows; an empty list is such a frame with
    no row.  (A frame built from no record at all has no columns, and
    reading a column of it is a [KeyError]: such an argument is outside the
    statements below.) *)

(** ** Runs that return: what the value satisfies *)

Local Abbreviation yields := (@yields gen _).
Local Abbreviation first_row := (@first_row gen _).

Lemma yields_ret {A} (d : date) (a : A) (Q : A -> Prop) : Q a -> yields d (ret a) Q.
Proof.
  intros Hq e a' e' Hd H. apply ret_Ok in H. destruct H as [-> ->].
  split; [exact Hd | exact Hq].
Qed.

Lemma yields_bind {A B} (d : date) (m : M entropy A) (f : A -> M entropy B)
  (Q : A -> Prop) (R : B -> Prop) :
  yields d m Q ->
  (forall a, Q a -> yields d (f a) R) ->
  yields d (bind m f) R.
Proof.
  intros Hm Hf e b e' Hd H. apply bind_Ok in H. destruct H as (a & e1 & H1 & H2).
  destruct (Hm _ _ _ Hd H1) as [Hd1 Hq].
  exact (Hf a Hq _ _ _ Hd1 H2).
Qed.

Lemma yields_weaken {A} (d : date) (m : M entropy A) (Q Q' : A -> Prop) :
  yields d m Q -> (forall a, Q a -> Q' a) -> yields d m Q'.
Proof.
  intros Hm Himp e a e' Hd H. destruct (Hm _ _ _ Hd H) as [Hd' Hq].
  split; [exact Hd' | apply Himp; exact Hq].
Qed.

Lemma yields_forM {A B} (d : date) (f : A -> M entropy B) (Q : A -> B -> Prop) (xs : list A) :
  (forall x, In x xs -> yields d (f x) (Q x)) ->
  yields d (forM xs f) (Forall2 Q xs).
Proof.
  induction xs as [| x xs IH]; intros Hf; simpl.
  - apply yields_ret. constructor.
  - eapply yields_bind; [apply Hf; left; reflexivity |].
    intros y Hy. eapply yields_bind; [apply IH; intros x' Hx'; apply Hf; right; exact Hx' |].
    intros ys Hys. apply yields_ret. constructor; assumption.
Qed.

(** A run that cannot raise yields what it is shown to return. *)
Lemma returns_yields {A} (d : date) (m : M entropy A) (Q : A -> Prop) :
  returns (on_day d) m Q -> yields d m Q.
Proof.
  intros Hm e a e' Hd H. destruct (Hm e Hd) as (a0 & e0 & H0 & Hd0 & Hq).
  rewrite H in H0. inversion H0; subst. split; assumption.
Qed.

Lemma yields_py_draw (d : date) : yields d py_draw (fun _ => True).
Proof. apply returns_yields, py_draw_returns. Qed.

Lemma yields_faker_text (d : date) (provider : gen -> string * gen) :
  yields d (faker_text provider) (fun _ => True).
Proof. apply returns_yields, faker_text_returns. Qed.

Lemma yields_get_today (d : date) : yields d get_today (fun x => x = d).
Proof. apply returns_yields, get_today_returns. Qed.

Lemma yields_years_ago (d : date) (y : Z) :
  yields d (years_ago y) (fun x => x = d - (36524 * y + 99) / 100).
Proof. apply returns_yields, years_ago_returns. Qed.

Lemma yields_uniform (d : date) (a b : float) : yields d (uniform a b) (fun _ => True).
Proof. apply returns_yields, uniform_returns. Qed.

Lemma yields_choice {A} (d : date) (seq : list A) :
  yields d (choice seq) (fun x => In x seq).
Proof.
  destruct seq as [| x0 rest].
  - intros e a e' _ H. discriminate H.
  - apply returns_yields, choice_returns. discriminate.
Qed.

Lemma yields_randint (d : date) (a b : Z) :
  yields d (randint a b) (fun z => a <= z <= b).
Proof.
  destruct (Z.ltb_spec b a) as [Hlt | Hle].
  - intros e z e' _ H. unfold randint in H.
    destruct (Z.ltb_spec b a); [discriminate H | lia].
  - apply returns_yields, randint_returns. exact Hle.
Qed.

Lemma yields_date_between (d start stop : date) :
  yields d (date_between start stop) (fun x => start <= x <= stop).
Proof.
  destruct (Z.ltb_spec stop start) as [Hlt | Hle].
  - intros e z e' _ H. unfold date_between in H.
    destruct (Z.ltb_spec stop start); [discriminate H | lia].
  - apply returns_yields, date_between_returns. exact Hle.
Qed.

Lemma yields_first_row {A} (d : date) (rows : list A) :
  yields d (first_row rows) (fun r => hd_error rows = Some r).
Proof.
  destruct rows as [| r rest].
  - intros e a e' _ H. discriminate H.
  - apply returns_yields, first_row_returns. discriminate.
Qed.

(** ** [generate_users], [generate_products], [generate_orders] *)

Lemma range1_length (n : Z) : length (range1 n) = Z.to_nat n.
Proof. unfold range1. rewrite length_map, length_seq. reflexivity. Qed.

Lemma generate_users_yields (d : date) (n : Z) :
  yields d (generate_users n)
         (Forall2 (fun i u => u_id u = i /\ d - 731 <= u_signup_date u <= d) (range1 n)).
Proof.
  unfold generate_users. apply yields_forM. intros i _.
  eapply yields_bind; [apply yields_years_ago |]. intros start Hstart.
  eapply yields_bind; [apply yields_get_today |]. intros stop Hstop.
  cbv beta in Hstart, Hstop. subst start stop.
  assert (Hy : (36524 * 2 + 99) / 100 = 731) by reflexivity. rewrite Hy.
  eapply yields_bind; [apply yields_date_between |]. intros signup Hsignup.
  eapply yields_bind; [apply yields_faker_text |]. intros name _.
  eapply yields_bind; [apply yields_faker_text |]. intros mail _.
  apply yields_ret. simpl. split; [reflexivity | exact Hsignup].
Qed.

(** X1: [generate_users] never raises.  It returns as many users as asked
    for (none for a negative count), with ids 1, 2, ... in order, each
    signed up within the 731 days up to today, and leaves the clock
    alone. *)
Theorem X1_generate_users_shape (n : Z) (e : entropy) :
  exists users e',
    generate_users n e = (Ok users, e') /\
    today e' = today e /\
    length users = Z.to_nat n /\
    map u_id users = range1 n /\
    Forall (fun u => today e - 731 <= u_signup_date u <= today e) users.
Proof.
  destruct (generate_users_returns (today e) n e eq_refl) as (users & e' & Hrun & Hday & _).
  exists users, e'. split; [exact Hrun |]. split; [exact Hday |].
  destruct (generate_users_yields (today e) n _ _ _ eq_refl Hrun) as [_ Hrows].
  split; [| split].
  - rewrite <- (Forall2_length Hrows). apply range1_length.
  - apply Forall2_eq_map. eapply Forall2_impl; [| exact Hrows]. intros i u [Hid _]. exact Hid.
  - eapply Forall2_Forall_r; [exact Hrows |]. intros i u [_ Hb]. exact Hb.
Qed.

Lemma generate_products_yields (d : date) (n : Z) :
  yields d (generate_products n)
         (Forall2 (fun i p => p_id p = i /\ In (p_category p) categories) (range1 n)).
Proof.
  unfold generate_products. apply yields_forM. intros i _.
  eapply yields_bind; [apply yields_faker_text |]. intros name _.
  eapply yields_bind; [apply yields_choice |]. intros cat Hcat.
  eapply yields_bind; [apply yields_uniform |]. intros price _.
  apply yields_ret. simpl. split; [reflexivity | exact Hcat].
Qed.

(** X2: [generate_products] never raises.  It returns as many products as
    asked for, with ids 1, 2, ... in order, each in one of the eight
    categories of the source. *)
Theorem X2_generate_products_shape (n : Z) (e : entropy) :
  exists products e',
    generate_products n e = (Ok products, e') /\
    length products = Z.to_nat n /\
    map p_id products = range1 n /\
    Forall (fun p => In (p_category p) categories) products.
Proof.
  destruct (generate_products_returns (today e) n e eq_refl) as (ps & e' & Hrun & _ & _).
  exists ps, e'. split; [exact Hrun |].
  destruct (generate_products_yields (today e) n _ _ _ eq_refl Hrun) as [_ Hrows].
  split; [| split].
  - rewrite <- (Forall2_length Hrows). apply range1_length.
  - apply Forall2_eq_map. eapply Forall2_impl; [| exact Hrows]. intros i p [Hid _]. exact Hid.
  - eapply Forall2_Forall_r; [exact Hrows |]. intros i p [_ Hc]. exact Hc.
Qed.

Lemma generate_orders_yields (d : date) (users_df : list user) (n : Z) :
  yields d (generate_orders users_df n)
         (Forall2 (fun i o => o_id o = i /\
                              In (o_user_id o) (map u_id users_df) /\
                              o_order_date o <= d)
                  (range1 n)).
Proof.
  unfold generate_orders. apply yields_forM. intros i _.
  eapply yields_bind; [apply yields_choice |]. intros user_id Huid.
  eapply yields_bind; [apply yields_first_row |]. intros u _.
  eapply yields_bind; [apply yields_get_today |]. intros stop Hstop.
  cbv beta in Hstop. subst stop.
  eapply yields_bind; [apply yields_date_between |]. intros day Hday.
  eapply yields_bind; [apply yields_uniform |]. intros total _.
  apply yields_ret. simpl. split; [reflexivity |]. split; [exact Huid | apply Hday].
Qed.

(** X3: on a non-empty users table whose signup dates are not in the
    future, [generate_orders] does not raise; the orders carry the ids 1,
    2, ... in order, every [user_id] is the id of a row of the users table
    and no order is dated after today. *)
Theorem X3_generate_orders_shape (users_df : list user) (n : Z) (e : entropy) :
  users_df <> [] ->
  Forall (fun u => u_signup_date u <= today e) users_df ->
  exists orders e',
    generate_orders users_df n e = (Ok orders, e') /\
    length orders = Z.to_nat n /\
    map o_id orders = range1 n /\
    Forall (fun o => In (o_user_id o) (map u_id users_df) /\ o_order_date o <= today e)
           orders.
Proof.
  intros Hne Hsign.
  destruct (generate_orders_returns (today e) users_df n Hne Hsign e eq_refl)
    as (orders & e' & Hrun & _ & _).
  exists orders, e'. split; [exact Hrun |].
  destruct (generate_orders_yields (today e) users_df n _ _ _ eq_refl Hrun) as [_ Hrows].
  split; [| split].
  - rewrite <- (Forall2_length Hrows). apply range1_length.
  - apply Forall2_eq_map. eapply Forall2_impl; [| exact Hrows]. intros i o [Hid _]. exact Hid.
  - eapply Forall2_Forall_r; [exact Hrows |]. intros i o (_ & Hu & Hd). split; assumption.
Qed.

(** X4: asked for at least one order over a users table that has no row,
    [generate_orders] raises [IndexError] before drawing anything; asked
    for none, it returns the empty table without drawing, whatever the
    users. *)
Theorem X4_generate_orders_without_users (n : Z) (e : entropy) :
  (0 < n -> generate_orders [] n e = (Raise IndexError, e)) /\
  (n <= 0 -> forall users_df, generate_orders users_df n e = (Ok [], e)).
Proof.
  split.
  - intros Hn. unfold generate_orders.
    pose proof (range1_nonempty n Hn) as Hne.
    destruct (range1 n) as [| i rest]; [contradiction | reflexivity].
  - intros Hn users_df. unfold generate_orders, range1.
    replace (Z.to_nat n) with 0%nat by lia. reflexivity.
Qed.

(** ** [random.sample] draws distinct positions *)

Lemma removelast_cons {A} (x : A) (l : list A) :
  l <> [] -> removelast (x :: l) = x :: removelast l.
Proof. destruct l; [contradiction | reflexivity]. Qed.

Lemma last_cons {A} (x d : A) (l : list A) : l <> [] -> last (x :: l) d = last l d.
Proof. destruct l; [contradiction | reflexivity]. Qed.

Lemma NoDup_snoc {A} (l : list A) (y : A) : NoDup (l ++ [y]) -> NoDup l /\ ~ In y l.
Proof.
  intros H. apply NoDup_remove in H. rewrite app_nil_r in H. exact H.
Qed.

Lemma pool_take_NoDup {A} (pool : list A) :
  forall (j : nat) (d : A),
    (j < length pool)%nat -> NoDup pool ->
    NoDup (pool_take j pool d) /\ ~ In (nth j pool d) (pool_take j pool d).
Proof.
  induction pool as [| h t IH]; intros j d Hj Hnd; [simpl in Hj; lia |].
  inversion Hnd as [| ? ? Hh Ht]; subst.
  destruct j as [| j'].
  - unfold pool_take.
    destruct t as [| h' t'].
    + simpl. split; [constructor | intros []].
    + assert (Hne : h' :: t' <> []) by discriminate.
      rewrite (last_cons h d _ Hne). cbn [set_nth nth].
      rewrite (removelast_cons _ _ Hne).
      pose proof (app_removelast_last d Hne) as Hsplit.
      rewrite Hsplit in Ht. apply NoDup_snoc in Ht. destruct Ht as [Hrl Hlast].
      split.
      * constructor; assumption.
      * intros [Heq | Hin].
        { apply Hh. rewrite <- Heq. apply last_In. exact Hne. }
        { apply Hh. apply removelast_In. exact Hin. }
  - simpl in Hj. assert (Hj' : (j' < length t)%nat) by lia.
    assert (Hne : t <> []) by (destruct t; [simpl in Hj'; lia | discriminate]).
    assert (Heq : pool_take (S j') (h :: t) d = h :: pool_take j' t d).
    { unfold pool_take. rewrite (last_cons h d _ Hne). cbn [set_nth].
      apply removelast_cons. intros Hnil.
      apply (f_equal (@length A)) in Hnil. rewrite set_nth_length in Hnil.
      destruct t; [contradiction | discriminate Hnil]. }
    rewrite Heq. cbn [nth].
    destruct (IH j' d Hj' Ht) as [Hnd' Hnot].
    split.
    + constructor; [| exact Hnd'].
      intros Hin. apply Hh. eapply pool_take_In; [exact Hne | exact Hin].
    + intros [Hsame | Hin]; [| exact (Hnot Hin)].
      apply Hh. rewrite Hsame. apply nth_In. exact Hj'.
Qed.

Lemma sample_pool_distinct {A} (d : date) (k : nat) :
  forall pool : list A,
    (k <= length pool)%nat ->
    returns (on_day d) (sample_pool pool k)
            (fun res => length res = k /\
                        Forall (fun x => In x pool) res /\
                        (NoDup pool -> NoDup res)).
Proof.
  induction k as [| k IH]; intros pool Hk; simpl.
  - apply returns_ret. split; [reflexivity |]. split; constructor.
  - destruct pool as [| x0 rest]; [simpl in Hk; lia |].
    remember (x0 :: rest) as l eqn:El.
    assert (Hne : l <> []) by (subst l; discriminate).
    assert (Hlen : (0 < length l)%nat) by (subst l; simpl; lia).
    eapply returns_bind; [apply (randbelow_returns d); lia |].
    intros j Hj. cbv beta in Hj.
    eapply returns_bind.
    + apply IH. rewrite pool_take_length. lia.
    + intros res (Hres & Hall & Hnd). apply returns_ret.
      split; [simpl; rewrite Hres; reflexivity |].
      split.
      * constructor; [apply nth_In; lia |].
        eapply Forall_impl; [| exact Hall]. intros y Hy.
        eapply pool_take_In; [exact Hne | exact Hy].
      * intros Hpool.
        destruct (pool_take_NoDup l (N.to_nat j) x0 ltac:(lia) Hpool) as [Hnd' Hnot].
        constructor; [| apply Hnd; exact Hnd'].
        intros Hin. apply Hnot.
        exact (proj1 (Forall_forall _ _) Hall _ Hin).
Qed.

Lemma yields_sample {A} (d : date) (population : list A) (k : Z) :
  yields d (sample population k)
         (fun res => 0 <= k <= Z.of_nat (length population) /\
                     length res = Z.to_nat k /\
                     Forall (fun x => In x population) res /\
                     (NoDup population -> NoDup res)).
Proof.
  destruct (Z.ltb_spec k 0) as [Hneg | Hpos];
    [| destruct (Z.ltb_spec (Z.of_nat (length population)) k) as [Hbig | Hfit]].
  - intros e a e' _ H. unfold sample in H.
    destruct (Z.ltb_spec k 0); [discriminate H | lia].
  - intros e a e' _ H. unfold sample in H.
    destruct (Z.ltb_spec k 0); [discriminate H |].
    destruct (Z.ltb_spec (Z.of_nat (length population)) k); [discriminate H | lia].
  - apply returns_yields. unfold sample.
    destruct (Z.ltb_spec k 0); [lia |].
    destruct (Z.ltb_spec (Z.of_nat (length population)) k); [lia |].
    simpl. eapply returns_weaken; [apply sample_pool_distinct; lia |].
    intros res (Hlen & Hall & Hnd). repeat split; try assumption; lia.
Qed.

(** [random.sample] as the generator uses it: when it returns, the
    sample has exactly [k] elements, all taken from the population, and no
    element twice when the population has no repeats; it raises
    [ValueError], without drawing, when [k] is negative or larger than the
    population. *)
Lemma sample_spec {A} (population : list A) (k : Z) (e : entropy) :
  (forall res e', sample population k e = (Ok res, e') ->
                  length res = Z.to_nat k /\
                  Forall (fun x => In x population) res /\
                  (NoDup population -> NoDup res)) /\
  (k < 0 \/ Z.of_nat (length population) < k ->
   sample population k e = (Raise ValueError, e)) /\
  (0 <= k <= Z.of_nat (length population) ->
   exists res e', sample population k e = (Ok res, e')).
Proof.
  split; [| split].
  - intros res e' H.
    destruct (yields_sample (today e) population k _ _ _ eq_refl H) as [_ (_ & Hl & Ha & Hn)].
    repeat split; assumption.
  - intros Hk. unfold sample.
    destruct (Z.ltb_spec k 0); [reflexivity |].
    destruct (Z.ltb_spec (Z.of_nat (length population)) k); [reflexivity | lia].
  - intros Hk.
    destruct (sample_returns (today e) population k Hk e eq_refl) as (res & e' & H & _).
    exists res, e'. exact H.
Qed.

(** ** [generate_order_items]: the items *)

Lemma ids_from_cons (a : Z) (n : nat) : ids_from a (S n) = a :: ids_from (a + 1) n.
Proof.
  unfold ids_from. simpl. f_equal; [lia |].
  rewrite <- seq_shift, map_map. apply map_ext. intros k. lia.
Qed.

Lemma ids_from_app (a : Z) (n m : nat) :
  ids_from a (n + m) = ids_from a n ++ ids_from (a + Z.of_nat n) m.
Proof.
  revert a. induction n as [| n IH]; intros a.
  - change (ids_from a 0) with (@nil Z). simpl.
    replace (a + 0) with a by lia. reflexivity.
  - change (S n + m)%nat with (S (n + m)). rewrite !ids_from_cons, IH.
    rewrite <- app_comm_cons. do 3 f_equal. rewrite Nat2Z.inj_succ. lia.
Qed.

Lemma ids_from_1 (n : nat) : ids_from 1 n = range1 (Z.of_nat n).
Proof.
  unfold ids_from, range1. rewrite Nat2Z.id, <- seq_shift, map_map.
  apply map_ext. intros k. lia.
Qed.

Lemma yields_order_lines (d : date) (products_df : list product) (order_id : Z)
  (selected : list Z) :
  forall item_id order_total,
    yields d (order_lines products_df order_id selected item_id order_total)
           (fun x => map oi_product_id (fst (fst x)) = selected /\
                     map oi_id (fst (fst x)) = ids_from item_id (length selected) /\
                     snd (fst x) = item_id + Z.of_nat (length selected) /\
                     Forall (line_of products_df order_id) (fst (fst x))).
Proof.
  induction selected as [| pid rest IH]; intros item_id order_total; simpl order_lines.
  - apply yields_ret. simpl. repeat split; [lia | constructor].
  - eapply yields_bind; [apply yields_first_row |]. intros product Hprod.
    eapply yields_bind; [apply yields_randint |]. intros quantity Hq.
    eapply yields_bind; [apply IH |]. intros [[items next_id] total] (Hp & Hi & Hn & Hl).
    apply yields_ret. simpl in *. rewrite ids_from_cons, Hp, Hi, Hn.
    repeat split; try reflexivity; try lia.
    constructor; [| exact Hl].
    unfold line_of. simpl. repeat split; try lia.
    exists product. split; [exact Hprod | reflexivity].
Qed.

Lemma yields_order_items_loop (d : date) (products_df : list product) (lo hi : Z)
  (rows : list order) :
  forall item_id orders_df,
    yields d (order_items_loop products_df lo hi rows item_id orders_df)
           (fun x => exists blocks,
                       fst x = concat blocks /\
                       Forall2 (block_of products_df lo hi) rows blocks /\
                       map oi_id (fst x) = ids_from item_id (length (fst x))).
Proof.
  induction rows as [| o rest IH]; intros item_id orders_df; simpl order_items_loop.
  - apply yields_ret. exists []. simpl. repeat split. constructor.
  - eapply yields_bind; [apply yields_randint |]. intros num_items Hnum.
    eapply yields_bind; [apply yields_sample |]. intros selected (Hk & Hlen & Hall & Hnd).
    eapply yields_bind; [apply yields_order_lines |].
    intros [[items next_id] total] (Hp & Hi & Hn & Hl). simpl in Hp, Hi, Hn, Hl.
    eapply yields_bind; [apply IH |].
    intros [more final_df] (blocks & Hcat & Hblocks & Hids). simpl in Hcat, Hids.
    apply yields_ret. exists (items :: blocks). simpl.
    assert (Hlen_items : length items = length selected).
    { rewrite <- Hp. rewrite length_map. reflexivity. }
    rewrite length_map in Hk, Hlen. cbv beta in Hnum.
    split; [rewrite Hcat; reflexivity |]. split.
    + constructor; [| exact Hblocks].
      unfold block_of. split; [exact Hl |]. split; [rewrite Hlen_items, Hlen; lia |].
      split.
      * apply Forall_forall. intros it Hit.
        apply (proj1 (Forall_forall _ _) Hall). rewrite <- Hp. apply in_map. exact Hit.
      * intros Hprod. rewrite Hp. apply Hnd. exact Hprod.
    + rewrite map_app, length_app, ids_from_app, Hi, Hids, Hn, Hlen_items. reflexivity.
Qed.

Lemma concat_Forall {A} (Q : A -> Prop) (blocks : list (list A)) :
  Forall (Forall Q) blocks -> Forall Q (concat blocks).
Proof.
  induction 1 as [| b bs Hb _ IH]; simpl; [constructor |].
  apply Forall_app. split; assumption.
Qed.

Lemma order_items_lines
  (orders_df : list order) (products_df : list product) (lo hi : Z)
  (e e' : entropy) (items : list order_item) (final_df : list order) :
  order_items_loop products_df lo hi orders_df 1 orders_df e = (Ok (items, final_df), e') ->
  Forall (fun it =>
            In (oi_order_id it) (map o_id orders_df) /\
            In (oi_product_id it) (map p_id products_df) /\
            line_of products_df (oi_order_id it) it)
         items /\
  Z.min lo (Z.of_nat (length products_df)) * Z.of_nat (length orders_df)
    <= Z.of_nat (length items)
    <= Z.min hi (Z.of_nat (length products_df)) * Z.of_nat (length orders_df).
Proof.
  intros H.
  destruct (yields_order_items_loop (today e) products_df lo hi orders_df 1 orders_df
              _ _ _ eq_refl H) as [_ (blocks & Hcat & Hblocks & _)].
  simpl in Hcat. subst items. clear H.
  induction Hblocks as [| o blk rows blocks Hb _ IH]; simpl.
  - split; [constructor | lia].
  - destruct IH as [IHl IHc]. destruct Hb as (Hl & Hcount & Hin & _). split.
    + apply Forall_app. split.
      * apply Forall_forall. intros it Hit.
        pose proof (proj1 (Forall_forall _ _) Hl it Hit) as Hline.
        pose proof (proj1 (Forall_forall _ _) Hin it Hit) as Hpid.
        assert (Hoid : oi_order_id it = o_id o) by apply Hline.
        split; [left; symmetry; exact Hoid |]. split; [exact Hpid |].
        rewrite Hoid. exact Hline.
      * eapply Forall_impl; [| exact IHl]. intros it (Ho & Hrest).
        split; [right; exact Ho | exact Hrest].
    + rewrite length_app, Nat2Z.inj_add.
      replace (Z.of_nat (S (length rows))) with (1 + Z.of_nat (length rows)) by lia.
      lia.
Qed.

(** X5: every order item [generate_order_items] produces belongs to an
    order of the frame it was given and to a product of the catalogue, has
    a quantity from 1 to 5 and the subtotal [round(price * quantity, 2)] of
    the first catalogue row of its product; the item ids are 1, 2, ... in
    the order of emission. *)
Theorem X5_order_items_are_lines_of_orders
  (orders_df : list order) (products_df : list product) (range : Z * Z)
  (e e' : entropy) (items : list order_item) (final_df : list order) :
  generate_order_items orders_df products_df range e = (Ok (items, final_df), e') ->
  map oi_id items = range1 (Z.of_nat (length items)) /\
  Forall (fun it =>
            In (oi_order_id it) (map o_id orders_df) /\
            In (oi_product_id it) (map p_id products_df) /\
            1 <= oi_quantity it <= 5 /\
            exists p, In p products_df /\ p_id p = oi_product_id it /\
                      oi_subtotal it
                      = py_round2 (fmul (p_price p) (float_of_Z (oi_quantity it))))
         items.
Proof.
  unfold generate_order_items. destruct range as [lo hi]. intros H.
  destruct (yields_order_items_loop (today e) products_df lo hi orders_df 1 orders_df
              _ _ _ eq_refl H) as [_ (blocks & _ & _ & Hids)].
  simpl in Hids. split; [rewrite Hids; apply ids_from_1 |].
  apply order_items_lines in H. destruct H as [Hlines _].
  eapply Forall_impl; [| exact Hlines].
  intros it (Ho & Hp & _ & Hq & p & Hhd & Hsub).
  apply hd_error_filter_In in Hhd. destruct Hhd as [Hin Heq]. apply Z.eqb_eq in Heq.
  split; [exact Ho |]. split; [exact Hp |]. split; [exact Hq |].
  exists p. repeat split; assumption.
Qed.

Lemma filter_own_block (rows : list order) (blocks : list (list order_item)) :
  Forall2 (fun o blk => Forall (fun it => oi_order_id it = o_id o) blk) rows blocks ->
  NoDup (map o_id rows) ->
  forall pre,
    Forall (fun it => ~ In (oi_order_id it) (map o_id rows)) pre ->
    Forall2 (fun o blk => filter (fun it => oi_order_id it =? o_id o) (pre ++ concat blocks) = blk)
            rows blocks.
Proof.
  induction 1 as [| o blk rows blocks Hblk Hrest IH]; intros Hnd pre Hpre; [constructor |].
  simpl in Hnd. inversion Hnd as [| ? ? Hfresh Hnd']; subst.
  assert (Hothers : Forall (fun it => In (oi_order_id it) (map o_id rows)) (concat blocks)).
  { apply concat_Forall. clear - Hrest.
    induction Hrest as [| o' b' rows blocks Hb _ IH']; constructor.
    - eapply Forall_impl; [| exact Hb]. intros it Hit. left. symmetry. exact Hit.
    - eapply Forall_impl; [| exact IH']. intros b Hb'.
      eapply Forall_impl; [| exact Hb']. intros it Hit. right. exact Hit. }
  constructor.
  - simpl concat. rewrite !filter_app.
    rewrite (filter_none _ pre), (filter_all _ blk), (filter_none _ (concat blocks)).
    + rewrite app_nil_r. reflexivity.
    + eapply Forall_impl; [| exact Hothers]. intros it Hit. simpl.
      apply Z.eqb_neq. intros Hsame. apply Hfresh. rewrite <- Hsame. exact Hit.
    + eapply Forall_impl; [| exact Hblk]. intros it Hit. simpl. apply Z.eqb_eq. exact Hit.
    + eapply Forall_impl; [| exact Hpre]. intros it Hit. simpl.
      apply Z.eqb_neq. intros Hsame. apply Hit. left. symmetry. exact Hsame.
  - simpl concat. rewrite app_assoc. apply IH; [exact Hnd' |].
    apply Forall_app. split.
    + eapply Forall_impl; [| exact Hpre]. intros it Hit Hin. apply Hit. right. exact Hin.
    + eapply Forall_impl; [| exact Hblk]. intros it Hit Hin. apply Hfresh.
      rewrite <- Hit. exact Hin.
Qed.

(** X6: when the order ids are distinct, each order of the frame gets a
    number of items between the bounds of the configured range, both
    capped at the size of the catalogue, and, when the product ids are
    distinct, no product twice. *)
Theorem X6_items_per_order
  (orders_df : list order) (products_df : list product) (lo hi : Z)
  (e e' : entropy) (items : list order_item) (final_df : list order) :
  NoDup (map o_id orders_df) ->
  generate_order_items orders_df products_df (lo, hi) e = (Ok (items, final_df), e') ->
  forall o, In o orders_df ->
    let own := filter (fun it => oi_order_id it =? o_id o) items in
    Z.min lo (Z.of_nat (length products_df)) <= Z.of_nat (length own)
      <= Z.min hi (Z.of_nat (length products_df)) /\
    (NoDup (map p_id products_df) -> NoDup (map oi_product_id own)).
Proof.
  intros Hnd H o Ho. cbv zeta. set (own := filter _ items).
  unfold generate_order_items in H.
  destruct (yields_order_items_loop (today e) products_df lo hi orders_df 1 orders_df
              _ _ _ eq_refl H) as [_ (blocks & Hcat & Hblocks & _)].
  simpl in Hcat.
  assert (Hown : Forall2 (fun o blk => filter (fun it => oi_order_id it =? o_id o) items = blk)
                         orders_df blocks).
  { rewrite Hcat. change (concat blocks) with ([] ++ concat blocks).
    apply filter_own_block; [| exact Hnd | constructor].
    eapply Forall2_impl; [| exact Hblocks]. intros o' blk (Hl & _).
    eapply Forall_impl; [| exact Hl]. intros it (Hoid & _). exact Hoid. }
  assert (Hboth : Forall2 (fun o blk => block_of products_df lo hi o
                                          (filter (fun it => oi_order_id it =? o_id o) items))
                          orders_df blocks).
  { clear - Hown Hblocks. induction Hblocks as [| o' blk rows bs Hb _ IH];
      inversion Hown; subst; constructor.
    - exact Hb.
    - apply IH. assumption. }
  assert (Hmine : block_of products_df lo hi o own).
  { clear - Hboth Ho. induction Hboth as [| o' blk rows bs Hb _ IH]; [destruct Ho |].
    destruct Ho as [-> | Ho]; [exact Hb | apply IH; exact Ho]. }
  destruct Hmine as (_ & Hcount & _ & Hdistinct). split; assumption.
Qed.

(** X7: with no order to visit [generate_order_items] returns no item and
    the frame as it is, without drawing; with an order to visit and an
    empty range of item counts it raises [ValueError] before drawing
    anything. *)
Theorem X7_generate_order_items_edges (products_df : list product) (lo hi : Z) (e : entropy) :
  generate_order_items [] products_df (lo, hi) e = (Ok ([], []), e) /\
  (hi < lo -> forall o rest,
     generate_order_items (o :: rest) products_df (lo, hi) e = (Raise ValueError, e)).
Proof.
  split; [reflexivity |].
  intros Hrange o rest. unfold generate_order_items. simpl order_items_loop.
  unfold bind, randint. destruct (Z.ltb_spec hi lo); [reflexivity | lia].
Qed.

(** ** [generate_reviews]: the reviews *)

Lemma yields_review_date_for (d : date) (orders_df : list order) (user_id : Z) :
  yields d (review_date_for orders_df user_id) (fun day => day <= d).
Proof.
  unfold review_date_for.
  destruct (user_orders_of orders_df user_id) as [| first others].
  - eapply yields_bind; [apply yields_years_ago |]. intros start _.
    eapply yields_bind; [apply yields_get_today |]. intros stop Hstop.
    cbv beta in Hstop. subst stop.
    eapply yields_weaken; [apply yields_date_between |]. intros day Hday. apply Hday.
  - eapply yields_bind; [apply yields_get_today |]. intros stop Hstop.
    cbv beta in Hstop. subst stop.
    eapply yields_weaken; [apply yields_date_between |]. intros day Hday. apply Hday.
Qed.

Lemma generate_reviews_yields (d : date) (users_df : list user) (products_df : list product)
  (orders_df : list order) (order_items_df : list order_item) (n : Z) :
  yields d (generate_reviews users_df products_df orders_df order_items_df n)
         (Forall2 (fun i r => r_id r = i /\ 1 <= r_rating r <= 5 /\ r_review_date r <= d)
                  (range1 n)).
Proof.
  unfold generate_reviews. apply yields_forM. intros i _.
  eapply yields_bind; [apply yields_choice |]. intros user_id _.
  eapply yields_bind; [apply yields_choice |]. intros product_id _.
  eapply yields_bind; [apply yields_review_date_for |]. intros day Hday.
  eapply yields_bind; [apply yields_randint |]. intros rating Hrating.
  eapply yields_bind; [apply yields_faker_text |]. intros text _.
  apply yields_ret. simpl. split; [reflexivity |]. split; assumption.
Qed.

(** X8: over a non-empty orders table dated up to today and a non-empty
    items table, [generate_reviews] does not raise; the reviews carry the
    ids 1, 2, ... in order, a rating from 1 to 5 and a date not after
    today. *)
Theorem X8_generate_reviews_shape (users_df : list user) (products_df : list product)
  (orders_df : list order) (order_items_df : list order_item) (n : Z) (e : entropy) :
  orders_df <> [] ->
  order_items_df <> [] ->
  Forall (fun o => o_order_date o <= today e) orders_df ->
  exists reviews e',
    generate_reviews users_df products_df orders_df order_items_df n e = (Ok reviews, e') /\
    length reviews = Z.to_nat n /\
    map r_id reviews = range1 n /\
    Forall (fun r => 1 <= r_rating r <= 5 /\ r_review_date r <= today e) reviews.
Proof.
  intros Hord Hitems Hdates.
  destruct (generate_reviews_returns (today e) users_df products_df orders_df order_items_df n
              Hord Hitems Hdates e eq_refl) as (reviews & e' & Hrun & _ & _).
  exists reviews, e'. split; [exact Hrun |].
  destruct (generate_reviews_yields (today e) users_df products_df orders_df order_items_df n
              _ _ _ eq_refl Hrun) as [_ Hrows].
  split; [| split].
  - rewrite <- (Forall2_length Hrows). apply range1_length.
  - apply Forall2_eq_map. eapply Forall2_impl; [| exact Hrows]. intros i r [Hid _]. exact Hid.
  - eapply Forall2_Forall_r; [exact Hrows |]. intros i r (_ & Hr & Hd). split; assumption.
Qed.

(** X9: asked for at least one review over an orders table that has no
    row, [generate_reviews] raises [IndexError] before drawing anything,
    whatever the users: the candidate reviewers are the users of the orders
    table only. *)
Theorem X9_generate_reviews_without_orders (users_df : list user) (products_df : list product)
  (order_items_df : list order_item) (n : Z) (e : entropy) :
  0 < n ->
  generate_reviews users_df products_df [] order_items_df n e = (Raise IndexError, e).
Proof.
  intros Hn. unfold generate_reviews.
  pose proof (range1_nonempty n Hn) as Hne.
  destruct (range1 n) as [| i rest]; [contradiction | reflexivity].
Qed.

(** ** [generate_data]: the dataset and the flat files *)

Lemma Forall2_map_eq_l {A B C} (f : A -> C) (g : B -> C) (l : list A) (l' : list B) :
  Forall2 (fun x y => g y = f x) l l' -> map g l' = map f l.
Proof. induction 1; simpl; [reflexivity | f_equal; assumption]. Qed.

(** X10: in the dataset [generate_data] returns the ids of the users,
    products, orders, reviews and order items are 1, 2, ... without gaps
    (100, 50, 200 and 150 rows, and between 200 and 1000 items), and every
    [user_id], [order_id] and [product_id] is the id of a row of the table
    it refers to. *)
Theorem X10_generated_dataset_is_consistent (w w' : world) (d : dataset) :
  generate_data w = (Ok d, w') ->
  map u_id (ds_users d) = range1 100 /\
  map p_id (ds_products d) = range1 50 /\
  map o_id (ds_orders d) = range1 200 /\
  map r_id (ds_reviews d) = range1 150 /\
  map oi_id (ds_order_items d) = range1 (Z.of_nat (length (ds_order_items d))) /\
  200 <= Z.of_nat (length (ds_order_items d)) <= 1000 /\
  referentially_consistent d.
Proof.
  intros H. apply generate_data_Ok in H.
  destruct H as (e0 & e1 & e2 & e3 & e4 & e5 & orders0 & Hu & Hp & Ho & Hi & Hr & _).
  destruct (generate_users_yields (today e0) 100 _ _ _ eq_refl Hu) as [Hday1 Hurows].
  destruct (generate_products_yields (today e0) 50 _ _ _ Hday1 Hp) as [Hday2 Hprows].
  destruct (generate_orders_yields (today e0) (ds_users d) 200 _ _ _ Hday2 Ho)
    as [Hday3 Horows].
  pose proof (generate_order_items_frame _ _ _ _ _ _ _ Hi) as Hframe.
  pose proof (generate_reviews_rows _ _ _ _ _ _ _ _ Hr) as Hrrows.
  assert (Huid : map u_id (ds_users d) = range1 100).
  { apply Forall2_eq_map. eapply Forall2_impl; [| exact Hurows]. intros i u [Hid _]. exact Hid. }
  assert (Hpid : map p_id (ds_products d) = range1 50).
  { apply Forall2_eq_map. eapply Forall2_impl; [| exact Hprows]. intros i p [Hid _]. exact Hid. }
  assert (Hoid0 : map o_id orders0 = range1 200).
  { apply Forall2_eq_map. eapply Forall2_impl; [| exact Horows]. intros i o [Hid _]. exact Hid. }
  assert (Hoid : map o_id (ds_orders d) = map o_id orders0).
  { apply Forall2_map_eq_l. eapply Forall2_impl; [| exact Hframe].
    intros x x' (Hid & _). exact Hid. }
  assert (Houid : map o_user_id (ds_orders d) = map o_user_id orders0).
  { apply Forall2_map_eq_l. eapply Forall2_impl; [| exact Hframe].
    intros x x' (_ & Hid & _). exact Hid. }
  assert (Husers0 : Forall (fun uid => In uid (map u_id (ds_users d))) (map o_user_id orders0)).
  { apply Forall_forall. intros uid Hin. apply in_map_iff in Hin.
    destruct Hin as (o & <- & Hin).
    destruct (Forall2_In_r _ _ _ _ Horows Hin) as (i & _ & _ & Hmem & _). exact Hmem. }
  unfold generate_order_items in Hi.
  pose proof Hi as Hids.
  destruct (yields_order_items_loop (today e0) (ds_products d) 1 5 orders0 1 orders0
              _ _ _ Hday3 Hids) as [_ (blocks & _ & _ & Hitem_ids)].
  simpl in Hitem_ids.
  apply order_items_lines in Hi. destruct Hi as [Hlines Hcount].
  assert (Hlen_p : length (ds_products d) = 50%nat).
  { rewrite <- (length_map p_id), Hpid. apply range1_length. }
  assert (Hlen_o : length orders0 = 200%nat).
  { rewrite <- (length_map o_id), Hoid0. apply range1_length. }
  rewrite Hlen_p, Hlen_o in Hcount.
  split; [exact Huid |]. split; [exact Hpid |].
  split; [rewrite Hoid; exact Hoid0 |].
  split.
  { apply Forall2_eq_map. eapply Forall2_impl; [| exact Hrrows]. intros i r [Hid _]. exact Hid. }
  split; [rewrite Hitem_ids; apply ids_from_1 |].
  split; [simpl in Hcount; lia |].
  unfold referentially_consistent. split; [| split].
  - apply Forall_forall. intros o Hin.
    apply (proj1 (Forall_forall _ _) Husers0). rewrite <- Houid. apply in_map. exact Hin.
  - eapply Forall_impl; [| exact Hlines]. intros it (Hord & Hprod & _).
    split; [rewrite Hoid; exact Hord | exact Hprod].
  - eapply Forall2_Forall_r; [exact Hrrows |]. intros i r (_ & Hru & Hrp & _).
    apply distinct_In in Hru. apply distinct_In in Hrp. split.
    + apply (proj1 (Forall_forall _ _) Husers0). rewrite <- Houid. exact Hru.
    + apply in_map_iff in Hrp. destruct Hrp as (it & <- & Hit).
      apply (proj1 (Forall_forall _ _) Hlines it Hit).
Qed.

(** X11: [generate_data] needs the directory [data/] and nothing else.  When
    it exists the call returns, the five flat files hold exactly the five
    tables returned and the store file is not touched; when it does not,
    the tables are generated all the same, the first write raises
    [OSError] and nothing is written. *)
Theorem X11_generate_data_and_the_data_directory (w : world) :
  (forall files, data_dir w = Some files ->
     exists d w', generate_data w = (Ok d, w') /\
                  data_dir w' = Some (written_files d) /\
                  db_file w' = db_file w) /\
  (data_dir w = None ->
     exists e', generate_data w = (Raise OSError, with_env e' w)).
Proof.
  destruct (generate_tables_returns (today (env w)) (env w) eq_refl) as (d & e & Hrun & _).
  split.
  - intros files Hdir. rewrite generate_data_unfold, Hrun, Hdir.
    eexists _, _. split; [reflexivity |]. split; reflexivity.
  - intros Hdir. rewrite generate_data_unfold, Hrun, Hdir.
    exists e. reflexivity.
Qed.

(** X12: what is loaded is what was generated.  When [generate_data] and
    then [load_to_sqlite] both complete, the five tables of the store hold
    the rows of the five tables [generate_data] returned, in the same
    order, the six indexes exist, and the flat files are still those that
    were written. *)
Theorem X12_load_after_generate (w w1 w2 : world) (d : dataset) :
  generate_data w = (Ok d, w1) ->
  load_to_sqlite w1 = (Ok tt, w2) ->
  db_file w2 = Some {| db_tables := written_files d; db_indexes := loader_indexes |} /\
  data_dir w2 = Some (written_files d).
Proof.
  intros Hgen Hload.
  assert (Hfiles : data_dir w1 = Some (written_files d)).
  { rewrite generate_data_unfold in Hgen.
    destruct (generate_tables (env w)) as [[d0 | x] e0]; [| discriminate Hgen].
    destruct (data_dir w); [| discriminate Hgen].
    inversion Hgen; subst. reflexivity. }
  pose proof Hload as Hframe. rewrite load_to_sqlite_unfold in Hframe.
  inversion Hframe as [[Hr Hw]]. clear Hframe.
  apply load_to_sqlite_Ok in Hload.
  destruct Hload as (u & p & o & i & r & Hdir & Hdb).
  rewrite Hfiles in Hdir. inversion Hdir; subst.
  split; [exact Hdb |]. simpl. exact Hfiles.
Qed.

(** ** The loader: what it accepts and what it leaves *)

Lemma checks_value_constraints (existing : list row) (r : row) :
  checks existing r = true -> value_constraints r.
Proof.
  destruct r as [u | p | o | i | v]; simpl; intros H.
  - exact I.
  - exact H.
  - exact H.
  - apply andb_true_iff in H. destruct H as [Hq Hs]. split; [lia | exact Hs].
  - apply andb_true_iff in H. lia.
Qed.

Lemma NoDup_snoc_intro {A} (l : list A) (a : A) :
  NoDup l -> ~ In a l -> NoDup (l ++ [a]).
Proof.
  induction 1 as [| x l Hx Hl IH]; intros Hnot; simpl.
  - constructor; [intros [] | constructor].
  - constructor.
    + intros Hin. apply in_app_or in Hin. destruct Hin as [Hin | [Heq | []]].
      * exact (Hx Hin).
      * apply Hnot. left. symmetry. exact Heq.
    + apply IH. intros Hin. apply Hnot. right. exact Hin.
Qed.

Lemma emails_app (l l' : list row) : emails (l ++ l') = emails l ++ emails l'.
Proof. unfold emails. apply flat_map_app. Qed.

Lemma checks_fresh_email (existing : list row) (r : row) :
  checks existing r = true -> NoDup (emails existing) -> NoDup (emails (existing ++ [r])).
Proof.
  intros Hc Hnd. rewrite emails_app.
  destruct r as [u | p | o | i | v]; simpl; rewrite ?app_nil_r; try exact Hnd.
  apply NoDup_snoc_intro; [exact Hnd |].
  simpl in Hc. apply negb_true_iff in Hc.
  intros Hin. unfold emails in Hin. apply in_flat_map in Hin.
  destruct Hin as (r' & Hr' & Hmail).
  assert (Hex : existsb (fun r' => match email_of r' with
                                   | Some a => String.eqb a (u_email u)
                                   | None => false
                                   end) existing = true).
  { apply existsb_exists. exists r'. split; [exact Hr' |].
    destruct (email_of r') as [a |]; [| destruct Hmail].
    destruct Hmail as [<- | []]. apply String.eqb_refl. }
  rewrite Hex in Hc. discriminate Hc.
Qed.

(** Rows that were inserted passed every constraint the schema declares. *)
Lemma insert_rows_checked (fk : bool) (t : table_name) (rows : list row) :
  forall (d d' : database) (existing : list row),
    get_table t (db_tables d) = Some existing ->
    insert_rows fk t d rows = Ok d' ->
    NoDup (map row_id existing) ->
    NoDup (emails existing) ->
    Forall (fun r => fits t r = true) rows /\
    Forall value_constraints rows /\
    NoDup (map row_id (existing ++ rows)) /\
    NoDup (emails (existing ++ rows)).
Proof.
  induction rows as [| r rows IH]; intros d d' existing Hget H Hids Hmails; simpl in H.
  - rewrite app_nil_r. repeat split; try constructor; assumption.
  - destruct (insert_row fk t d r) as [d1 | x] eqn:Hins; [| discriminate H].
    unfold insert_row in Hins. rewrite Hget in Hins.
    destruct (fits t r) eqn:Hfit; [| discriminate Hins]. simpl in Hins.
    destruct (existsb (fun r' => row_id r' =? row_id r) existing) eqn:Hdup;
      [discriminate Hins |].
    destruct (checks existing r) eqn:Hchk; [| discriminate Hins]. simpl in Hins.
    destruct (fk && negb (references_resolve d r)); [discriminate Hins |].
    apply Ok_inj in Hins. subst d1.
    assert (Hget1 : get_table t (db_tables (with_rows t (existing ++ [r]) d))
                    = Some (existing ++ [r])).
    { unfold with_rows. simpl. apply get_set_table. }
    assert (Hids1 : NoDup (map row_id (existing ++ [r]))).
    { rewrite map_app. simpl. apply NoDup_snoc_intro; [exact Hids |].
      intros Hin. apply in_map_iff in Hin. destruct Hin as (r' & Heq & Hr').
      assert (Hex : existsb (fun r' => row_id r' =? row_id r) existing = true).
      { apply existsb_exists. exists r'. split; [exact Hr' | apply Z.eqb_eq; exact Heq]. }
      rewrite Hex in Hdup. discriminate Hdup. }
    pose proof (checks_fresh_email _ _ Hchk Hmails) as Hmails1.
    destruct (IH _ _ _ Hget1 H Hids1 Hmails1) as (Hf & Hv & Hi & Hm).
    rewrite <- app_assoc in Hi, Hm. simpl in Hi, Hm.
    repeat split; try assumption.
    + constructor; assumption.
    + constructor; [eapply checks_value_constraints; exact Hchk | exact Hv].
Qed.

Lemma load_csv_to_table_spec (files : option flat_files) (t : table_name)
  (c c' : connection) (n : Z) (existing : list row) :
  txn c = None ->
  get_table t (db_tables (disk c)) = Some existing ->
  load_csv_to_table files t c = (Ok n, c') ->
  exists df d',
    read_csv files t = Some df /\
    insert_rows (foreign_keys c) t (with_rows t [] (disk c)) df = Ok d' /\
    n = Z.of_nat (length df) /\
    c' = {| disk := with_rows t df (disk c); txn := None; foreign_keys := foreign_keys c |}.
Proof.
  intros Htxn Hget H. unfold load_csv_to_table in H.
  destruct (read_csv files t) as [df |]; [| discriminate H].
  destruct c as [d tx fk]. simpl in Htxn, Hget. subst tx.
  unfold bind, delete_from, to_sql, select_count, begin_implicit, write_through,
    commit, rollback, current, ret in H.
  cbn in H. rewrite Hget in H. cbn in H.
  destruct (insert_rows fk t (with_rows t [] d) df) as [d' | x] eqn:Hins;
    [| discriminate H].
  exists df, d'. split; [reflexivity |]. split; [exact Hins |].
  apply (insert_rows_Ok _ _ _ _ _ []) in Hins; [| apply get_set_table].
  subst d'. cbn in H. unfold with_rows in H at 1. cbn in H.
  rewrite get_set_table in H. inversion H; subst.
  split; [reflexivity |].
  unfold with_rows. cbn. rewrite set_set_table. reflexivity.
Qed.



(** What the steps of a load that completes went through, table by table. *)
Lemma load_steps_inserted (files : option flat_files) (c1 : connection) :
  load_steps files (sqlite3_connect None) = (Ok tt, c1) ->
  forall t, exists df d d',
    read_csv files t = Some df /\
    get_table t (db_tables d) = Some [] /\
    insert_rows false t d df = Ok d'.
Proof.
  intros Hs t. unfold load_steps in Hs. run_inv Hs.
  match goal with Hc : create_schema _ = _ |- _ => cbv in Hc; inversion Hc; subst; clear Hc end.
  repeat match goal with
         | Hl : load_csv_to_table _ ?t0 _ = (Ok _, _) |- _ =>
             let df := fresh "df" in
             let d' := fresh "d'" in
             let Hread := fresh "Hread" in
             let Hins := fresh "Hins" in
             apply (load_csv_to_table_spec _ _ _ _ _ []) in Hl;
             [destruct Hl as (df & d' & Hread & Hins & _ & ?); subst;
              cbn [disk foreign_keys] in *
             | reflexivity | reflexivity]
         end.
  destruct t; eexists _, _, _;
    (split; [eassumption |]); (split; [| eassumption]); apply get_set_table.
Qed.

(** A load that completes has validated every flat file. *)
Lemma completed_load_valid (w w' : world) :
  load_to_sqlite w = (Ok tt, w') ->
  forall t, exists rows,
    read_csv (data_dir w) t = Some rows /\ valid_file t rows.
Proof.
  rewrite load_to_sqlite_unfold. intros H t. inversion H as [[Hr Hw]]. clear H Hw.
  unfold try_load in Hr.
  destruct (load_steps (data_dir w) (sqlite3_connect None)) as [[[] | x] c1] eqn:Hs;
    [| discriminate Hr].
  destruct (load_steps_inserted _ _ Hs t) as (df & d & d' & Hread & Hget & Hins).
  exists df. split; [exact Hread |].
  destruct (insert_rows_checked _ _ _ _ _ _ Hget Hins (NoDup_nil _) (NoDup_nil _))
    as (Hf & Hv & Hi & Hm).
  simpl in Hi, Hm. unfold valid_file. repeat split; assumption.
Qed.

Lemma bind_run {St A B} (m : M St A) (f : A -> M St B) (s s1 : St) (a : A) :
  m s = (Ok a, s1) -> bind m f s = f a s1.
Proof. intros H. unfold bind. rewrite H. reflexivity. Qed.

Lemma value_constraints_checks (existing : list row) (r : row) :
  value_constraints r ->
  (forall a, email_of r = Some a -> ~ In a (emails existing)) ->
  checks existing r = true.
Proof.
  destruct r as [u | p | o | i | v]; simpl; intros Hv Hmail.
  - apply negb_true_iff. apply not_true_is_false. intros Hex.
    apply existsb_exists in Hex. destruct Hex as (r' & Hr' & Heq).
    apply (Hmail (u_email u) eq_refl).
    unfold emails. apply in_flat_map. exists r'. split; [exact Hr' |].
    destruct (email_of r') as [a |]; [| discriminate Heq].
    apply String.eqb_eq in Heq. subst a. left. reflexivity.
  - exact Hv.
  - exact Hv.
  - destruct Hv as [Hq Hs]. apply andb_true_iff. split; [apply Z.ltb_lt; exact Hq | exact Hs].
  - apply andb_true_iff. split; apply Z.leb_le; lia.
Qed.

Lemma insert_rows_complete (t : table_name) (rows : list row) :
  forall (d : database) (existing : list row),
    get_table t (db_tables d) = Some existing ->
    Forall (fun r => fits t r = true) rows ->
    Forall value_constraints rows ->
    NoDup (map row_id (existing ++ rows)) ->
    NoDup (emails (existing ++ rows)) ->
    insert_rows false t d rows = Ok (with_rows t (existing ++ rows) d).
Proof.
  induction rows as [| r rows IH]; intros d existing Hget Hfit Hval Hids Hmails; simpl.
  - rewrite app_nil_r. unfold with_rows. rewrite <- Hget, set_get_table.
    destruct d; reflexivity.
  - inversion Hfit as [| ? ? Hf Hfit']; subst. inversion Hval as [| ? ? Hv Hval']; subst.
    unfold insert_row. rewrite Hget, Hf. simpl.
    rewrite map_app in Hids. simpl in Hids.
    pose proof (NoDup_remove_2 _ _ _ Hids) as Hfresh.
    assert (Hdup : existsb (fun r' => row_id r' =? row_id r) existing = false).
    { apply not_true_is_false. intros Hex. apply existsb_exists in Hex.
      destruct Hex as (r' & Hr' & Heq). apply Z.eqb_eq in Heq.
      apply Hfresh. apply in_or_app. left. rewrite <- Heq. apply in_map. exact Hr'. }
    rewrite Hdup.
    assert (Hchk : checks existing r = true).
    { apply value_constraints_checks; [exact Hv |].
      intros a Ha Hin. rewrite emails_app in Hmails.
      assert (Hsplit : emails (r :: rows) = a :: emails rows).
      { unfold emails. simpl. rewrite Ha. reflexivity. }
      rewrite Hsplit in Hmails. apply NoDup_remove_2 in Hmails.
      apply Hmails. apply in_or_app. left. exact Hin. }
    rewrite Hchk. simpl.
    replace (existing ++ r :: rows) with ((existing ++ [r]) ++ rows) in *
      by (rewrite <- app_assoc; reflexivity).
    rewrite (IH _ (existing ++ [r])).
    + unfold with_rows. simpl. rewrite set_set_table. reflexivity.
    + unfold with_rows. simpl. apply get_set_table.
    + exact Hfit'.
    + exact Hval'.
    + rewrite map_app. rewrite map_app. simpl. rewrite <- app_assoc. exact Hids.
    + exact Hmails.
Qed.

Lemma load_csv_to_table_complete (files : option flat_files) (t : table_name)
  (c : connection) (existing df : list row) :
  txn c = None ->
  foreign_keys c = false ->
  get_table t (db_tables (disk c)) = Some existing ->
  read_csv files t = Some df ->
  valid_file t df ->
  load_csv_to_table files t c
  = (Ok (Z.of_nat (length df)),
     {| disk := with_rows t df (disk c); txn := None; foreign_keys := false |}).
Proof.
  intros Htxn Hfk Hget Hread (Hfit & Hval & Hids & Hmails).
  unfold load_csv_to_table. rewrite Hread.
  destruct c as [d tx fk]. simpl in Htxn, Hfk, Hget. subst tx fk.
  unfold bind, delete_from, to_sql, select_count, begin_implicit, write_through,
    commit, rollback, current, ret.
  cbn. rewrite Hget. cbn.
  rewrite (insert_rows_complete t df (with_rows t [] d) []);
    [| apply get_set_table | exact Hfit | exact Hval | exact Hids | exact Hmails].
  cbn. unfold with_rows at 1. cbn. rewrite get_set_table.
  unfold with_rows. cbn. rewrite !set_set_table. reflexivity.
Qed.

(** Five valid flat files load, and the store holds their rows. *)
Lemma valid_files_load (w : world) (u p o i r : list row) :
  data_dir w = Some {| of_users := Some u; of_products := Some p; of_orders := Some o;
                       of_order_items := Some i; of_reviews := Some r |} ->
  valid_file Users u ->
  valid_file Products p ->
  valid_file Orders o ->
  valid_file OrderItems i ->
  valid_file Reviews r ->
  load_to_sqlite w
  = (Ok tt,
     {| env := env w;
        data_dir := data_dir w;
        db_file := Some {| db_tables := {| of_users := Some u; of_products := Some p;
                                           of_orders := Some o; of_order_items := Some i;
                                           of_reviews := Some r |};
                           db_indexes := loader_indexes |} |}).
Proof.
  intros Hdir Hu Hp Ho Hi Hr.
  rewrite load_to_sqlite_unfold, Hdir.
  set (files := Some {| of_users := Some u; of_products := Some p; of_orders := Some o;
                        of_order_items := Some i; of_reviews := Some r |}).
  assert (Hsteps : load_steps files (sqlite3_connect None)
                   = (Ok tt, {| disk := {| db_tables := {| of_users := Some u;
                                                           of_products := Some p;
                                                           of_orders := Some o;
                                                           of_order_items := Some i;
                                                           of_reviews := Some r |};
                                           db_indexes := loader_indexes |};
                                txn := None; foreign_keys := false |})).
  { unfold load_steps.
    erewrite bind_run by (cbv; reflexivity).
    erewrite bind_run
      by (apply (load_csv_to_table_complete files Users _ [] u);
          [reflexivity | reflexivity | reflexivity | reflexivity | exact Hu]).
    erewrite bind_run
      by (apply (load_csv_to_table_complete files Products _ [] p);
          [reflexivity | reflexivity | reflexivity | reflexivity | exact Hp]).
    erewrite bind_run
      by (apply (load_csv_to_table_complete files Orders _ [] o);
          [reflexivity | reflexivity | reflexivity | reflexivity | exact Ho]).
    erewrite bind_run
      by (apply (load_csv_to_table_complete files OrderItems _ [] i);
          [reflexivity | reflexivity | reflexivity | reflexivity | exact Hi]).
    erewrite bind_run
      by (apply (load_csv_to_table_complete files Reviews _ [] r);
          [reflexivity | reflexivity | reflexivity | reflexivity | exact Hr]).
    erewrite bind_run by (cbv; reflexivity).
    reflexivity. }
  unfold try_load. rewrite Hsteps. reflexivity.
Qed.



(** X16: when [data/users.csv] is missing, [load_to_sqlite] raises
    [FileNotFoundError] for that path, whatever the other files are, and
    whatever store existed is replaced by a new one with the five empty
    tables and no index. *)
Theorem X16_load_without_users_file (w : world) :
  read_csv (data_dir w) Users = None ->
  load_to_sqlite w
  = (Raise (FileNotFoundError "data/users.csv"),
     {| env := env w; data_dir := data_dir w; db_file := Some schema_only |}).
Proof.
  intros Hnone. rewrite load_to_sqlite_unfold.
  assert (Hsteps : load_steps (data_dir w) (sqlite3_connect None)
                   = (Raise (FileNotFoundError "data/users.csv"),
                      {| disk := schema_only; txn := None; foreign_keys := false |})).
  { unfold load_steps. erewrite bind_run by (cbv; reflexivity).
    unfold bind, load_csv_to_table. rewrite Hnone. reflexivity. }
  unfold try_load. rewrite Hsteps. reflexivity.
Qed.

(** X17: a failure after the first table leaves a half-loaded store.  When
    the users file is valid and [data/products.csv] is missing,
    [load_to_sqlite] raises [FileNotFoundError] for that path and the store
    it leaves holds the users, committed, beside four empty tables and no
    index: the rollback of the [except] clause finds nothing to undo. *)
Theorem X17_load_stops_after_users (w : world) (u : list row) :
  read_csv (data_dir w) Users = Some u ->
  valid_file Users u ->
  read_csv (data_dir w) Products = None ->
  load_to_sqlite w
  = (Raise (FileNotFoundError "data/products.csv"),
     {| env := env w; data_dir := data_dir w;
        db_file := Some (with_rows Users u schema_only) |}).
Proof.
  intros Hu Hvalid Hnone. rewrite load_to_sqlite_unfold.
  assert (Hsteps : load_steps (data_dir w) (sqlite3_connect None)
                   = (Raise (FileNotFoundError "data/products.csv"),
                      {| disk := with_rows Users u schema_only;
                         txn := None; foreign_keys := false |})).
  { unfold load_steps. erewrite bind_run by (cbv; reflexivity).
    erewrite bind_run
      by (apply (load_csv_to_table_complete (data_dir w) Users _ [] u);
          [reflexivity | reflexivity | reflexivity | exact Hu | exact Hvalid]).
    unfold bind, load_csv_to_table. rewrite Hnone. reflexivity. }
  unfold try_load. rewrite Hsteps. reflexivity.
Qed.

(** X18: [create_schema] never raises and never empties a table: whatever
    the connection sees before, it sees afterwards the five tables, each
    with the rows it had (none for a table that did not exist), and the
    same indexes. *)
Theorem X18_create_schema_keeps_rows (c : connection) :
  exists c',
    create_schema c = (Ok tt, c') /\
    db_indexes (current c') = db_indexes (current c) /\
    foreign_keys c' = foreign_keys c /\
    forall t, get_table t (db_tables (current c')) = Some (rows_of (current c) t).
Proof.
  destruct c as [[[tu tp to ti tr] ix] [[[xu xp xo xi xr] jx] |] fk];
    [ destruct xu, xp, xo, xi, xr | destruct tu, tp, to, ti, tr ];
    (eexists; split; [cbv; reflexivity |];
     split; [reflexivity |]; split; [reflexivity |]; intros t; destruct t; reflexivity).
Qed.

(** ** [create_indexes] *)

Lemma bind_raise {St A B} (m : M St A) (f : A -> M St B) (s s1 : St) (x : exn) :
  m s = (Raise x, s1) -> bind m f s = (Raise x, s1).
Proof. intros H. unfold bind. rewrite H. reflexivity. Qed.

Lemma current_write_through (d : database) (c : connection) :
  current (write_through d c) = d.
Proof. unfold write_through, current. destruct (txn c); reflexivity. Qed.

Lemma existsb_eqb_In (name : string) (l : list string) :
  existsb (String.eqb name) l = true <-> In name l.
Proof.
  rewrite existsb_exists. split.
  - intros (x & Hin & Heq). apply String.eqb_eq in Heq. subst x. exact Hin.
  - intros Hin. exists name. split; [exact Hin | apply String.eqb_refl].
Qed.

Lemma create_index_spec (name : string) (t : table_name) (c : connection) (rows : list row) :
  get_table t (db_tables (current c)) = Some rows ->
  exists c',
    create_index_if_not_exists name t c = (Ok tt, c') /\
    db_tables (current c') = db_tables (current c) /\
    (forall x, In x (db_indexes (current c')) <-> In x (db_indexes (current c)) \/ x = name) /\
    (In name (db_indexes (current c)) -> c' = c).
Proof.
  intros Ht. unfold create_index_if_not_exists. rewrite Ht.
  destruct (existsb (String.eqb name) (db_indexes (current c))) eqn:Hex.
  - apply existsb_eqb_In in Hex.
    exists c. split; [reflexivity |]. split; [reflexivity |]. split; [| reflexivity].
    intros x. split; [left; assumption |]. intros [Hin | ->]; assumption.
  - eexists. split; [reflexivity |]. rewrite current_write_through. simpl.
    split; [reflexivity |]. split.
    + intros x. rewrite in_app_iff. simpl. intuition.
    + intros Hin. apply existsb_eqb_In in Hin. rewrite Hin in Hex. discriminate Hex.
Qed.

(** X27: [create_indexes] on a store that has the tables [orders],
    [order_items] and [reviews] never raises: it leaves every table as it
    is and adds the six indexes to those already there, and running it
    again changes nothing.  Without the table [orders] it raises
    [OperationalError] and changes nothing. *)
Theorem X27_create_indexes_adds_once (c : connection) :
  ((exists o, get_table Orders (db_tables (current c)) = Some o) ->
   (exists i, get_table OrderItems (db_tables (current c)) = Some i) ->
   (exists r, get_table Reviews (db_tables (current c)) = Some r) ->
   exists c',
     create_indexes c = (Ok tt, c') /\
     db_tables (current c') = db_tables (current c) /\
     (forall x, In x (db_indexes (current c')) <->
                In x (db_indexes (current c)) \/ In x loader_indexes) /\
     create_indexes c' = (Ok tt, c')) /\
  (get_table Orders (db_tables (current c)) = None ->
   create_indexes c = (Raise OperationalError, c)).
Proof.
  split.
  - intros [o Ho] [i Hi] [r Hr].
    destruct (create_index_spec "idx_orders_user_id" Orders c o Ho)
      as (c1 & E1 & T1 & I1 & _).
    rewrite <- T1 in Ho, Hi, Hr.
    destruct (create_index_spec "idx_orders_order_date" Orders c1 o Ho)
      as (c2 & E2 & T2 & I2 & _).
    rewrite <- T2 in Ho, Hi, Hr.
    destruct (create_index_spec "idx_order_items_order_id" OrderItems c2 i Hi)
      as (c3 & E3 & T3 & I3 & _).
    rewrite <- T3 in Ho, Hi, Hr.
    destruct (create_index_spec "idx_order_items_product_id" OrderItems c3 i Hi)
      as (c4 & E4 & T4 & I4 & _).
    rewrite <- T4 in Ho, Hi, Hr.
    destruct (create_index_spec "idx_reviews_user_id" Reviews c4 r Hr)
      as (c5 & E5 & T5 & I5 & _).
    rewrite <- T5 in Ho, Hi, Hr.
    destruct (create_index_spec "idx_reviews_product_id" Reviews c5 r Hr)
      as (c6 & E6 & T6 & I6 & _).
    rewrite <- T6 in Ho, Hi, Hr.
    assert (Hall : forall x, In x (db_indexes (current c6)) <->
                             In x (db_indexes (current c)) \/ In x loader_indexes).
    { intros x. rewrite I6, I5, I4, I3, I2, I1. unfold loader_indexes. simpl.
      intuition. }
    exists c6. split; [| split; [| split]].
    + unfold create_indexes.
      rewrite (bind_run _ _ _ _ _ E1), (bind_run _ _ _ _ _ E2), (bind_run _ _ _ _ _ E3),
        (bind_run _ _ _ _ _ E4), (bind_run _ _ _ _ _ E5). exact E6.
    + rewrite T6, T5, T4, T3, T2, T1. reflexivity.
    + exact Hall.
    + assert (Hkeep : forall name t rows,
                 get_table t (db_tables (current c6)) = Some rows ->
                 In name loader_indexes ->
                 create_index_if_not_exists name t c6 = (Ok tt, c6)).
      { intros name t rows Ht Hin.
        destruct (create_index_spec name t c6 rows Ht) as (c' & E & _ & _ & Hsame).
        rewrite E. f_equal. apply Hsame. apply Hall. right. exact Hin. }
      unfold create_indexes.
      rewrite (bind_run _ _ _ _ _
                 (Hkeep "idx_orders_user_id"%string _ _ Ho ltac:(simpl; tauto))).
      rewrite (bind_run _ _ _ _ _
                 (Hkeep "idx_orders_order_date"%string _ _ Ho ltac:(simpl; tauto))).
      rewrite (bind_run _ _ _ _ _
                 (Hkeep "idx_order_items_order_id"%string _ _ Hi ltac:(simpl; tauto))).
      rewrite (bind_run _ _ _ _ _
                 (Hkeep "idx_order_items_product_id"%string _ _ Hi ltac:(simpl; tauto))).
      rewrite (bind_run _ _ _ _ _
                 (Hkeep "idx_reviews_user_id"%string _ _ Hr ltac:(simpl; tauto))).
      exact (Hkeep "idx_reviews_product_id"%string _ _ Hr ltac:(simpl; tauto)).
  - intros Hnone. unfold create_indexes. apply bind_raise.
    unfold create_index_if_not_exists. rewrite Hnone. reflexivity.
Qed.

(** ** The queries *)

Context {AV : @Averaging float}.

Lemma insert_desc_by_Permutation {A} (key : A -> float) (r : A) (l : list A) :
  Permutation (r :: l) (insert_desc_by key r l).
Proof.
  induction l as [| h t IH]; simpl; [apply Permutation_refl |].
  destruct (fleb (key h) (key r)); [apply Permutation_refl |].
  eapply Permutation_trans; [apply perm_swap |]. apply perm_skip. exact IH.
Qed.

Lemma order_desc_by_Permutation {A} (key : A -> float) (l : list A) :
  Permutation l (order_desc_by key l).
Proof.
  unfold order_desc_by. induction l as [| r l IH]; simpl; [apply Permutation_refl |].
  eapply Permutation_trans; [apply perm_skip; exact IH |].
  apply insert_desc_by_Permutation.
Qed.

Lemma insert_desc_by_sorted {A} (key : A -> float) (r : A) (l : list A) :
  Sorted (fun a b => fleb (key b) (key a) = true) l ->
  Sorted (fun a b => fleb (key b) (key a) = true) (insert_desc_by key r l).
Proof.
  induction 1 as [| h t Ht IH Hhd]; simpl.
  - repeat constructor.
  - destruct (fleb (key h) (key r)) eqn:Hcmp.
    + constructor; [constructor; assumption | constructor; exact Hcmp].
    + constructor; [exact IH |].
      assert (Hrh : fleb (key r) (key h) = true).
      { destruct (fleb_total (key r) (key h)) as [Hle | Hle];
          [exact Hle | rewrite Hcmp in Hle; discriminate Hle]. }
      destruct t as [| h' t']; simpl.
      * constructor. exact Hrh.
      * destruct (fleb (key h') (key r)); constructor;
          [exact Hrh | inversion Hhd; assumption].
Qed.

Lemma order_desc_by_sorted {A} (key : A -> float) (l : list A) :
  Sorted (fun a b => fleb (key b) (key a) = true) (order_desc_by key l).
Proof.
  unfold order_desc_by. induction l as [| r l IH]; simpl.
  - constructor.
  - apply insert_desc_by_sorted. exact IH.
Qed.

Lemma insert_desc_as_by (r : sales_row) (l : list sales_row) :
  insert_desc r l = insert_desc_by total_revenue r l.
Proof. induction l as [| h t IH]; simpl; [reflexivity | rewrite IH; reflexivity]. Qed.

Lemma order_by_revenue_desc_as_by (l : list sales_row) :
  order_by_revenue_desc l = order_desc_by total_revenue l.
Proof.
  unfold order_by_revenue_desc, order_desc_by.
  induction l as [| r l IH]; simpl; [reflexivity |].
  rewrite IH. apply insert_desc_as_by.
Qed.

Lemma firstn_In {A} (n : nat) (l : list A) (x : A) : In x (firstn n l) -> In x l.
Proof.
  revert l. induction n as [| n IH]; intros l Hin; simpl in Hin; [destruct Hin |].
  destruct l as [| h t]; [destruct Hin |].
  destruct Hin as [<- | Hin]; [left; reflexivity | right; apply IH; exact Hin].
Qed.

Lemma sql_limit_In {A} (n : Z) (l : list A) (x : A) : In x (sql_limit n l) -> In x l.
Proof.
  unfold sql_limit. destruct (n <? 0); [trivial | apply firstn_In].
Qed.

Lemma group_keys_In (ks : list group_key) (k : group_key) :
  In k (group_keys ks) -> In k ks.
Proof.
  induction ks as [| k0 rest IH]; simpl; [trivial |].
  intros [<- | Hin]; [left; reflexivity |].
  apply filter_In in Hin. right. apply IH. apply Hin.
Qed.

Lemma key_eqb_refl (k : group_key) : key_eqb k k = true.
Proof.
  destruct k as [[i n] c]. unfold key_eqb.
  rewrite Z.eqb_refl, !String.eqb_refl. reflexivity.
Qed.

Lemma products_of_In (rows : list row) (p : product) :
  In p (products_of rows) -> In (ProductRow p) rows.
Proof.
  unfold products_of. intros H. apply in_flat_map in H. destruct H as (r & Hr & Hp).
  destruct r; simpl in Hp; try destruct Hp as [<- | []]; try contradiction. exact Hr.
Qed.

Lemma order_items_of_In (rows : list row) (i : order_item) :
  In i (order_items_of rows) -> In (OrderItemRow i) rows.
Proof.
  unfold order_items_of. intros H. apply in_flat_map in H. destruct H as (r & Hr & Hp).
  destruct r; simpl in Hp; try destruct Hp as [<- | []]; try contradiction. exact Hr.
Qed.

Lemma users_of_In (rows : list row) (u : user) : In u (users_of rows) -> In (UserRow u) rows.
Proof.
  unfold users_of. intros H. apply in_flat_map in H. destruct H as (r & Hr & Hp).
  destruct r; simpl in Hp; try destruct Hp as [<- | []]; try contradiction. exact Hr.
Qed.

Lemma orders_of_In (rows : list row) (o : order) : In o (orders_of rows) -> In (OrderRow o) rows.
Proof.
  unfold orders_of. intros H. apply in_flat_map in H. destruct H as (r & Hr & Hp).
  destruct r; simpl in Hp; try destruct Hp as [<- | []]; try contradiction. exact Hr.
Qed.

Lemma reviews_of_intro (rows : list row) (v : review) :
  In (ReviewRow v) rows -> In v (reviews_of rows).
Proof.
  unfold reviews_of. intros H. apply in_flat_map. exists (ReviewRow v).
  split; [exact H | left; reflexivity].
Qed.

Lemma products_of_intro (rows : list row) (p : product) :
  In (ProductRow p) rows -> In p (products_of rows).
Proof.
  unfold products_of. intros H. apply in_flat_map. exists (ProductRow p).
  split; [exact H | left; reflexivity].
Qed.

Lemma product_sales_query_groups (d : database) (rows : list sales_row) :
  product_sales_query d = Ok rows ->
  rows = firstn 10 (order_desc_by total_revenue (sales_groups d)).
Proof.
  unfold product_sales_query, sales_groups, rows_of.
  destruct (get_table Products (db_tables d)) as [ps |]; [| discriminate].
  destruct (get_table OrderItems (db_tables d)) as [ois |]; [| discriminate].
  intros H. apply Ok_inj in H. subst rows.
  rewrite order_by_revenue_desc_as_by. reflexivity.
Qed.

Lemma sales_groups_sold (d : database) (g : sales_row) :
  In g (sales_groups d) ->
  1 <= times_ordered g /\
  exists p oi,
    In (ProductRow p) (rows_of d Products) /\
    In (OrderItemRow oi) (rows_of d OrderItems) /\
    oi_product_id oi = p_id p /\
    product_name g = p_name p /\
    category g = p_category p.
Proof.
  unfold sales_groups. intros Hin. apply in_map_iff in Hin.
  destruct Hin as (k & <- & Hk). apply group_keys_In in Hk.
  apply in_map_iff in Hk. destruct Hk as ([p oi] & Hkey & Hj).
  pose proof Hj as Hjoined.
  unfold join_products_items in Hj. apply in_flat_map in Hj.
  destruct Hj as (p0 & Hp0 & Hpair). apply in_map_iff in Hpair.
  destruct Hpair as (oi0 & Heq & Hoi). inversion Heq; subst p0 oi0.
  apply filter_In in Hoi. destruct Hoi as [Hoi Hid]. apply Z.eqb_eq in Hid.
  subst k. unfold aggregate, key_of. simpl. split.
  - set (grp := filter _ _).
    assert (Hmem : In (p, oi) grp).
    { apply filter_In. split; [exact Hjoined |].
      exact (key_eqb_refl (p_id p, p_name p, p_category p)). }
    destruct grp as [| x xs]; [destruct Hmem | simpl length; lia].
  - exists p, oi. repeat split.
    + apply products_of_In. exact Hp0.
    + apply order_items_of_In. exact Hoi.
    + symmetry. exact Hid.
Qed.

(** X19: every row of the product-revenue query stands for a product that
    was sold: its [times_ordered] is at least 1, and its name and category
    are those of a product row of the store to which an order item of the
    store refers. *)
Theorem X19_sales_rows_are_sold_products (w w' : world) (rows : list sales_row) :
  get_product_sales_summary w = (Ok rows, w') ->
  exists d,
    db_file w = Some d /\
    forall g, In g rows ->
      1 <= times_ordered g /\
      exists p oi,
        In (ProductRow p) (rows_of d Products) /\
        In (OrderItemRow oi) (rows_of d OrderItems) /\
        oi_product_id oi = p_id p /\
        product_name g = p_name p /\
        category g = p_category p.
Proof.
  unfold get_product_sales_summary. intros H. inversion H as [[Hq Hw]]. clear H Hw.
  destruct (db_file w) as [d |]; [| discriminate Hq].
  exists d. split; [reflexivity |]. intros g Hg.
  simpl in Hq. apply product_sales_query_groups in Hq. subst rows.
  apply firstn_In in Hg.
  apply (Permutation_in _ (Permutation_sym (order_desc_by_Permutation _ _))) in Hg.
  apply sales_groups_sold. exact Hg.
Qed.

Lemma StronglySorted_app_cross {A} (R : A -> A -> Prop) (l1 l2 : list A) :
  StronglySorted R (l1 ++ l2) -> forall a b, In a l1 -> In b l2 -> R a b.
Proof.
  induction l1 as [| x l1 IH]; intros Hs a b Ha Hb; [destruct Ha |].
  simpl in Hs. inversion Hs as [| ? ? Hrest Hall]; subst.
  destruct Ha as [<- | Ha].
  - apply (proj1 (Forall_forall _ _) Hall). apply in_or_app. right. exact Hb.
  - exact (IH Hrest a b Ha Hb).
Qed.

(** X20: the rows of the product-revenue query are the best sellers.
    With a transitive comparison of doubles, every product group of the
    store is either among the rows returned or has a revenue not above that
    of any row returned; in particular no group is dropped when there are
    at most ten. *)
Theorem X20_sales_rows_are_the_top (w w' : world) (d : database) (rows : list sales_row) :
  fleb_transitive ->
  db_file w = Some d ->
  get_product_sales_summary w = (Ok rows, w') ->
  forall g, In g (sales_groups d) ->
    In g rows \/
    forall r, In r rows -> fleb (total_revenue g) (total_revenue r) = true.
Proof.
  intros Htrans Hdb H g Hg.
  unfold get_product_sales_summary in H. rewrite Hdb in H.
  inversion H as [[Hq Hw]]. clear H Hw. simpl in Hq.
  apply product_sales_query_groups in Hq. subst rows.
  set (sorted := order_desc_by total_revenue (sales_groups d)).
  assert (Hin : In g sorted).
  { eapply Permutation_in; [apply order_desc_by_Permutation | exact Hg]. }
  rewrite <- (firstn_skipn 10 sorted) in Hin. apply in_app_or in Hin.
  destruct Hin as [Hfirst | Hlast]; [left; exact Hfirst | right].
  intros r Hr.
  assert (Hs : StronglySorted (fun a b => fleb (total_revenue b) (total_revenue a) = true)
                              (firstn 10 sorted ++ skipn 10 sorted)).
  { rewrite firstn_skipn. apply Sorted_StronglySorted.
    - intros x y z Hxy Hyz. exact (Htrans _ _ _ Hyz Hxy).
    - apply order_desc_by_sorted. }
  exact (StronglySorted_app_cross _ _ _ Hs r g Hr Hlast).
Qed.

Lemma top_users_query_groups (limit : Z) (d : database) (rows : list spender_row) :
  top_users_query limit d = Ok rows ->
  rows = sql_limit limit (order_desc_by total_spent (spender_groups d)).
Proof.
  unfold top_users_query.
  destruct (get_table Users (db_tables d)); [| discriminate].
  destruct (get_table Orders (db_tables d)); [| discriminate].
  intros H. apply Ok_inj in H. symmetry. exact H.
Qed.

Lemma category_rating_query_groups (d : database) (rows : list rating_row) :
  category_rating_query d = Ok rows ->
  rows = order_desc_by average_rating (rating_groups d).
Proof.
  unfold category_rating_query.
  destruct (get_table Products (db_tables d)); [| discriminate].
  destruct (get_table Reviews (db_tables d)); [| discriminate].
  intros H. apply Ok_inj in H. symmetry. exact H.
Qed.

Lemma nodup_nonempty (l : list Z) : l <> [] -> nodup Z.eq_dec l <> [].
Proof. apply distinct_nonempty. Qed.

Lemma spender_groups_have_orders (d : database) (g : spender_row) :
  In g (spender_groups d) ->
  1 <= total_orders g /\
  exists u o,
    In (UserRow u) (rows_of d Users) /\
    In (OrderRow o) (rows_of d Orders) /\
    o_user_id o = u_id u /\
    user_name g = u_name u /\
    email g = u_email u.
Proof.
  unfold spender_groups. intros Hin. apply in_map_iff in Hin.
  destruct Hin as (k & <- & Hk). apply group_keys_In in Hk.
  apply in_map_iff in Hk. destruct Hk as ([u o] & Hkey & Hj).
  pose proof Hj as Hjoined.
  unfold join_users_orders in Hj. apply in_flat_map in Hj.
  destruct Hj as (u0 & Hu0 & Hpair). apply in_map_iff in Hpair.
  destruct Hpair as (o0 & Heq & Ho). inversion Heq; subst u0 o0.
  apply filter_In in Ho. destruct Ho as [Ho Hid]. apply Z.eqb_eq in Hid.
  subst k. unfold aggregate_spender, spender_key. simpl. split.
  - set (grp := filter _ _).
    assert (Hmem : In (u, o) grp).
    { apply filter_In. split; [exact Hjoined |].
      exact (key_eqb_refl (u_id u, u_name u, u_email u)). }
    unfold count_distinct.
    assert (Hne : nodup Z.eq_dec (map (fun j => o_id (snd j)) grp) <> []).
    { apply nodup_nonempty. destruct grp; [destruct Hmem | discriminate]. }
    destruct (nodup Z.eq_dec (map (fun j => o_id (snd j)) grp)); [contradiction |].
    simpl length. lia.
  - exists u, o. repeat split.
    + apply users_of_In. exact Hu0.
    + apply orders_of_In. exact Ho.
    + symmetry. exact Hid.
Qed.

(** X21: the top-spenders query returns at most [limit] rows when [limit]
    is not negative, in non-increasing order of [total_spent]; every row is
    a user of the store with at least one order ([total_orders] is at
    least 1), under that user's name and e-mail address. *)
Theorem X21_top_users_rows (limit : Z) (w w' : world) (rows : list spender_row) :
  0 <= limit ->
  get_top_users_by_spending limit w = (Ok rows, w') ->
  (length rows <= Z.to_nat limit)%nat /\
  (forall i a b, nth_error rows i = Some a -> nth_error rows (S i) = Some b ->
                 fleb (total_spent b) (total_spent a) = true) /\
  exists d,
    db_file w = Some d /\
    forall g, In g rows ->
      1 <= total_orders g /\
      exists u o,
        In (UserRow u) (rows_of d Users) /\
        In (OrderRow o) (rows_of d Orders) /\
        o_user_id o = u_id u /\
        user_name g = u_name u /\
        email g = u_email u.
Proof.
  intros Hlimit H. unfold get_top_users_by_spending in H.
  inversion H as [[Hq Hw]]. clear H Hw.
  destruct (db_file w) as [d |]; [| discriminate Hq].
  apply top_users_query_groups in Hq. simpl in Hq. subst rows. unfold sql_limit.
  destruct (Z.ltb_spec limit 0); [lia |].
  split; [apply firstn_le_length |]. split.
  - apply (Sorted_consecutive (fun a b => fleb (total_spent b) (total_spent a) = true)).
    apply Sorted_firstn. apply order_desc_by_sorted.
  - exists d. split; [reflexivity |]. intros g Hg.
    apply firstn_In in Hg.
    apply (Permutation_in _ (Permutation_sym (order_desc_by_Permutation _ _))) in Hg.
    apply spender_groups_have_orders. exact Hg.
Qed.

Lemma group_names_In (ks : list string) (k : string) : In k ks -> In k (group_names ks).
Proof.
  induction ks as [| k0 rest IH]; simpl; [trivial |].
  intros [-> | Hin]; [left; reflexivity |].
  destruct (String.eqb_spec k0 k) as [-> | Hneq]; [left; reflexivity |].
  right. apply filter_In. split; [apply IH; exact Hin |].
  apply negb_true_iff. apply String.eqb_neq. exact Hneq.
Qed.

Lemma group_names_NoDup (ks : list string) : NoDup (group_names ks).
Proof.
  induction ks as [| k0 rest IH]; simpl; [constructor |].
  constructor.
  - intros Hin. apply filter_In in Hin. destruct Hin as [_ Hneq].
    rewrite String.eqb_refl in Hneq. discriminate Hneq.
  - apply NoDup_filter. exact IH.
Qed.

Lemma group_names_inv (ks : list string) (k : string) : In k (group_names ks) -> In k ks.
Proof.
  induction ks as [| k0 rest IH]; simpl; [trivial |].
  intros [<- | Hin]; [left; reflexivity |].
  apply filter_In in Hin. right. apply IH. apply Hin.
Qed.

(** X22: the category-rating query returns one row for each category that
    has a reviewed product and no other: no category twice, every row with
    a [review_count] of at least 1, in non-increasing order of
    [average_rating], and without any limit. *)
Theorem X22_category_rows (w w' : world) (rows : list rating_row) :
  get_average_rating_by_category w = (Ok rows, w') ->
  NoDup (map rating_category rows) /\
  (forall i a b, nth_error rows i = Some a -> nth_error rows (S i) = Some b ->
                 fleb (average_rating b) (average_rating a) = true) /\
  (forall g, In g rows -> 1 <= review_count g) /\
  exists d,
    db_file w = Some d /\
    forall c, In c (map rating_category rows) <->
              exists p v, In (ProductRow p) (rows_of d Products) /\
                          In (ReviewRow v) (rows_of d Reviews) /\
                          r_product_id v = p_id p /\ p_category p = c.
Proof.
  unfold get_average_rating_by_category. intros H. inversion H as [[Hq Hw]]. clear H Hw.
  destruct (db_file w) as [d |]; [| discriminate Hq].
  apply category_rating_query_groups in Hq. simpl in Hq. subst rows.
  set (joined := join_products_reviews (products_of (rows_of d Products))
                                       (reviews_of (rows_of d Reviews))).
  set (names := group_names (map (fun j => p_category (fst j)) joined)).
  assert (Hgroups : rating_groups d = map (aggregate_rating joined) names) by reflexivity.
  assert (Hcats : map rating_category (rating_groups d) = names).
  { rewrite Hgroups, map_map. simpl. apply map_id. }
  pose proof (order_desc_by_Permutation average_rating (rating_groups d)) as Hperm.
  assert (Hpermc : Permutation names
                     (map rating_category (order_desc_by average_rating (rating_groups d)))).
  { rewrite <- Hcats. apply Permutation_map. exact Hperm. }
  split; [| split; [| split]].
  - eapply Permutation_NoDup; [exact Hpermc | apply group_names_NoDup].
  - apply (Sorted_consecutive (fun a b => fleb (average_rating b) (average_rating a) = true)).
    apply order_desc_by_sorted.
  - intros g Hg. apply (Permutation_in _ (Permutation_sym Hperm)) in Hg.
    rewrite Hgroups in Hg. apply in_map_iff in Hg. destruct Hg as (k & <- & Hk).
    apply group_names_inv in Hk. apply in_map_iff in Hk. destruct Hk as (j & Hcat & Hj).
    unfold aggregate_rating. simpl. set (grp := filter _ joined).
    assert (Hmem : In j grp).
    { apply filter_In. split; [exact Hj |]. rewrite Hcat. apply String.eqb_refl. }
    destruct grp; [destruct Hmem | simpl length; lia].
  - exists d. split; [reflexivity |]. intros c. split.
    + intros Hc. apply (Permutation_in _ (Permutation_sym Hpermc)) in Hc.
      apply group_names_inv in Hc. apply in_map_iff in Hc.
      destruct Hc as ([p v] & Hcat & Hj). simpl in Hcat.
      unfold joined, join_products_reviews in Hj. apply in_flat_map in Hj.
      destruct Hj as (p0 & Hp0 & Hpair). apply in_map_iff in Hpair.
      destruct Hpair as (v0 & Heq & Hv). inversion Heq; subst p0 v0.
      apply filter_In in Hv. destruct Hv as [Hv Hid]. apply Z.eqb_eq in Hid.
      exists p, v. repeat split.
      * apply products_of_In. exact Hp0.
      * unfold reviews_of in Hv. apply in_flat_map in Hv.
        destruct Hv as (r & Hr & Hv). destruct r; simpl in Hv; try contradiction.
        destruct Hv as [<- | []]. exact Hr.
      * symmetry. exact Hid.
      * exact Hcat.
    + intros (p & v & Hp & Hv & Hid & Hcat).
      apply (Permutation_in _ Hpermc). apply group_names_In.
      apply in_map_iff. exists (p, v). split; [exact Hcat |].
      unfold joined, join_products_reviews. apply in_flat_map.
      exists p. split; [apply products_of_intro; exact Hp |].
      apply in_map. apply filter_In. split; [apply reviews_of_intro; exact Hv |].
      apply Z.eqb_eq. symmetry. exact Hid.
Qed.

(** ** The queries and the store file; [main.py] and [dashboard.py] *)

Lemma reopened_store (w : world) (d : database) :
  db_file w = Some d ->
  with_db_file (Some (disk (close (sqlite3_connect (db_file w))))) w = w.
Proof. destruct w as [e dir db]. simpl. intros ->. reflexivity. Qed.

Lemma top_users_on_store (limit : Z) (w : world) (d : database) :
  db_file w = Some d ->
  get_top_users_by_spending limit w = (top_users_query limit d, w).
Proof.
  intros Hdb. unfold get_top_users_by_spending.
  rewrite (reopened_store w d Hdb), Hdb. reflexivity.
Qed.

Lemma product_sales_on_store (w : world) (d : database) :
  db_file w = Some d ->
  get_product_sales_summary w = (product_sales_query d, w).
Proof.
  intros Hdb. unfold get_product_sales_summary.
  rewrite (reopened_store w d Hdb), Hdb. reflexivity.
Qed.

Lemma category_rating_on_store (w : world) (d : database) :
  db_file w = Some d ->
  get_average_rating_by_category w = (category_rating_query d, w).
Proof.
  intros Hdb. unfold get_average_rating_by_category.
  rewrite (reopened_store w d Hdb), Hdb. reflexivity.
Qed.

Lemma queries_of_complete_store (d : database) :
  (forall t, exists rows, get_table t (db_tables d) = Some rows) ->
  forall limit,
    top_users_query limit d
      = Ok (sql_limit limit (order_desc_by total_spent (spender_groups d))) /\
    product_sales_query d = Ok (firstn 10 (order_desc_by total_revenue (sales_groups d))) /\
    category_rating_query d = Ok (order_desc_by average_rating (rating_groups d)).
Proof.
  intros Hall limit.
  destruct (Hall Users) as (u & Hu). destruct (Hall Products) as (p & Hp).
  destruct (Hall Orders) as (o & Ho). destruct (Hall OrderItems) as (i & Hi).
  destruct (Hall Reviews) as (r & Hr).
  split; [| split].
  - unfold top_users_query. rewrite Hu, Ho. reflexivity.
  - destruct (product_sales_query d) as [rows | x] eqn:Hq.
    + f_equal. apply product_sales_query_groups. exact Hq.
    + unfold product_sales_query in Hq. rewrite Hp, Hi in Hq. discriminate Hq.
  - unfold category_rating_query. rewrite Hp, Hr. reflexivity.
Qed.

Lemma run_queries_on_complete_store (w : world) (d : database) :
  db_file w = Some d ->
  (forall t, exists rows, get_table t (db_tables d) = Some rows) ->
  exists q, run_queries w = (Ok q, w) /\
            (length (top_users q) <= 5)%nat /\
            (length (product_sales q) <= 10)%nat.
Proof.
  intros Hdb Hall. destruct (queries_of_complete_store d Hall 5) as (Hu & Hs & Hc).
  unfold run_queries, bind.
  rewrite (top_users_on_store 5 w d Hdb), Hu.
  rewrite (product_sales_on_store w d Hdb), Hs.
  rewrite (category_rating_on_store w d Hdb), Hc.
  eexists. split; [reflexivity |]. cbn [top_users product_sales].
  split; [exact (firstn_le_length 5 _) | exact (firstn_le_length 10 _)].
Qed.



(** The first steps shared by [main] and [regenerate_all_data]: the
    directory is made when missing, the five tables are generated from the
    process's generators and written, and the rest runs on these files. *)
Lemma generate_then (w : world) :
  exists d e',
    generate_tables (env w) = (Ok d, e') /\
    forall B (k : M world B),
      (makedirs_data ;;; generate_data ;;; k) w
      = k {| env := e'; data_dir := Some (written_files d); db_file := db_file w |}.
Proof.
  destruct (generate_tables_returns (today (env w)) (env w) eq_refl)
    as (d & e' & Hgen & _ & _).
  exists d, e'. split; [exact Hgen |]. intros B k.
  unfold bind, makedirs_data.
  destruct (data_dir w) as [files |] eqn:Hdir.
  - rewrite generate_data_unfold, Hgen, Hdir. reflexivity.
  - rewrite generate_data_unfold. simpl. rewrite Hgen. reflexivity.
Qed.

Lemma load_of_written_files (e : entropy) (d : dataset) (old : option database) :
  let w1 := {| env := e; data_dir := Some (written_files d); db_file := old |} in
  let loaded := {| env := e; data_dir := Some (written_files d);
                   db_file := Some {| db_tables := written_files d;
                                      db_indexes := loader_indexes |} |} in
  let valid := forall t, exists rows, read_csv (Some (written_files d)) t = Some rows /\
                                      valid_file t rows in
  (valid /\ load_to_sqlite w1 = (Ok tt, loaded)) \/
  (~ valid /\ exists x w2, load_to_sqlite w1 = (Raise x, w2) /\
                           env w2 = e /\ data_dir w2 = Some (written_files d)).
Proof.
  intros w1 loaded valid.
  assert (Hvalid : valid -> load_to_sqlite w1 = (Ok tt, loaded)).
  { intros Hall.
    destruct (Hall Users) as (u & Hu & Vu). destruct (Hall Products) as (p & Hp & Vp).
    destruct (Hall Orders) as (o & Ho & Vo). destruct (Hall OrderItems) as (i & Hi & Vi).
    destruct (Hall Reviews) as (r & Hr & Vr).
    simpl in Hu, Hp, Ho, Hi, Hr.
    inversion Hu; inversion Hp; inversion Ho; inversion Hi; inversion Hr; subst.
    exact (valid_files_load w1 _ _ _ _ _ eq_refl Vu Vp Vo Vi Vr). }
  destruct (load_to_sqlite w1) as [[[] | x] w2] eqn:Hload.
  - left. pose proof (completed_load_valid w1 w2 Hload) as Hall.
    split; [exact Hall |]. rewrite <- (Hvalid Hall). reflexivity.
  - right. split.
    + intros Hall. specialize (Hvalid Hall). discriminate Hvalid.
    + exists x, w2. split; [reflexivity |].
      unfold w1 in Hload. rewrite load_to_sqlite_unfold in Hload.
      inversion Hload. split; reflexivity.
Qed.

(** X25: the exit status of [main].  The five tables [d] that the
    generators produce are always written; the status is 0 exactly when
    these files are accepted by the schema (well-typed rows, CHECK
    constraints, distinct ids, distinct e-mail addresses), and then the
    store holds exactly these files and the six indexes; otherwise the
    status is 1.  The queries never make a completed load fail. *)
Theorem X25_main_exit_status (w : world) :
  exists d e',
    generate_tables (env w) = (Ok d, e') /\
    env (snd (main w)) = e' /\
    data_dir (snd (main w)) = Some (written_files d) /\
    ((forall t, exists rows, read_csv (Some (written_files d)) t = Some rows /\
                             valid_file t rows) ->
       fst (main w) = 0 /\
       db_file (snd (main w))
       = Some {| db_tables := written_files d; db_indexes := loader_indexes |}) /\
    (~ (forall t, exists rows, read_csv (Some (written_files d)) t = Some rows /\
                               valid_file t rows) ->
       fst (main w) = 1).
Proof.
  destruct (generate_then w) as (d & e' & Hgen & Hrun).
  exists d, e'. split; [exact Hgen |].
  unfold main. rewrite (Hrun _ (load_to_sqlite ;;; run_queries)).
  destruct (load_of_written_files e' d (db_file w))
    as [[Hall Hload] | [Hnot (x & w2 & Hload & Henv & Hdir)]].
  - destruct (run_queries_on_complete_store
                {| env := e'; data_dir := Some (written_files d);
                   db_file := Some {| db_tables := written_files d;
                                      db_indexes := loader_indexes |} |}
                _ eq_refl) as (q & Hq & _).
    { intros t. destruct t; eexists; reflexivity. }
    rewrite (bind_run _ _ _ _ _ Hload), Hq. simpl.
    split; [reflexivity |]. split; [reflexivity |]. split.
    + intros _. split; reflexivity.
    + intros Hno. contradiction.
  - rewrite (bind_raise _ _ _ _ _ Hload). simpl.
    split; [exact Henv |]. split; [exact Hdir |]. split.
    + intros Hall. contradiction.
    + intros _. reflexivity.
Qed.

(** X26: [regenerate_all_data] of the dashboard never raises.  It always
    replaces the five flat files by newly generated tables [d]; it returns
    [True] exactly when the schema accepts these files, and then the store
    holds exactly these files and the six indexes. *)
Theorem X26_regenerate_all_data_outcome (w : world) :
  exists d e' b w',
    generate_tables (env w) = (Ok d, e') /\
    regenerate_all_data w = (Ok b, w') /\
    env w' = e' /\
    data_dir w' = Some (written_files d) /\
    (b = true <->
     forall t, exists rows, read_csv (Some (written_files d)) t = Some rows /\
                            valid_file t rows) /\
    (b = true ->
     db_file w' = Some {| db_tables := written_files d; db_indexes := loader_indexes |}).
Proof.
  destruct (generate_then w) as (d & e' & Hgen & Hrun).
  exists d, e'. unfold regenerate_all_data. rewrite (Hrun _ load_to_sqlite).
  destruct (load_of_written_files e' d (db_file w))
    as [[Hall Hload] | [Hnot (x & w2 & Hload & Henv & Hdir)]].
  - rewrite Hload. eexists _, _. split; [exact Hgen |]. split; [reflexivity |].
    split; [reflexivity |]. split; [reflexivity |]. split.
    + split; [intros _; exact Hall | reflexivity].
    + intros _. reflexivity.
  - rewrite Hload. eexists _, _. split; [exact Hgen |]. split; [reflexivity |].
    split; [exact Henv |]. split; [exact Hdir |]. split.
    + split; [discriminate | intros Hall; contradiction].
    + discriminate.
Qed.

End Properties.

(** * The statements on concrete runs *)

(** ** Orders *)

Lemma C8_order_date_not_before_signup_run :
  exists orders e',
    generate_orders two_users 3 seeded = (Ok orders, e') /\
    forall o, In o orders ->
      exists u, hd_error (filter (fun u => u_id u =? o_user_id o) two_users) = Some u
                /\ In u two_users
                /\ u_id u = o_user_id o
                /\ u_signup_date u <= o_order_date o.
Proof.
  eexists _, _. split.
  - vm_compute. reflexivity.
  - eapply (@C8_order_date_not_before_signup N Q exact_platform two_users 3 seeded).
    vm_compute. reflexivity.
Defined.

Lemma C10_order_items_frame_run :
  exists items final_df e',
    generate_order_items two_orders two_products (1, 5) seeded = (Ok (items, final_df), e') /\
    length final_df = length two_orders /\
    Forall2 (fun x x' => o_id x' = o_id x /\
                         o_user_id x' = o_user_id x /\
                         o_order_date x' = o_order_date x)
            two_orders final_df.
Proof.
  eexists _, _, _. split.
  - vm_compute. reflexivity.
  - eapply (@C10_order_items_frame N Q exact_platform two_orders two_products (1, 5) seeded).
    vm_compute. reflexivity.
Defined.

(** ** Reviews *)

(** The process state in which the first review drawn is by user 1 on
    product 2. *)
Definition crossing : @entropy N := xentropy 1 42 739000.

Lemma C1_review_of_ordered_user_and_ordered_product_run :
  exists reviews e',
    generate_reviews two_users two_products two_orders two_items 2 crossing = (Ok reviews, e') /\
    forall r, In r reviews ->
      (exists o, In o two_orders /\ o_user_id o = r_user_id r) /\
      (exists it, In it two_items /\ oi_product_id it = r_product_id r).
Proof.
  eexists _, _. split.
  - vm_compute. reflexivity.
  - eapply (@C1_review_of_ordered_user_and_ordered_product N Q exact_platform
             two_users two_products two_orders two_items 2 crossing).
    vm_compute. reflexivity.
Defined.

(** C1 as stated fails: user 1 ordered product 1 only, user 2 product 2
    only, and the one review generated is by user 1 on product 2, which no
    order item of an order of user 1 carries. *)
Lemma C1_review_of_product_reviewer_never_ordered :
  exists reviews e' r,
    generate_reviews two_users two_products two_orders two_items 1 crossing = (Ok reviews, e') /\
    In r reviews /\
    r_user_id r = 1 /\ r_product_id r = 2 /\
    ~ (exists it o, In it two_items /\ In o two_orders /\
                    oi_order_id it = o_id o /\
                    o_user_id o = r_user_id r /\
                    oi_product_id it = r_product_id r).
Proof.
  eexists _, _, _. split; [vm_compute; reflexivity |].
  split; [left; reflexivity |].
  split; [vm_compute; reflexivity |]. split; [vm_compute; reflexivity |].
  intros (it & o & Hit & Ho & Hjoin & Huser & Hprod).
  simpl in Hit, Ho.
  destruct Hit as [<- | [<- | []]]; destruct Ho as [<- | [<- | []]];
    simpl in Hjoin, Huser, Hprod; discriminate.
Qed.

Lemma C9_review_after_latest_order_no_fallback_run :
  exists reviews e',
    generate_reviews two_users two_products two_orders two_items 2 crossing = (Ok reviews, e') /\
    forall r, In r reviews ->
      exists first others,
        user_orders_of two_orders (r_user_id r) = first :: others /\
        max_order_date first others <= r_review_date r /\
        forall o, In o two_orders -> o_user_id o = r_user_id r ->
                  o_order_date o <= r_review_date r.
Proof.
  eexists _, _. split.
  - vm_compute. reflexivity.
  - eapply (@C9_review_after_latest_order_no_fallback N Q exact_platform
             two_users two_products two_orders two_items 2 crossing).
    vm_compute. reflexivity.
Defined.

(** ** The pipeline *)

Lemma C4_order_total_is_rounded_sum_of_items_run :
  exists d w',
    generate_data fresh_world = (Ok d, w') /\
    forall o, In o (ds_orders d) ->
      o_total_amount o
      = py_round2 (fsum (map oi_subtotal
                             (filter (fun it => oi_order_id it =? o_id o) (ds_order_items d)))).
Proof.
  eexists _, _. split.
  - vm_compute. reflexivity.
  - eapply (@C4_order_total_is_rounded_sum_of_items N Q exact_platform fresh_world).
    vm_compute. reflexivity.
Defined.

(** The same seeded process started in a directory that already holds
    flat files and a store. *)
Definition seeded_over_old_data : @world N Q :=
  xworld seeded (Some dangling_files) (Some complete_store).

Lemma C3_same_entropy_same_tables_run :
  fst (generate_data fresh_world) = fst (generate_data seeded_over_old_data) /\
  env (snd (generate_data fresh_world)) = env (snd (generate_data seeded_over_old_data)) /\
  (forall d, fst (generate_data fresh_world) = Ok d ->
             data_dir (snd (generate_data fresh_world)) = Some (written_files d) /\
             data_dir (snd (generate_data seeded_over_old_data)) = Some (written_files d)).
Proof.
  apply (@C3_same_entropy_same_tables N Q exact_platform fresh_world seeded_over_old_data
           (all_tables None) dangling_files); reflexivity.
Defined.

(** C3 as stated fails: the generators are seeded once, when the module is
    loaded, and a second [generate_data] in the same process continues from
    the states the first one left.  On this platform the first user of the
    second run signs up on another day than the first user of the first
    run. *)
Lemma C3_second_run_in_process_differs :
  exists d1 w1 d2 w2,
    generate_data fresh_world = (Ok d1, w1) /\
    generate_data w1 = (Ok d2, w2) /\
    d1 <> d2 /\
    data_dir w1 <> data_dir w2.
Proof.
  eexists _, _, _, _. split; [vm_compute; reflexivity |].
  split; [vm_compute; reflexivity |].
  split; intros Heq.
  - apply (f_equal (fun d => map u_signup_date (firstn 1 (ds_users d)))) in Heq.
    vm_compute in Heq. discriminate Heq.
  - apply (f_equal (fun dir => match dir with
                               | Some files => option_map (firstn 1) (of_users files)
                               | None => None
                               end)) in Heq.
    vm_compute in Heq. discriminate Heq.
Qed.

(** The same through the dashboard: two presses of "Regenerate All Data" in
    one session both succeed and leave different flat files. *)
Lemma regenerate_twice_writes_other_files :
  exists w1 w2,
    regenerate_all_data fresh_world = (Ok true, w1) /\
    regenerate_all_data w1 = (Ok true, w2) /\
    data_dir w1 <> data_dir w2.
Proof.
  eexists _, _. split; [vm_compute; reflexivity |].
  split; [vm_compute; reflexivity |].
  intros Heq.
  apply (f_equal (fun dir => match dir with
                             | Some files => option_map (firstn 1) (of_users files)
                             | None => None
                             end)) in Heq.
  vm_compute in Heq. discriminate Heq.
Qed.

(** ** The loader *)

Lemma C2_failed_load_keeps_nothing_of_prior_store_run :
  exists w1',
    load_to_sqlite store_without_files = (Raise (FileNotFoundError "data/users.csv"), w1') /\
    data_dir w1' = data_dir store_without_files /\
    env w1' = env store_without_files /\
    exists w2',
      load_to_sqlite no_store_no_files = (Raise (FileNotFoundError "data/users.csv"), w2') /\
      db_file w2' = db_file w1'.
Proof.
  eexists. split.
  - vm_compute. reflexivity.
  - eapply (@C2_failed_load_keeps_nothing_of_prior_store N Q exact_platform
              store_without_files no_store_no_files).
    + reflexivity.
    + vm_compute. reflexivity.
Defined.

(** C2 as stated fails: a complete store is on disk and the first flat file
    is missing.  The load fails, and the store left behind is neither the
    store that was there (its rows are gone) nor absent (the file exists,
    with five empty tables). *)
Lemma C2_failed_load_destroys_prior_store :
  exists e w',
    load_to_sqlite store_without_files = (Raise e, w') /\
    db_file store_without_files = Some complete_store /\
    db_file w' <> db_file store_without_files /\
    db_file w' <> None.
Proof.
  eexists _, _. split; [vm_compute; reflexivity |].
  split; [reflexivity |].
  split; intros Heq; vm_compute in Heq; discriminate Heq.
Qed.

(** C5 fails on the code: the only order of the flat files belongs to user
    999 and the users file is empty, yet [load_to_sqlite] completes and the
    store holds the order, whose [user_id] resolves to no row.  The schema
    declares the reference, but the connection never turns foreign-key
    enforcement on. *)
Theorem C5_dangling_reference_is_loaded :
  exists w' d,
    load_to_sqlite dangling_world = (Ok tt, w') /\
    db_file w' = Some d /\
    In (OrderRow dangling_order) (rows_of d Orders) /\
    rows_of d Users = [] /\
    references_resolve d (OrderRow dangling_order) = false.
Proof.
  eexists _, _. split; [vm_compute; reflexivity |].
  split; [reflexivity |].
  split; [left; reflexivity |].
  split; reflexivity.
Qed.

(** Had the connection enforced foreign keys, the same insert would have
    been refused. *)
Lemma dangling_reference_refused_under_enforcement :
  exists w' d,
    load_to_sqlite dangling_world = (Ok tt, w') /\
    db_file w' = Some d /\
    insert_rows true Orders (with_rows Orders [] d) [OrderRow dangling_order]
    = Raise IntegrityError.
Proof.
  eexists _, _. split; [vm_compute; reflexivity |].
  split; reflexivity.
Qed.

(** ** The product-revenue query *)

Lemma C7_sales_summary_at_most_ten_non_increasing_run :
  exists rows w',
    get_product_sales_summary tied_revenue_world = (Ok rows, w') /\
    (length rows <= 10)%nat /\
    forall i a b, nth_error rows i = Some a -> nth_error rows (S i) = Some b ->
                  fleb (total_revenue b) (total_revenue a) = true.
Proof.
  eexists _, _. split.
  - vm_compute. reflexivity.
  - eapply (@C7_sales_summary_at_most_ten_non_increasing N Q exact_platform tied_revenue_world).
    vm_compute. reflexivity.
Defined.

(** C7 as stated fails: both products of the store were sold once for
    10.00, the query returns two rows of revenue 10.00, and the first is not
    strictly greater than the second. *)
Lemma C7_equal_revenues_are_adjacent :
  exists rows w' a b,
    get_product_sales_summary tied_revenue_world = (Ok rows, w') /\
    nth_error rows 0 = Some a /\
    nth_error rows 1 = Some b /\
    fltb (total_revenue b) (total_revenue a) = false.
Proof.
  eexists _, _, _, _. split; [vm_compute; reflexivity |].
  split; [reflexivity |]. split; reflexivity.
Qed.

(** * Further properties on concrete runs *)

(** ** The generators *)

Lemma X3_generate_orders_shape_run :
  exists orders e',
    generate_orders two_users 3 seeded = (Ok orders, e') /\
    length orders = Z.to_nat 3 /\
    map o_id orders = range1 3 /\
    Forall (fun o => In (o_user_id o) (map u_id two_users) /\ o_order_date o <= today seeded)
           orders.
Proof.
  apply (@X3_generate_orders_shape N Q exact_platform two_users 3 seeded).
  - discriminate.
  - repeat constructor; simpl; lia.
Defined.

Lemma X5_order_items_are_lines_of_orders_run :
  exists items final_df e',
    generate_order_items two_orders two_products (1, 5) seeded = (Ok (items, final_df), e') /\
    map oi_id items = range1 (Z.of_nat (length items)) /\
    Forall (fun it =>
              In (oi_order_id it) (map o_id two_orders) /\
              In (oi_product_id it) (map p_id two_products) /\
              1 <= oi_quantity it <= 5 /\
              exists p, In p two_products /\ p_id p = oi_product_id it /\
                        oi_subtotal it
                        = py_round2 (fmul (p_price p) (float_of_Z (oi_quantity it))))
           items.
Proof.
  eexists _, _, _. split.
  - vm_compute. reflexivity.
  - eapply (@X5_order_items_are_lines_of_orders N Q exact_platform
              two_orders two_products (1, 5) seeded).
    vm_compute. reflexivity.
Defined.

Lemma X6_items_per_order_run :
  exists items final_df e',
    generate_order_items two_orders two_products (1, 5) seeded = (Ok (items, final_df), e') /\
    forall o, In o two_orders ->
      let own := filter (fun it => oi_order_id it =? o_id o) items in
      Z.min 1 (Z.of_nat (length two_products)) <= Z.of_nat (length own)
        <= Z.min 5 (Z.of_nat (length two_products)) /\
      (NoDup (map p_id two_products) -> NoDup (map oi_product_id own)).
Proof.
  eexists _, _, _. split.
  - vm_compute. reflexivity.
  - eapply (@X6_items_per_order N Q exact_platform two_orders two_products 1 5 seeded).
    + repeat constructor; simpl; lia.
    + vm_compute. reflexivity.
Defined.

Lemma X8_generate_reviews_shape_run :
  exists reviews e',
    generate_reviews two_users two_products two_orders two_items 2 crossing = (Ok reviews, e') /\
    length reviews = Z.to_nat 2 /\
    map r_id reviews = range1 2 /\
    Forall (fun r => 1 <= r_rating r <= 5 /\ r_review_date r <= today crossing) reviews.
Proof.
  apply (@X8_generate_reviews_shape N Q exact_platform
           two_users two_products two_orders two_items 2 crossing).
  - discriminate.
  - discriminate.
  - repeat constructor; simpl; lia.
Defined.

Lemma X9_generate_reviews_without_orders_run :
  generate_reviews two_users two_products [] two_items 1 crossing = (Raise IndexError, crossing).
Proof.
  apply (@X9_generate_reviews_without_orders N Q exact_platform
           two_users two_products two_items 1 crossing).
  lia.
Defined.

Lemma X10_generated_dataset_is_consistent_run :
  exists d w',
    generate_data fresh_world = (Ok d, w') /\
    map u_id (ds_users d) = range1 100 /\
    map p_id (ds_products d) = range1 50 /\
    map o_id (ds_orders d) = range1 200 /\
    map r_id (ds_reviews d) = range1 150 /\
    map oi_id (ds_order_items d) = range1 (Z.of_nat (length (ds_order_items d))) /\
    200 <= Z.of_nat (length (ds_order_items d)) <= 1000 /\
    referentially_consistent d.
Proof.
  eexists _, _. split.
  - vm_compute. reflexivity.
  - eapply (@X10_generated_dataset_is_consistent N Q exact_platform fresh_world).
    vm_compute. reflexivity.
Defined.

(** ** The loader *)

Lemma X12_load_after_generate_run :
  exists d w1 w2,
    generate_data fresh_world = (Ok d, w1) /\
    load_to_sqlite w1 = (Ok tt, w2) /\
    db_file w2 = Some {| db_tables := written_files d; db_indexes := loader_indexes |} /\
    data_dir w2 = Some (written_files d).
Proof.
  eexists _, _, _. split; [vm_compute; reflexivity |]. split.
  - vm_compute. reflexivity.
  - eapply (@X12_load_after_generate N Q exact_platform fresh_world).
    + vm_compute. reflexivity.
    + vm_compute. reflexivity.
Defined.



Lemma X16_load_without_users_file_run :
  load_to_sqlite store_without_files
  = (Raise (FileNotFoundError "data/users.csv"),
     {| env := env store_without_files; data_dir := data_dir store_without_files;
        db_file := Some schema_only |}).
Proof.
  apply (@X16_load_without_users_file N Q exact_platform store_without_files).
  reflexivity.
Defined.

Lemma X17_load_stops_after_users_run :
  load_to_sqlite users_only_world
  = (Raise (FileNotFoundError "data/products.csv"),
     {| env := env users_only_world; data_dir := data_dir users_only_world;
        db_file := Some (with_rows Users (map (@UserRow Q) two_users) schema_only) |}).
Proof.
  apply (@X17_load_stops_after_users N Q exact_platform users_only_world
           (map (@UserRow Q) two_users)).
  - reflexivity.
  - unfold valid_file. simpl.
    split; [repeat constructor |]. split; [repeat constructor |].
    split; repeat constructor; simpl; intuition discriminate.
  - reflexivity.
Defined.

(** ** The queries *)

Lemma exact_fleb_transitive : @fleb_transitive N Q exact_platform.
Proof.
  intros x y z Hxy Hyz. simpl in *.
  apply Qle_bool_iff. apply Qle_bool_iff in Hxy. apply Qle_bool_iff in Hyz.
  exact (Qle_trans _ _ _ Hxy Hyz).
Qed.

Lemma X19_sales_rows_are_sold_products_run :
  exists rows w' d,
    get_product_sales_summary tied_revenue_world = (Ok rows, w') /\
    db_file tied_revenue_world = Some d /\
    forall g, In g rows ->
      1 <= times_ordered g /\
      exists p oi,
        In (ProductRow p) (rows_of d Products) /\
        In (OrderItemRow oi) (rows_of d OrderItems) /\
        oi_product_id oi = p_id p /\
        product_name g = p_name p /\
        category g = p_category p.
Proof.
  assert (Hq : get_product_sales_summary tied_revenue_world
               = (Ok (firstn 10 (order_desc_by total_revenue (sales_groups complete_store))),
                  tied_revenue_world))
    by (vm_compute; reflexivity).
  destruct (@X19_sales_rows_are_sold_products N Q exact_platform tied_revenue_world _ _ Hq)
    as (d & Hd & Hrows).
  eexists _, _, d. split; [exact Hq |]. split; [exact Hd | exact Hrows].
Defined.

Lemma X20_sales_rows_are_the_top_run :
  exists rows w',
    get_product_sales_summary tied_revenue_world = (Ok rows, w') /\
    forall g, In g (sales_groups complete_store) ->
      In g rows \/
      forall r, In r rows -> fleb (total_revenue g) (total_revenue r) = true.
Proof.
  eexists _, _. split.
  - vm_compute. reflexivity.
  - eapply (@X20_sales_rows_are_the_top N Q exact_platform tied_revenue_world).
    + exact exact_fleb_transitive.
    + reflexivity.
    + vm_compute. reflexivity.
Defined.

Lemma X21_top_users_rows_run :
  exists rows w',
    get_top_users_by_spending 1 reviewed_world = (Ok rows, w') /\
    (length rows <= Z.to_nat 1)%nat /\
    (forall i a b, nth_error rows i = Some a -> nth_error rows (S i) = Some b ->
                   fleb (total_spent b) (total_spent a) = true) /\
    exists d,
      db_file reviewed_world = Some d /\
      forall g, In g rows ->
        1 <= total_orders g /\
        exists u o,
          In (UserRow u) (rows_of d Users) /\
          In (OrderRow o) (rows_of d Orders) /\
          o_user_id o = u_id u /\
          user_name g = u_name u /\
          email g = u_email u.
Proof.
  eexists _, _. split.
  - vm_compute. reflexivity.
  - eapply (@X21_top_users_rows N Q exact_platform 1 reviewed_world).
    + lia.
    + vm_compute. reflexivity.
Defined.

Lemma X22_category_rows_run :
  exists rows w',
    get_average_rating_by_category reviewed_world = (Ok rows, w') /\
    NoDup (map rating_category rows) /\
    (forall i a b, nth_error rows i = Some a -> nth_error rows (S i) = Some b ->
                   fleb (average_rating b) (average_rating a) = true) /\
    (forall g, In g rows -> 1 <= review_count g) /\
    exists d,
      db_file reviewed_world = Some d /\
      forall c, In c (map rating_category rows) <->
                exists p v, In (ProductRow p) (rows_of d Products) /\
                            In (ReviewRow v) (rows_of d Reviews) /\
                            r_product_id v = p_id p /\ p_category p = c.
Proof.
  eexists _, _. split.
  - vm_compute. reflexivity.
  - eapply (@X22_category_rows N Q exact_platform exact_averaging reviewed_world).
    vm_compute. reflexivity.
Defined.
